(** * The OAuth authorization-server proxy of mcp-billcom (src/oauth.ts)

    A shallow embedding of the request handlers of [createOAuthRouter] and of
    the [requireAuth] middleware.  The five module-level [Map]s of oauth.ts
    become one record of finite maps that every handler receives and returns;
    the results of [randomUUID()], [Date.now()], [process.env] and of the
    outbound call to the identity provider are arguments of the handler that
    asks for them.

    Strings are byte strings: a (well-formed) JavaScript string is
    represented by its UTF-8 encoding, which is also what
    [createHash("sha256").update(s)] hashes.  The members of [req.query]
    have the type the handlers cast them to, [string] or [undefined].  A
    body is modelled twice: [token] and [register] are the handlers of the
    two POST routes on a body that is an object with members of the types
    the handlers cast them to, and [post_token] and [post_register] are the
    same handlers on whatever [req.body] holds, [undefined] included.
    Times are milliseconds since the epoch, in [Z].

    The /oauth/callback handler awaits Google between deleting the pending
    authorization and storing the code; it is two steps, [callback_begin]
    and [callback_resume], and other handlers may run in between. *)

From Stdlib Require Import ZArith String Ascii List Bool Lia.
From stdpp Require Import gmap strings list fin_maps pretty.
Import ListNotations.

Local Open Scope Z_scope.
Local Open Scope string_scope.

(** ** JavaScript values of type [string | undefined] *)

Module JS.

(** [!x] for [x : string | undefined]: [undefined] and the empty string
    are the two falsy values. *)
Definition falsy (x : option string) : bool :=
  match x with
  | None => true
  | Some s => if decide (s = "") then true else false
  end.

(** [x || d] *)
Definition or_default (x : option string) (d : string) : string :=
  if falsy x then d else default d x.

(** [a !== b] where [a] is a string and [b] may be [undefined] *)
Definition strict_ne (a : string) (b : option string) : bool :=
  if decide (Some a = b) then false else true.

(** [x === lit] *)
Definition strict_eq (x : option string) (lit : string) : bool :=
  if decide (x = Some lit) then true else false.

(** [s.startsWith(p)] *)
Definition startsWith (p s : string) : bool := String.prefix p s.

(** [s.slice(n)] for [0 <= n] *)
Fixpoint slice (n : nat) (s : string) : string :=
  match n, s with
  | O, _ => s
  | S n', String _ s' => slice n' s'
  | S _, EmptyString => EmptyString
  end.

(** [s.split(",")]: the pieces between the separators, at least one. *)
Fixpoint split_on (sep : ascii) (s : string) : list string :=
  match s with
  | EmptyString => [EmptyString]
  | String c s' =>
      if decide (c = sep) then EmptyString :: split_on sep s'
      else match split_on sep s' with
           | piece :: rest => String c piece :: rest
           | [] => [String c EmptyString]
           end
  end.

(** The white space and line terminators that [String.prototype.trim]
    removes, as UTF-8 byte sequences: TAB, LF, VT, FF, CR, SP, U+00A0,
    U+1680, U+2000..U+200A, U+2028, U+2029, U+202F, U+205F, U+3000 and
    U+FEFF. *)
Definition bytes (l : list Z) : string :=
  string_of_list_ascii (map (fun b => ascii_of_N (Z.to_N b)) l).

Definition white_space : list string :=
  map bytes
    ([[9]; [10]; [11]; [12]; [13]; [32]; [194; 160]; [225; 154; 128]]
     ++ map (fun b => [226; 128; b]) [128; 129; 130; 131; 132; 133; 134; 135; 136; 137; 138]
     ++ [[226; 128; 168]; [226; 128; 169]; [226; 128; 175]; [226; 129; 159];
         [227; 128; 128]; [239; 187; 191]]).

(** One white-space character removed from the front, if there is one. *)
Definition strip1 (s : string) : option string :=
  match filter (fun w => bool_decide (String.prefix w s = true)) white_space with
  | w :: _ => Some (slice (String.length w) s)
  | [] => None
  end.

Fixpoint trimStart_fuel (fuel : nat) (s : string) : string :=
  match fuel with
  | O => s
  | S f => match strip1 s with
           | Some s' => trimStart_fuel f s'
           | None => s
           end
  end.

Definition trimStart (s : string) : string := trimStart_fuel (String.length s) s.

Definition rev_string (s : string) : string :=
  string_of_list_ascii (rev (list_ascii_of_string s)).

(** The same from the end: a suffix of [s] is a prefix of its reversal. *)
Definition strip1_end (s : string) : option string :=
  match filter (fun w => bool_decide (String.prefix (rev_string w) (rev_string s) = true))
               white_space with
  | w :: _ => Some (String.substring 0 (String.length s - String.length w) s)
  | [] => None
  end.

Fixpoint trimEnd_fuel (fuel : nat) (s : string) : string :=
  match fuel with
  | O => s
  | S f => match strip1_end s with
           | Some s' => trimEnd_fuel f s'
           | None => s
           end
  end.

Definition trimEnd (s : string) : string := trimEnd_fuel (String.length s) s.

(** [s.trim()] *)
Definition trim (s : string) : string := trimEnd (trimStart s).

End JS.

(** ** SHA-256 (FIPS 180-4) and base64url, as [node:crypto] computes them *)

Module SHA256.

Definition mask32 : Z := 2 ^ 32 - 1.
Definition add32 (x y : Z) : Z := (x + y) mod 2 ^ 32.
Definition rotr (n x : Z) : Z :=
  Z.lor (Z.shiftr x n) (Z.land (Z.shiftl x (32 - n)) mask32).
Definition xor3 (x y z : Z) : Z := Z.lxor (Z.lxor x y) z.

Definition Ch (x y z : Z) : Z :=
  Z.lxor (Z.land x y) (Z.land (Z.lxor x mask32) z).
Definition Maj (x y z : Z) : Z :=
  xor3 (Z.land x y) (Z.land x z) (Z.land y z).
Definition Sigma0 (x : Z) : Z := xor3 (rotr 2 x) (rotr 13 x) (rotr 22 x).
Definition Sigma1 (x : Z) : Z := xor3 (rotr 6 x) (rotr 11 x) (rotr 25 x).
Definition sigma0 (x : Z) : Z := xor3 (rotr 7 x) (rotr 18 x) (Z.shiftr x 3).
Definition sigma1 (x : Z) : Z := xor3 (rotr 17 x) (rotr 19 x) (Z.shiftr x 10).

(** The first sixty-four primes. *)
Definition is_prime (n : nat) : bool :=
  forallb (fun d => negb (Nat.eqb (n mod d) 0)) (seq 2 (n - 2)).
Definition primes64 : list Z :=
  map Z.of_nat (take 64 (filter (fun n => is_prime n = true) (seq 2 400))).

(** Integer cube root: the largest [r < 2 ^ bits] with [r ^ 3 <= n]. *)
Fixpoint icbrt_bits (bits : nat) (n r : Z) : Z :=
  match bits with
  | O => r
  | S b =>
      let r' := r + 2 ^ Z.of_nat b in
      icbrt_bits b n (if Z.leb (r' * r' * r') n then r' else r)
  end.
Definition icbrt (n : Z) : Z := icbrt_bits 40 n 0.

(** Initial hash value: the first 32 bits of the fractional parts of the
    square roots of the first eight primes. *)
Definition H0 : list Z :=
  Eval vm_compute in map (fun p => Z.sqrt (p * 2 ^ 64) mod 2 ^ 32) (take 8 primes64).

(** Round constants: the same of the cube roots of the first 64 primes. *)
Definition K : list Z :=
  Eval vm_compute in map (fun p => icbrt (p * 2 ^ 96) mod 2 ^ 32) primes64.

Definition be_bytes (n : nat) (x : Z) : list Z :=
  map (fun i => Z.shiftr x (8 * Z.of_nat i) mod 256) (rev (seq 0 n)).

Definition pad (msg : list Z) : list Z :=
  let len := Z.of_nat (length msg) in
  msg ++ [128] ++ repeat 0 (Z.to_nat ((55 - len) mod 64)) ++ be_bytes 8 (8 * len).

Fixpoint words (bs : list Z) : list Z :=
  match bs with
  | a :: b :: c :: d :: rest =>
      (Z.shiftl a 24 + Z.shiftl b 16 + Z.shiftl c 8 + d) :: words rest
  | _ => []
  end.

Fixpoint schedule (n : nat) (W : list Z) : list Z :=
  match n with
  | O => W
  | S n' =>
      let t := length W in
      let w i := nth (t - i) W 0 in
      schedule n' (W ++ [add32 (add32 (sigma1 (w 2%nat)) (w 7%nat))
                               (add32 (sigma0 (w 15%nat)) (w 16%nat))])
  end.

Definition round (v : list Z) (kw : Z * Z) : list Z :=
  match v with
  | [a; b; c; d; e; f; g; h] =>
      let T1 := add32 (add32 (add32 h (Sigma1 e)) (add32 (Ch e f g) kw.1)) kw.2 in
      let T2 := add32 (Sigma0 a) (Maj a b c) in
      [add32 T1 T2; a; b; c; add32 d T1; e; f; g]
  | _ => v
  end.

Definition compress (H : list Z) (block : list Z) : list Z :=
  let W := schedule 48 block in
  zip_with add32 H (fold_left round (zip K W) H).

Fixpoint blocks (fuel : nat) (ws : list Z) : list (list Z) :=
  match fuel, ws with
  | _, [] => []
  | O, _ => []
  | S f, _ => take 16 ws :: blocks f (drop 16 ws)
  end.

Definition digest (msg : list Z) : list Z :=
  let ws := words (pad msg) in
  flat_map (be_bytes 4) (fold_left compress (blocks (length ws) ws) H0).

Definition alphabet : string :=
  "ABCDEFGHIJKLMNOPQRSTUVWXYZabcdefghijklmnopqrstuvwxyz0123456789-_".

Definition sextet (i : Z) : ascii :=
  default "="%char (String.get (Z.to_nat i) alphabet).

(** [digest("base64url")]: three bytes to four characters, no padding. *)
Fixpoint base64url (bs : list Z) : list ascii :=
  match bs with
  | a :: b :: c :: rest =>
      [sextet (Z.shiftr a 2);
       sextet (Z.lor (Z.shiftl (Z.land a 3) 4) (Z.shiftr b 4));
       sextet (Z.lor (Z.shiftl (Z.land b 15) 2) (Z.shiftr c 6));
       sextet (Z.land c 63)] ++ base64url rest
  | [a; b] =>
      [sextet (Z.shiftr a 2);
       sextet (Z.lor (Z.shiftl (Z.land a 3) 4) (Z.shiftr b 4));
       sextet (Z.shiftl (Z.land b 15) 2)]
  | [a] =>
      [sextet (Z.shiftr a 2); sextet (Z.shiftl (Z.land a 3) 4)]
  | [] => []
  end.

Definition utf8 (s : string) : list Z :=
  map (fun a => Z.of_N (N_of_ascii a)) (list_ascii_of_string s).

End SHA256.

(** [function sha256(input)] of oauth.ts *)
Definition sha256 (input : string) : string :=
  string_of_list_ascii (SHA256.base64url (SHA256.digest (SHA256.utf8 input))).


(** ** Data model (the interfaces of oauth.ts) *)

Module OAuthConfig.
Record t := mk {
  serverUrl : string;
  googleClientId : string;
  googleClientSecret : string }.
End OAuthConfig.

Module RegisteredClient.
Record t := mk {
  clientId : string;
  clientSecret : string;
  redirectUris : list string;
  clientName : string }.
End RegisteredClient.

Module PendingAuth.
Record t := mk {
  clientId : string;
  redirectUri : string;
  codeChallenge : string;
  codeChallengeMethod : string;
  clientState : string;
  createdAt : Z }.
End PendingAuth.

Module AuthCode.
Record t := mk {
  code : string;
  clientId : string;
  redirectUri : string;
  codeChallenge : string;
  codeChallengeMethod : string;
  googleEmail : string;
  expiresAt : Z }.
End AuthCode.

Module StoredToken.
Record t := mk {
  clientId : string;
  googleEmail : string;
  expiresAt : Z }.
End StoredToken.

(** The in-memory stores: [clients], [pendingAuths] (keyed by the state
    sent to Google), [authCodes], [accessTokens] and [refreshTokens]. *)
Record Stores := mkStores {
  clients : gmap string RegisteredClient.t;
  pendingAuths : gmap string PendingAuth.t;
  authCodes : gmap string AuthCode.t;
  accessTokens : gmap string StoredToken.t;
  refreshTokens : gmap string StoredToken.t }.

Definition with_pendingAuths (m : gmap string PendingAuth.t) (s : Stores) : Stores :=
  mkStores (clients s) m (authCodes s) (accessTokens s) (refreshTokens s).
Definition with_authCodes (m : gmap string AuthCode.t) (s : Stores) : Stores :=
  mkStores (clients s) (pendingAuths s) m (accessTokens s) (refreshTokens s).
Definition with_accessTokens (m : gmap string StoredToken.t) (s : Stores) : Stores :=
  mkStores (clients s) (pendingAuths s) (authCodes s) m (refreshTokens s).
Definition with_refreshTokens (m : gmap string StoredToken.t) (s : Stores) : Stores :=
  mkStores (clients s) (pendingAuths s) (authCodes s) (accessTokens s) m.

(** [m.get(k)] where the key expression may be [undefined]: every key of
    the stores is a string, so an [undefined] key finds nothing. *)
Definition Map_get {V} (m : gmap string V) (k : option string) : option V :=
  match k with
  | Some key => m !! key
  | None => None
  end.

(** The value of an expression of type [string | undefined] at a point
    where the handler has already returned unless it is a string. *)
Definition str (x : option string) : string := default "" x.

(** The periodic cleanup ([setInterval], every five minutes). *)
Definition sweep (now : Z) (s : Stores) : Stores :=
  mkStores
    (clients s)
    (filter (fun kv => ~ (now - PendingAuth.createdAt kv.2 > 10 * 60000)) (pendingAuths s))
    (filter (fun kv => ~ (now > AuthCode.expiresAt kv.2)) (authCodes s))
    (filter (fun kv => ~ (now > StoredToken.expiresAt kv.2)) (accessTokens s))
    (refreshTokens s).

(** ** Responses *)

Inductive json :=
| JString (s : string)
| JNumber (n : Z).

(** [URL]: what precedes the query, and [searchParams] in order. *)
Record URL := mkURL {
  href_base : string;
  searchParams : list (string * string) }.

(** [url.searchParams.set(name, value)]: the first pair named [name] gets
    the value and the later ones are removed; without one the pair is
    appended. *)
Fixpoint searchParams_set (name value : string) (l : list (string * string))
  : list (string * string) :=
  match l with
  | [] => [(name, value)]
  | (k, v) :: rest =>
      if decide (k = name)
      then (name, value) :: filter (fun kv => kv.1 <> name) rest
      else (k, v) :: searchParams_set name value rest
  end.

(** [url.searchParams.get(name)] *)
Definition searchParams_get (name : string) (l : list (string * string)) : option string :=
  snd <$> List.find (fun kv => bool_decide (kv.1 = name)) l.

Definition URL_set (name value : string) (u : URL) : URL :=
  mkURL (href_base u) (searchParams_set name value (searchParams u)).

(** What a handler sends: [res.status(n).json(obj)], [res.status(n).send(text)]
    or [res.redirect(url.toString())], the last one kept as the [URL] whose
    serialisation is the [Location] header. *)
Inductive Body :=
| Json (fields : list (string * json))
| Text (s : string)
| Redirect (location : URL).

Record Response := mkResponse {
  status : Z;
  body : Body }.

Definition error_json (code : Z) (error : string) : Response :=
  mkResponse code (Json [("error", JString error)]).

Definition error_json_desc (code : Z) (error description : string) : Response :=
  mkResponse code (Json [("error", JString error); ("error_description", JString description)]).

(** The [error] member of a JSON response body, if it has one. *)
Definition error_of (r : Response) : option string :=
  match body r with
  | Json fields =>
      match List.find (fun kv => bool_decide (kv.1 = "error")) fields with
      | Some (_, JString e) => Some e
      | _ => None
      end
  | _ => None
  end.

(** The member [name] of a JSON response body. *)
Definition field (name : string) (r : Response) : option json :=
  match body r with
  | Json fields => snd <$> List.find (fun kv => bool_decide (kv.1 = name)) fields
  | _ => None
  end.

Definition has_field (name : string) (r : Response) : bool :=
  match body r with
  | Json fields => existsb (fun kv => bool_decide (kv.1 = name)) fields
  | _ => false
  end.

(** ** GET /oauth/authorize *)

Module AuthorizeQuery.
Record t := mk {
  response_type : option string;
  client_id : option string;
  redirect_uri : option string;
  code_challenge : option string;
  code_challenge_method : option string;
  state : option string }.
End AuthorizeQuery.

(** The URL the browser is sent to: Google's authorization endpoint with
    the seven parameters the handler sets. *)
Definition googleAuthUrl (config : OAuthConfig.t) (googleState : string) : URL :=
  URL_set "prompt" "consent"
  (URL_set "access_type" "offline"
  (URL_set "state" googleState
  (URL_set "scope" "openid email"
  (URL_set "response_type" "code"
  (URL_set "redirect_uri" (OAuthConfig.serverUrl config +:+ "/oauth/callback")
  (URL_set "client_id" (OAuthConfig.googleClientId config)
  (mkURL "https://accounts.google.com/o/oauth2/v2/auth" []))))))).

(** [googleState] is the result of [randomUUID()] and [now] that of
    [Date.now()]. *)
Definition authorize (config : OAuthConfig.t) (googleState : string) (now : Z)
    (q : AuthorizeQuery.t) (s : Stores) : Response * Stores :=
  let '(AuthorizeQuery.mk response_type client_id redirect_uri
          code_challenge code_challenge_method state) := q in
  if negb (JS.strict_eq response_type "code") then
    (error_json 400 "unsupported_response_type", s)
  else if JS.falsy client_id || JS.falsy redirect_uri then
    (error_json_desc 400 "invalid_request" "client_id and redirect_uri required", s)
  else if JS.falsy code_challenge || negb (JS.strict_eq code_challenge_method "S256") then
    (error_json_desc 400 "invalid_request" "PKCE with S256 required", s)
  else
    let pending :=
      PendingAuth.mk (str client_id) (str redirect_uri) (str code_challenge)
        (str code_challenge_method) (JS.or_default state "") now in
    (mkResponse 302 (Redirect (googleAuthUrl config googleState)),
     with_pendingAuths (<[googleState := pending]> (pendingAuths s)) s).

(** ** GET /oauth/callback *)

Module CallbackQuery.
Record t := mk {
  code : option string;
  state : option string;
  error : option string }.
End CallbackQuery.

(** [process.env.ALLOWED_EMAILS?.split(",").map((e) => e.trim())] *)
Definition allowedEmails (ALLOWED_EMAILS : option string) : option (list string) :=
  (fun v => map JS.trim (JS.split_on "," v)) <$> ALLOWED_EMAILS.

(** [allowedEmails && !allowedEmails.includes(email)] *)
Definition rejected_by_allowlist (ALLOWED_EMAILS : option string) (email : string) : bool :=
  match allowedEmails ALLOWED_EMAILS with
  | Some l => negb (bool_decide (email ∈ l))
  | None => false
  end.

(** The outcome of [await exchangeGoogleCode(...)], which talks to Google
    only and reads or writes none of the stores. *)
Inductive Exchange :=
| Resolved (email : string)
| Threw.

(** The handler up to its [await]: it either answers at once or is left
    waiting for Google with [pending] in hand, the entry already deleted. *)
Definition callback_begin (q : CallbackQuery.t) (s : Stores)
  : (Response + PendingAuth.t) * Stores :=
  if negb (JS.falsy (CallbackQuery.error q)) then
    (inl (mkResponse 400 (Text ("OAuth error: " +:+ str (CallbackQuery.error q)))), s)
  else
    match Map_get (pendingAuths s) (CallbackQuery.state q) with
    | None => (inl (mkResponse 400 (Text "Invalid or expired state parameter")), s)
    | Some pending =>
        (inr pending,
         with_pendingAuths (delete (str (CallbackQuery.state q)) (pendingAuths s)) s)
    end.

Section Callback.

(** [new URL(s)] of the platform: [None] when it throws. *)
Variable URL_parse : string -> option URL.

(** The handler from the [await] on, in the stores as they are when Google
    has answered.  [ourCode] is the result of [randomUUID()] and [now]
    that of [Date.now()]. *)
Definition callback_resume (ALLOWED_EMAILS : option string) (exchanged : Exchange)
    (ourCode : string) (now : Z) (pending : PendingAuth.t) (s : Stores)
  : Response * Stores :=
  match exchanged with
  | Threw => (mkResponse 500 (Text "Authentication failed"), s)
  | Resolved email =>
      if rejected_by_allowlist ALLOWED_EMAILS email then
        (mkResponse 403 (Text "Access denied"), s)
      else
        let authCode :=
          AuthCode.mk ourCode (PendingAuth.clientId pending)
            (PendingAuth.redirectUri pending) (PendingAuth.codeChallenge pending)
            (PendingAuth.codeChallengeMethod pending) email (now + 5 * 60000) in
        let s' := with_authCodes (<[ourCode := authCode]> (authCodes s)) s in
        match URL_parse (PendingAuth.redirectUri pending) with
        | None => (mkResponse 500 (Text "Authentication failed"), s')
        | Some redirectUrl =>
            let redirectUrl := URL_set "code" ourCode redirectUrl in
            let redirectUrl :=
              if JS.falsy (Some (PendingAuth.clientState pending)) then redirectUrl
              else URL_set "state" (PendingAuth.clientState pending) redirectUrl in
            (mkResponse 302 (Redirect redirectUrl), s')
        end
  end.

(** A whole run of the handler with nothing else running during the
    [await]. *)
Definition callback (ALLOWED_EMAILS : option string) (exchanged : Exchange)
    (ourCode : string) (now : Z) (q : CallbackQuery.t) (s : Stores)
  : Response * Stores :=
  match callback_begin q s with
  | (inl response, s') => (response, s')
  | (inr pending, s') => callback_resume ALLOWED_EMAILS exchanged ourCode now pending s'
  end.

End Callback.

(** ** POST /oauth/token *)

Module TokenBody.
Record t := mk {
  grant_type : option string;
  code : option string;
  redirect_uri : option string;
  client_id : option string;
  client_secret : option string;
  code_verifier : option string;
  refresh_token : option string }.
End TokenBody.

Definition expiresIn : Z := 3600.

(** The calls the handler makes to the platform: [Date.now()] at the expiry
    test of the code, then [randomUUID()] once or twice, then [Date.now()]
    when the access token is stored. *)
Module TokenEnv.
Record t := mk {
  now_at_check : Z;
  accessToken : string;
  refreshTok : string;
  now_at_issue : Z }.
End TokenEnv.

(** [client && client.clientSecret !== client_secret] *)
Definition secret_mismatch (s : Stores) (client_id client_secret : option string) : bool :=
  match Map_get (clients s) client_id with
  | Some client => JS.strict_ne (RegisteredClient.clientSecret client) client_secret
  | None => false
  end.

(** The handler on a body that a parser has produced and whose members
    are strings, as the handler casts them ([Record<string, string>], a
    member that is not there being [undefined]).  [post_token] below is the
    handler on every [req.body]. *)
Definition token (env : TokenEnv.t) (b : TokenBody.t) (s : Stores) : Response * Stores :=
  let '(TokenBody.mk grant_type code redirect_uri client_id client_secret
          code_verifier refresh_token) := b in
  if JS.falsy client_id then
    (error_json_desc 400 "invalid_request" "client_id required", s)
  else if secret_mismatch s client_id client_secret then
    (error_json 401 "invalid_client", s)
  else if JS.strict_eq grant_type "authorization_code" then
    match Map_get (authCodes s) code with
    | None => (error_json_desc 400 "invalid_grant" "Invalid or expired code", s)
    | Some authCode =>
        let s := with_authCodes (delete (str code) (authCodes s)) s in
        if bool_decide (TokenEnv.now_at_check env > AuthCode.expiresAt authCode) then
          (error_json_desc 400 "invalid_grant" "Code expired", s)
        else if JS.strict_ne (AuthCode.clientId authCode) client_id
                || JS.strict_ne (AuthCode.redirectUri authCode) redirect_uri then
          (error_json_desc 400 "invalid_grant" "Client/redirect mismatch", s)
        else if JS.falsy code_verifier
                || JS.strict_ne (AuthCode.codeChallenge authCode)
                     (Some (sha256 (str code_verifier))) then
          (error_json_desc 400 "invalid_grant" "PKCE verification failed", s)
        else
          let s := with_accessTokens
                     (<[TokenEnv.accessToken env :=
                          StoredToken.mk (str client_id) (AuthCode.googleEmail authCode)
                            (TokenEnv.now_at_issue env + expiresIn * 1000)]>
                        (accessTokens s)) s in
          let s := with_refreshTokens
                     (<[TokenEnv.refreshTok env :=
                          StoredToken.mk (str client_id) (AuthCode.googleEmail authCode) 0]>
                        (refreshTokens s)) s in
          (mkResponse 200
             (Json [("access_token", JString (TokenEnv.accessToken env));
                    ("token_type", JString "Bearer");
                    ("expires_in", JNumber expiresIn);
                    ("refresh_token", JString (TokenEnv.refreshTok env))]), s)
    end
  else if JS.strict_eq grant_type "refresh_token" then
    match Map_get (refreshTokens s) refresh_token with
    | None => (error_json_desc 400 "invalid_grant" "Invalid refresh token", s)
    | Some stored =>
        if JS.strict_ne (StoredToken.clientId stored) client_id then
          (error_json_desc 400 "invalid_grant" "Invalid refresh token", s)
        else
          let s := with_accessTokens
                     (<[TokenEnv.accessToken env :=
                          StoredToken.mk (str client_id) (StoredToken.googleEmail stored)
                            (TokenEnv.now_at_issue env + expiresIn * 1000)]>
                        (accessTokens s)) s in
          (mkResponse 200
             (Json [("access_token", JString (TokenEnv.accessToken env));
                    ("token_type", JString "Bearer");
                    ("expires_in", JNumber expiresIn)]), s)
    end
  else
    (error_json 400 "unsupported_grant_type", s).

(** ** The middleware in front of /mcp *)

Inductive Outcome :=
| Next
| Respond (r : Response).

Definition unauthorized : Response := error_json 401 "Unauthorized".

(** [authorization] is [req.headers.authorization] and [now] the result of
    [Date.now()]. *)
Definition requireAuth (authorization : option string) (now : Z) (s : Stores) : Outcome :=
  match authorization with
  | None => Respond unauthorized
  | Some authHeader =>
      if negb (JS.startsWith "Bearer " authHeader) then Respond unauthorized
      else
        let token := JS.slice 7 authHeader in
        match accessTokens s !! token with
        | None => Respond unauthorized
        | Some stored =>
            if bool_decide (now > StoredToken.expiresAt stored) then Respond unauthorized
            else Next
        end
  end.

(** ** Vocabulary of the statements *)

(** The request gets past the two tests that precede the dispatch on
    [grant_type]: [client_id] is there and, for a registered client, the
    secret is the stored one. *)
Definition passes_client_checks (b : TokenBody.t) (s : Stores) : Prop :=
  JS.falsy (TokenBody.client_id b) = false
  /\ secret_mismatch s (TokenBody.client_id b) (TokenBody.client_secret b) = false.


(** The code that a callback mints for [pending] and [email]. *)
Definition minted (ourCode email : string) (now : Z) (pending : PendingAuth.t) : AuthCode.t :=
  AuthCode.mk ourCode (PendingAuth.clientId pending) (PendingAuth.redirectUri pending)
    (PendingAuth.codeChallenge pending) (PendingAuth.codeChallengeMethod pending)
    email (now + 5 * 60000).

(** The header a client sends with token [t]. *)
Definition bearer (t : string) : option string := Some ("Bearer " +:+ t).

(** ** Concrete data for the examples *)

Module Sample.

Definition config : OAuthConfig.t :=
  OAuthConfig.mk "https://mcp.example" "google-client" "google-secret".

(** The verifier and challenge of RFC 7636, appendix B. *)
Definition verifier : string := "dBjftJeZ4CVP-mB92K27uhbUJU1p1r_wW1gFWFOEjXk".
Definition challenge : string := "E9Melhoa2OwvFrEMTJguCHaoeK1t8URWbuGJSstw-cM".

Definition empty : Stores := mkStores ∅ ∅ ∅ ∅ ∅.

Definition query : AuthorizeQuery.t :=
  AuthorizeQuery.mk (Some "code") (Some "desktop") (Some "https://client.example/cb")
    (Some challenge) (Some "S256") (Some "xyz").

Definition pending : PendingAuth.t :=
  PendingAuth.mk "desktop" "https://client.example/cb" challenge "S256" "xyz" 1000.

Definition authCode : AuthCode.t :=
  AuthCode.mk "code-1" "desktop" "https://client.example/cb" challenge "S256"
    "a@x.com" 301000.

Definition refreshToken : StoredToken.t := StoredToken.mk "desktop" "a@x.com" 0.

Definition registered : RegisteredClient.t :=
  RegisteredClient.mk "web" "s3cret" ["https://web.example/cb"] "Web".

(** One registered client, one pending authorization, one code and one
    refresh token. *)
Definition stores : Stores :=
  mkStores {[ "web" := registered ]} {[ "g-state" := pending ]}
    {[ "code-1" := authCode ]} ∅ {[ "refresh-1" := refreshToken ]}.

Definition env : TokenEnv.t := TokenEnv.mk 2000 "access-1" "refresh-2" 2001.
Definition env' : TokenEnv.t := TokenEnv.mk 3000 "access-2" "refresh-3" 3001.

Definition redeem : TokenBody.t :=
  TokenBody.mk (Some "authorization_code") (Some "code-1")
    (Some "https://client.example/cb") (Some "desktop") None (Some verifier) None.

Definition redeem_wrong_verifier : TokenBody.t :=
  TokenBody.mk (Some "authorization_code") (Some "code-1")
    (Some "https://client.example/cb") (Some "desktop") None (Some "guess") None.

Definition refresh : TokenBody.t :=
  TokenBody.mk (Some "refresh_token") None None (Some "desktop") None None
    (Some "refresh-1").

Definition web_wrong_secret : TokenBody.t :=
  TokenBody.mk (Some "refresh_token") None None (Some "web") (Some "guess") None
    (Some "refresh-1").





(** A stand-in for [new URL]: everything is the part before the query. *)
Definition URL_parse (s : string) : option URL := Some (mkURL s []).

End Sample.


(** * The rest of the router *)

(** ** JSON documents with arrays *)

Module Json.

#[local] Set Warnings "-register-all".

(** Numbers are the whole ones: of a number in a request body the
    handlers only ask whether it is zero. *)
Inductive value :=
| Null
| Boolean (b : bool)
| Num (n : Z)
| Str (s : string)
| Arr (items : list value)
| Obj (members : list (string * value)).

(** [doc[name]] *)
Definition member (name : string) (doc : list (string * value)) : option value :=
  snd <$> List.find (fun kv => bool_decide (kv.1 = name)) doc.

(** The strings of the array [doc[name]]. *)
Definition strings (name : string) (doc : list (string * value)) : list string :=
  match member name doc with
  | Some (Arr items) =>
      flat_map (fun v => match v with Str s => [s] | _ => [] end) items
  | _ => []
  end.

(** [v[name]] for what a body parser has left in [req.body]: an object has
    its members; an array, a string, a number or a boolean has no member of
    any of the names that the handlers read. *)
Definition property (name : string) (v : value) : option value :=
  match v with
  | Obj members => member name members
  | _ => None
  end.

(** [!x] for a member [x], [None] being [undefined]: the falsy values are
    [undefined], [null], [false], zero and the empty string; every array
    and every object is truthy. *)
Definition falsy (x : option value) : bool :=
  match x with
  | None | Some Null => true
  | Some (Boolean b) => negb b
  | Some (Num n) => bool_decide (n = 0)
  | Some (Str s) => bool_decide (s = "")
  | Some (Arr _) | Some (Obj _) => false
  end.

(** A member where the handler compares it with a string by [===] or
    [!==], or looks it up as a key of a store: the stores' keys are strings
    and neither operation converts, so a member that is not a string is
    equal to no string and finds nothing, as [undefined] does. *)
Definition string_of (x : option value) : option string :=
  match x with
  | Some (Str s) => Some s
  | _ => None
  end.

End Json.

(** What becomes of a request in a handler that may throw: the response
    sent, or an exception thrown before any was sent.  The handlers here
    are synchronous, so Express catches the exception and its default error
    handler answers with status 500. *)
Inductive Served (R : Type) :=
| Sends (r : R)
| Throws.
Arguments Sends {R} r.
Arguments Throws {R}.

(** ** The metadata documents *)

(** GET /.well-known/oauth-protected-resource *)
Definition protected_resource_metadata (config : OAuthConfig.t)
  : list (string * Json.value) :=
  [("resource", Json.Str (OAuthConfig.serverUrl config));
   ("authorization_servers", Json.Arr [Json.Str (OAuthConfig.serverUrl config)])].

(** GET /.well-known/oauth-authorization-server *)
Definition authorization_server_metadata (config : OAuthConfig.t)
  : list (string * Json.value) :=
  [("issuer", Json.Str (OAuthConfig.serverUrl config));
   ("authorization_endpoint", Json.Str (OAuthConfig.serverUrl config +:+ "/oauth/authorize"));
   ("token_endpoint", Json.Str (OAuthConfig.serverUrl config +:+ "/oauth/token"));
   ("registration_endpoint", Json.Str (OAuthConfig.serverUrl config +:+ "/oauth/register"));
   ("response_types_supported", Json.Arr [Json.Str "code"]);
   ("grant_types_supported",
    Json.Arr [Json.Str "authorization_code"; Json.Str "refresh_token"]);
   ("code_challenge_methods_supported", Json.Arr [Json.Str "S256"]);
   ("token_endpoint_auth_methods_supported",
    Json.Arr [Json.Str "none"; Json.Str "client_secret_post"])].

(** ** POST /oauth/register *)

(** The [redirect_uris] member of the posted body: absent, something that
    is not an array, or an array (of strings, as the handler types it). *)
Inductive PostedUris :=
| NoUris
| NotAnArray
| Uris (l : list string).

Module RegisterBody.
Record t := mk {
  client_name : option string;
  redirect_uris : PostedUris }.
End RegisterBody.

(** [!redirect_uris || !Array.isArray(redirect_uris) || redirect_uris.length === 0] *)
Definition uris_refused (u : PostedUris) : bool :=
  match u with
  | NoUris | NotAnArray | Uris [] => true
  | Uris (_ :: _) => false
  end.

(** The handler on a body that a parser has produced.  [clientId] and
    [clientSecret] are the results of the two calls of [randomUUID()].  The
    answer is the status and the JSON object sent.  [post_register] below
    is the handler on every [req.body]. *)
Definition register (clientId clientSecret : string) (body : RegisterBody.t) (s : Stores)
  : (Z * list (string * Json.value)) * Stores :=
  if uris_refused (RegisterBody.redirect_uris body) then
    ((400, [("error", Json.Str "invalid_client_metadata");
            ("error_description", Json.Str "redirect_uris required")]), s)
  else
    let redirect_uris :=
      match RegisterBody.redirect_uris body with Uris l => l | _ => [] end in
    let client :=
      RegisteredClient.mk clientId clientSecret redirect_uris
        (JS.or_default (RegisterBody.client_name body) "unknown") in
    ((201, [("client_id", Json.Str clientId);
            ("client_secret", Json.Str clientSecret);
            ("client_name", Json.Str (RegisteredClient.clientName client));
            ("redirect_uris", Json.Arr (map Json.Str (RegisteredClient.redirectUris client)))]),
     mkStores (<[clientId := client]> (clients s)) (pendingAuths s) (authCodes s)
       (accessTokens s) (refreshTokens s)).


(** ** POST /oauth/token, for every body *)

(** The handler of POST /oauth/token as Express runs it.  [body] is
    [req.body]: [None] is [undefined] (no parser has read a body), and
    otherwise it is what the JSON or the urlencoded parser has produced,
    whose members need not be strings.  Destructuring [undefined] or [null]
    throws; [sha256] throws for a verifier that is not a string (the
    [update] of a hash takes a string or a buffer), which only a truthy one
    reaches. *)
Definition post_token (env : TokenEnv.t) (body : option Json.value) (s : Stores)
  : Served Response * Stores :=
  match body with
  | None | Some Json.Null => (Throws, s)
  | Some body =>
      let grant_type := Json.property "grant_type" body in
      let code := Json.property "code" body in
      let redirect_uri := Json.property "redirect_uri" body in
      let client_id := Json.property "client_id" body in
      let client_secret := Json.property "client_secret" body in
      let code_verifier := Json.property "code_verifier" body in
      let refresh_token := Json.property "refresh_token" body in
      if Json.falsy client_id then
        (Sends (error_json_desc 400 "invalid_request" "client_id required"), s)
      else if secret_mismatch s (Json.string_of client_id) (Json.string_of client_secret) then
        (Sends (error_json 401 "invalid_client"), s)
      else if JS.strict_eq (Json.string_of grant_type) "authorization_code" then
        match Map_get (authCodes s) (Json.string_of code) with
        | None => (Sends (error_json_desc 400 "invalid_grant" "Invalid or expired code"), s)
        | Some authCode =>
            let s := with_authCodes (delete (str (Json.string_of code)) (authCodes s)) s in
            if bool_decide (TokenEnv.now_at_check env > AuthCode.expiresAt authCode) then
              (Sends (error_json_desc 400 "invalid_grant" "Code expired"), s)
            else if JS.strict_ne (AuthCode.clientId authCode) (Json.string_of client_id)
                    || JS.strict_ne (AuthCode.redirectUri authCode)
                         (Json.string_of redirect_uri) then
              (Sends (error_json_desc 400 "invalid_grant" "Client/redirect mismatch"), s)
            else if Json.falsy code_verifier then
              (Sends (error_json_desc 400 "invalid_grant" "PKCE verification failed"), s)
            else
              match code_verifier with
              | Some (Json.Str verifier) =>
                  if JS.strict_ne (AuthCode.codeChallenge authCode) (Some (sha256 verifier))
                  then
                    (Sends (error_json_desc 400 "invalid_grant" "PKCE verification failed"),
                     s)
                  else
                    let s := with_accessTokens
                               (<[TokenEnv.accessToken env :=
                                    StoredToken.mk (str (Json.string_of client_id))
                                      (AuthCode.googleEmail authCode)
                                      (TokenEnv.now_at_issue env + expiresIn * 1000)]>
                                  (accessTokens s)) s in
                    let s := with_refreshTokens
                               (<[TokenEnv.refreshTok env :=
                                    StoredToken.mk (str (Json.string_of client_id))
                                      (AuthCode.googleEmail authCode) 0]>
                                  (refreshTokens s)) s in
                    (Sends (mkResponse 200
                              (Json [("access_token", JString (TokenEnv.accessToken env));
                                     ("token_type", JString "Bearer");
                                     ("expires_in", JNumber expiresIn);
                                     ("refresh_token", JString (TokenEnv.refreshTok env))])),
                     s)
              | _ => (Throws, s)
              end
        end
      else if JS.strict_eq (Json.string_of grant_type) "refresh_token" then
        match Map_get (refreshTokens s) (Json.string_of refresh_token) with
        | None => (Sends (error_json_desc 400 "invalid_grant" "Invalid refresh token"), s)
        | Some stored =>
            if JS.strict_ne (StoredToken.clientId stored) (Json.string_of client_id) then
              (Sends (error_json_desc 400 "invalid_grant" "Invalid refresh token"), s)
            else
              let s := with_accessTokens
                         (<[TokenEnv.accessToken env :=
                              StoredToken.mk (str (Json.string_of client_id))
                                (StoredToken.googleEmail stored)
                                (TokenEnv.now_at_issue env + expiresIn * 1000)]>
                            (accessTokens s)) s in
              (Sends (mkResponse 200
                        (Json [("access_token", JString (TokenEnv.accessToken env));
                               ("token_type", JString "Bearer");
                               ("expires_in", JNumber expiresIn)])), s)
        end
      else
        (Sends (error_json 400 "unsupported_grant_type"), s)
  end.

(** The body gets past the two tests that precede the dispatch on
    [grant_type]. *)
Definition past_client_checks (body : Json.value) (s : Stores) : Prop :=
  Json.falsy (Json.property "client_id" body) = false
  /\ secret_mismatch s (Json.string_of (Json.property "client_id" body))
       (Json.string_of (Json.property "client_secret" body)) = false.

(** The body object whose members are the strings of [b]. *)
Definition json_of_TokenBody (b : TokenBody.t) : Json.value :=
  Json.Obj
    (flat_map (fun kv => match kv.2 with Some v => [(kv.1, Json.Str v)] | None => [] end)
       [("grant_type", TokenBody.grant_type b); ("code", TokenBody.code b);
        ("redirect_uri", TokenBody.redirect_uri b); ("client_id", TokenBody.client_id b);
        ("client_secret", TokenBody.client_secret b);
        ("code_verifier", TokenBody.code_verifier b);
        ("refresh_token", TokenBody.refresh_token b)]).

(** ** [randomUUID()] *)

(** The values of [randomUUID()] are inputs of the handlers.  Where a
    statement is about tokens being new or distinct, they are taken from a
    source [uuid], the [n]-th call in the life of the process returning
    [uuid n]; that the platform never returns a value twice is then the
    hypothesis that [uuid] is injective.  [drawn_before uuid n s]: every
    key of the access-token store came from one of the first [n] calls. *)
Definition drawn_before (uuid : nat -> string) (n : nat) (s : Stores) : Prop :=
  forall k, is_Some (accessTokens s !! k) -> exists i, (i < n)%nat /\ k = uuid i.

(** A token request of [client_id] with [client_secret] and nothing else. *)
Definition as_client (client_id : string) (client_secret : option string)
    (b : TokenBody.t) : TokenBody.t :=
  TokenBody.mk (TokenBody.grant_type b) (TokenBody.code b) (TokenBody.redirect_uri b)
    (Some client_id) client_secret (TokenBody.code_verifier b) (TokenBody.refresh_token b).

(** The characters of the base64url alphabet. *)
Definition base64url_char (c : ascii) : Prop :=
  c ∈ list_ascii_of_string SHA256.alphabet.

(** The query passes the four tests of /oauth/authorize. *)
Definition authorize_accepts (q : AuthorizeQuery.t) : Prop :=
  AuthorizeQuery.response_type q = Some "code"
  /\ JS.falsy (AuthorizeQuery.client_id q) = false
  /\ JS.falsy (AuthorizeQuery.redirect_uri q) = false
  /\ JS.falsy (AuthorizeQuery.code_challenge q) = false
  /\ AuthorizeQuery.code_challenge_method q = Some "S256".

(** ** More concrete data *)

Module Demo.

Definition body : RegisterBody.t :=
  RegisterBody.mk (Some "Web") (Uris ["https://web.example/cb"]).

(** The sample stores after the cleanup has run at time 400000: the code,
    which expired at 301000, is gone. *)
Definition swept : Stores := sweep 400000 Sample.stores.

(** A query of the registered sample client with a redirect URI that is
    not one of its registered URIs. *)
Definition query_other_uri : AuthorizeQuery.t :=
  AuthorizeQuery.mk (Some "code") (Some "web") (Some "https://elsewhere.example/cb")
    (Some Sample.challenge) (Some "S256") None.





(** A source of UUIDs for the examples. *)
Definition uuid (n : nat) : string := "uuid-" +:+ pretty n.

Definition callback_query : CallbackQuery.t :=
  CallbackQuery.mk (Some "google-code") (Some "g-state") None.

(** A stand-in for [new URL] that refuses strings without a colon and
    splits the others at the first question mark, the query being
    name=value pairs separated by ampersands. *)
Definition pair_of (s : string) : string * string :=
  match JS.split_on "=" s with
  | name :: value :: _ => (name, value)
  | _ => (s, "")
  end.

Definition URL_parse (s : string) : option URL :=
  match JS.split_on ":" s with
  | _ :: _ :: _ =>
      match JS.split_on "?" s with
      | base :: query :: _ => Some (mkURL base (map pair_of (JS.split_on "&" query)))
      | _ => Some (mkURL s [])
      end
  | _ => None
  end.

End Demo.

(** * The Bill.com client (src/billcom-client.ts)

    A [BillComClient] keeps one session.  Its methods talk to the network
    and read the clock; here a method is a function of the client's state
    in a small state-and-exception monad, the network being a function
    [net] from the requests sent so far (the last one is the one to answer)
    to what [fetch] resolves or rejects with, and the clock a sequence of
    readings.  A run is that of one call of a method, with no other call on
    the same client in between. *)

Module BillCom.

Record BillComConfig := mkConfig {
  baseUrl : string;
  username : string;
  password : string;
  organizationId : string;
  devKey : string }.

Record Session := mkSession {
  sessionId : string;
  loginTime : Z }.

Definition SESSION_MAX_AGE_MS : Z := 30 * 60 * 1000.

(** [Number.MAX_SAFE_INTEGER] *)
Definition MAX_SAFE_INTEGER : Z := 2 ^ 53 - 1.

(** [String(n)] and [`${n}`] for a number [n] that is a safe integer (at
    most [MAX_SAFE_INTEGER] in absolute value): its decimal digits.  The
    numbers written here are the statuses of HTTP answers, which have three
    digits, and the paging arguments; beyond the safe integers a JavaScript
    number is written otherwise (rounded digits, an exponent from 10^21
    on), and statements about the paging arguments carry that bound. *)
Definition String_of_int (n : Z) : string := pretty n.

Section Client.

(** The values that travel: request bodies (objects), parsed JSON answers,
    and the exceptions of the platform ([TypeError]s, rejected fetches,
    answers that are not JSON). *)
Variables B J E : Type.

(** An answer: [res.status], [await res.text()] and [await res.json()]. *)
Record HttpResponse := mkHttpResponse {
  status : Z;
  text : string;
  json : J + E }.

(** [res.ok] *)
Definition ok (res : HttpResponse) : bool :=
  Z.leb 200 (status res) && Z.leb (status res) 299.

(** What [fetch] is called with: the login request, whose body is the
    serialised credentials, or an API request with its headers [devKey] and
    [sessionId] and the object to serialise as body, if any. *)
Inductive Sent :=
| Login (url : string) (credentials : BillComConfig)
| Call (method : string) (url : URL) (devKey sessionId : string) (body : option B).

Inductive Fetched :=
| Resolves (res : HttpResponse)
| Rejects (e : E).

(** What a method throws: a [BillComError] or an exception of the
    platform. *)
Inductive Failure :=
| BillComError (message : string) (statusCode : Z) (responseBody : string)
| Other (e : E).

Inductive Outcome (A : Type) :=
| Ok (a : A)
| Throw (f : Failure).
Arguments Ok {A} a.
Arguments Throw {A} f.

(** The client and its surroundings: [this.session], the requests sent so
    far and the number of clock readings taken. *)
Record World := mkWorld {
  session : option Session;
  sent : list Sent;
  ticks : nat }.

Definition M (A : Type) : Type := World -> Outcome A * World.

Definition ret {A} (a : A) : M A := fun w => (Ok a, w).
Definition throw {A} (f : Failure) : M A := fun w => (Throw f, w).
Definition bind {A C} (m : M A) (k : A -> M C) : M C :=
  fun w => match m w with
           | (Ok a, w') => k a w'
           | (Throw f, w') => (Throw f, w')
           end.

Notation "x <- m ;; k" := (bind m (fun x => k))
  (at level 63, m at next level, right associativity).
Notation "m ;;; k" := (bind m (fun _ => k))
  (at level 63, right associativity).

(** The platform: the network, the clock, [new URL], and the reading of
    members.  [sessionId_of data] is [data.sessionId] for the parsed answer
    of a login: the value that the [sessionId] header of later requests
    carries, or the [TypeError] that reading the member throws when the
    answer is [null].  [TypeError] is the one of reading a member of a
    [null] session. *)
Variable net : list Sent -> Fetched.
Variable clock : nat -> Z.
Variable URL_parse : string -> URL + E.
Variable sessionId_of : J -> string + E.
Variable TypeError : E.

Variable config : BillComConfig.

Definition fetch (rq : Sent) : M HttpResponse :=
  fun w =>
    let w' := mkWorld (session w) (sent w ++ [rq]) (ticks w) in
    match net (sent w ++ [rq]) with
    | Resolves res => (Ok res, w')
    | Rejects e => (Throw (Other e), w')
    end.

Definition Date_now : M Z :=
  fun w => (Ok (clock (ticks w)), mkWorld (session w) (sent w) (S (ticks w))).

Definition get_session : M (option Session) := fun w => (Ok (session w), w).

Definition set_session (s : Session) : M unit :=
  fun w => (Ok tt, mkWorld (Some s) (sent w) (ticks w)).

Definition of_sum {A} (x : A + E) : M A :=
  match x with
  | inl a => ret a
  | inr e => throw (Other e)
  end.

(** [private async login()] *)
Definition login : M unit :=
  res <- fetch (Login (baseUrl config +:+ "/login") config) ;;
  if negb (ok res) then
    throw (BillComError ("Login failed: " +:+ String_of_int (status res))
             (status res) (text res))
  else
    data <- of_sum (json res) ;;
    sessionId <- of_sum (sessionId_of data) ;;
    now <- Date_now ;;
    set_session (mkSession sessionId now).

(** [private async ensureSession()] *)
Definition ensureSession : M unit :=
  s <- get_session ;;
  match s with
  | None => login
  | Some sess =>
      now <- Date_now ;;
      if bool_decide (now - loginTime sess > SESSION_MAX_AGE_MS) then login else ret tt
  end.

(** [private authHeaders()]: the [devKey] and the [sessionId] headers. *)
Definition authHeaders : M (string * string) :=
  s <- get_session ;;
  match s with
  | None => throw (Other TypeError)
  | Some sess => ret (devKey config, sessionId sess)
  end.

(** [for (const [k, v] of Object.entries(query)) url.searchParams.set(k, v)] *)
Definition with_query (query : option (list (string * string))) (url : URL) : URL :=
  match query with
  | None => url
  | Some entries => fold_left (fun u kv => URL_set kv.1 kv.2 u) entries url
  end.

(** [async request(method, path, body?, query?)] *)
Definition request (method path : string) (body : option B)
    (query : option (list (string * string))) : M J :=
  ensureSession ;;;
  url <- of_sum (URL_parse (baseUrl config +:+ path)) ;;
  let url := with_query query url in
  h <- authHeaders ;;
  res <- fetch (Call method url h.1 h.2 body) ;;
  res <- (if bool_decide (status res = 401) then
            login ;;;
            h <- authHeaders ;;
            fetch (Call method url h.1 h.2 body)
          else ret res) ;;
  if negb (ok res) then
    throw (BillComError
             ("API error " +:+ String_of_int (status res) +:+ ": " +:+ text res)
             (status res) (text res))
  else of_sum (json res).

(** What [request] makes of the answer it settles on: the parsed body for
    a 2xx status, a [BillComError] otherwise. *)
Definition delivered (res : HttpResponse) : Outcome J :=
  if ok res then
    match json res with
    | inl result => Ok result
    | inr e => Throw (Other e)
    end
  else
    Throw (BillComError
             ("API error " +:+ String_of_int (status res) +:+ ": " +:+ text res)
             (status res) (text res)).

(** [listVendors(start = 0, max = 20)] and the others *)
Definition paging (start max : option Z) : option (list (string * string)) :=
  Some [("start", String_of_int (default 0 start));
        ("max", String_of_int (default 20 max))].

Definition listVendors (start max : option Z) : M J :=
  request "GET" "/vendors" None (paging start max).
Definition getVendor (id : string) : M J :=
  request "GET" ("/vendors/" +:+ id) None None.
Definition createVendor (data : B) : M J :=
  request "POST" "/vendors" (Some data) None.
Definition listBills (start max : option Z) : M J :=
  request "GET" "/bills" None (paging start max).
Definition getBill (id : string) : M J :=
  request "GET" ("/bills/" +:+ id) None None.
Definition createBill (data : B) : M J :=
  request "POST" "/bills" (Some data) None.

(** The client has no session, or one that at the next reading of the
    clock is more than thirty minutes old. *)
Definition must_log_in (w : World) : Prop :=
  session w = None
  \/ exists sess, session w = Some sess
       /\ clock (ticks w) - loginTime sess > 30 * 60 * 1000.

(** The requests of a log that are logins, and those that are API calls. *)
Definition is_login (rq : Sent) : bool :=
  match rq with Login _ _ => true | Call _ _ _ _ _ => false end.
Definition logins (l : list Sent) : nat := length (List.filter is_login l).
Definition calls (l : list Sent) : nat :=
  length (List.filter (fun rq => negb (is_login rq)) l).

End Client.

Arguments Ok {E A} a.
Arguments Throw {E A} f.

End BillCom.

(** * The tools (src/tools/vendors.ts, src/tools/bills.ts) *)

Module Tools.

(** The [address] object of a vendor: its members may be [undefined]. *)
Record Address := mkAddress {
  address1 : option string;
  address2 : option string;
  city : option string;
  state : option string;
  zip : option string;
  country : option string }.

Inductive AccountType :=
| Company
| Individual.

Definition AccountType_string (t : AccountType) : string :=
  match t with
  | Company => "Company"
  | Individual => "Individual"
  end.

Section Data.

(** The amounts of line items are JavaScript numbers; here they are
    values of a type that is left open. *)
Variable Amount : Type.

Record LineItem := mkLineItem {
  amount : Amount;
  chartOfAccountId : option string;
  item_description : option string }.

(** What the handlers put into the [data] object they send. *)
Inductive Value :=
| VString (s : string)
| VAddress (a : Address)
| VItems (items : list LineItem).

(** [if (x) data.key = x] for a string that may be [undefined] *)
Definition optional (key : string) (x : option string) : list (string * Value) :=
  if JS.falsy x then [] else [(key, VString (str x))].

(** The arguments of create_vendor, as its schema types them. *)
Record VendorInput := mkVendorInput {
  v_name : string;
  v_accountType : option AccountType;
  v_email : option string;
  v_phone : option string;
  v_address1 : option string;
  v_address2 : option string;
  v_city : option string;
  v_state : option string;
  v_zip : option string;
  v_country : option string }.

(** The [data] of create_vendor, members in the order they are set. *)
Definition vendor_data (input : VendorInput) : list (string * Value) :=
  [("name", VString (v_name input))]
  ++ match v_accountType input with
     | Some t => [("accountType", VString (AccountType_string t))]
     | None => []
     end
  ++ optional "email" (v_email input)
  ++ optional "phone" (v_phone input)
  ++ (if negb (JS.falsy (v_address1 input)) || negb (JS.falsy (v_city input))
         || negb (JS.falsy (v_state input)) || negb (JS.falsy (v_zip input))
         || negb (JS.falsy (v_country input))
      then [("address",
             VAddress (mkAddress (v_address1 input) (v_address2 input) (v_city input)
                         (v_state input) (v_zip input) (v_country input)))]
      else []).

(** The arguments of create_bill. *)
Record BillInput := mkBillInput {
  b_vendorId : string;
  b_invoiceNumber : option string;
  b_invoiceDate : option string;
  b_dueDate : string;
  b_description : option string;
  b_billLineItems : list LineItem }.

Definition bill_data (input : BillInput) : list (string * Value) :=
  [("vendorId", VString (b_vendorId input));
   ("dueDate", VString (b_dueDate input));
   ("billLineItems", VItems (b_billLineItems input))]
  ++ optional "invoiceNumber" (b_invoiceNumber input)
  ++ optional "invoiceDate" (b_invoiceDate input)
  ++ optional "description" (b_description input).

(** [data[key]] *)
Definition get (key : string) (data : list (string * Value)) : option Value :=
  snd <$> List.find (fun kv => bool_decide (kv.1 = key)) data.

(** What a tool answers: the text of its one content item, and
    [isError]. *)
Record ToolResult := mkToolResult {
  text : string;
  isError : bool }.

(** What becomes of a call of a tool.  [server.tool] registers a handler
    with the schema of its arguments, and the server parses the arguments
    of a call against the schema first: when they do not fit, the call is
    refused with the validation error and the handler does not run. *)
Inductive Called :=
| Refused
| Ran (r : ToolResult).

Section Handlers.

Variables J E : Type.

(** [JSON.stringify(result, null, 2)] and [String(e)] of the platform. *)
Variable JSON_stringify : J -> string.
Variable String_of : E -> string.

(** The [try] and the [catch] that every handler has. *)
Definition answer (o : BillCom.Outcome E J) : ToolResult :=
  match o with
  | BillCom.Ok result => mkToolResult (JSON_stringify result) false
  | BillCom.Throw (BillCom.BillComError _ message _ _) =>
      mkToolResult ("Error: " +:+ message) true
  | BillCom.Throw (BillCom.Other _ e) => mkToolResult ("Error: " +:+ String_of e) true
  end.

Variable net : list (BillCom.Sent (list (string * Value))) -> BillCom.Fetched J E.
Variable clock : nat -> Z.
Variable URL_parse : string -> URL + E.
Variable sessionId_of : J -> string + E.
Variable TypeError : E.
Variable config : BillCom.BillComConfig.

Definition run (m : BillCom.M (list (string * Value)) E J)
  : BillCom.World (list (string * Value)) -> ToolResult * BillCom.World (list (string * Value)) :=
  fun w => (answer (m w).1, (m w).2).

(** The schemas.  The types of the arguments here are those that the
    schemas give them: [z.string()] a string, [.optional()] an option,
    [z.enum] an [AccountType], [z.number().int()] an integer, [z.array] a
    list.  What the types leave open is tested: the bounds of [start] and
    [max], the [.email()] test of zod, whose pattern is zod's and is taken
    as [is_email], and [.min(1)] of the line items. *)
Variable is_email : string -> bool.

(** [start: z.number().int().min(0).optional()],
    [max: z.number().int().min(1).max(100).optional()] *)
Definition paging_schema (start max : option Z) : bool :=
  match start with
  | None => true
  | Some n => Z.leb 0 n
  end
  && match max with
     | None => true
     | Some n => Z.leb 1 n && Z.leb n 100
     end.

(** [email: z.string().email().optional()] *)
Definition vendor_schema (input : VendorInput) : bool :=
  match v_email input with
  | None => true
  | Some email => is_email email
  end.

(** [billLineItems: z.array(...).min(1)] *)
Definition bill_schema (input : BillInput) : bool :=
  match b_billLineItems input with
  | [] => false
  | _ :: _ => true
  end.

(** A tool: the schema's verdict, then the handler. *)
Definition tool (fits : bool)
    (handler : BillCom.World (list (string * Value))
               -> ToolResult * BillCom.World (list (string * Value)))
  : BillCom.World (list (string * Value)) -> Called * BillCom.World (list (string * Value)) :=
  fun w => if fits then (Ran (handler w).1, (handler w).2) else (Refused, w).

(** The six tools.  [start ?? 0] and [max ?? 20] are the defaults of
    [listVendors] and [listBills] as well. *)
Definition list_vendors (start max : option Z) :=
  tool (paging_schema start max)
    (run (BillCom.listVendors _ J E net clock URL_parse sessionId_of TypeError config
            (Some (default 0 start)) (Some (default 20 max)))).
Definition get_vendor (id : string) :=
  tool true
    (run (BillCom.getVendor _ J E net clock URL_parse sessionId_of TypeError config id)).
Definition create_vendor (input : VendorInput) :=
  tool (vendor_schema input)
    (run (BillCom.createVendor _ J E net clock URL_parse sessionId_of TypeError config
            (vendor_data input))).
Definition list_bills (start max : option Z) :=
  tool (paging_schema start max)
    (run (BillCom.listBills _ J E net clock URL_parse sessionId_of TypeError config
            (Some (default 0 start)) (Some (default 20 max)))).
Definition get_bill (id : string) :=
  tool true
    (run (BillCom.getBill _ J E net clock URL_parse sessionId_of TypeError config id)).
Definition create_bill (input : BillInput) :=
  tool (bill_schema input)
    (run (BillCom.createBill _ J E net clock URL_parse sessionId_of TypeError config
            (bill_data input))).

End Handlers.

End Data.

End Tools.

(** * Start-up (src/index.ts, src/http-server.ts) *)

Module Startup.

Definition required : list string :=
  ["BILLCOM_API_BASE_URL"; "BILLCOM_USERNAME"; "BILLCOM_PASSWORD";
   "BILLCOM_ORGANIZATION_ID"; "BILLCOM_DEV_KEY"].

(** How index.ts ends up: [process.exit(1)] after naming a variable, the
    HTTP server, or the stdio server. *)
Inductive Started :=
| Exit (code : Z) (missing : string)
| Http (config : BillCom.BillComConfig)
| Stdio (config : BillCom.BillComConfig).

(** [env] is [process.env]. *)
Definition main (env : string -> option string) : Started :=
  match List.find (fun key => JS.falsy (env key)) required with
  | Some key => Exit 1 key
  | None =>
      let config :=
        BillCom.mkConfig (str (env "BILLCOM_API_BASE_URL")) (str (env "BILLCOM_USERNAME"))
          (str (env "BILLCOM_PASSWORD")) (str (env "BILLCOM_ORGANIZATION_ID"))
          (str (env "BILLCOM_DEV_KEY")) in
      if JS.strict_eq (env "MCP_TRANSPORT") "http" then Http config else Stdio config
  end.

(** [process.env.SERVER_URL || `http://localhost:${process.env.PORT || "8080"}`] *)
Definition serverUrl (env : string -> option string) : string :=
  JS.or_default (env "SERVER_URL")
    ("http://localhost:" +:+ JS.or_default (env "PORT") "8080").

(** [if (googleClientId && googleClientSecret)]: the OAuth routes and the
    bearer check in front of /mcp are mounted. *)
Definition oauth_enabled (env : string -> option string) : bool :=
  negb (JS.falsy (env "GOOGLE_CLIENT_ID")) && negb (JS.falsy (env "GOOGLE_CLIENT_SECRET")).

Inductive Verb :=
| POST
| GET
| DELETE.

(** What becomes of a request to /mcp: an answer of this server, the
    transport of its session handling it, or a new session. *)
Inductive Routed (T : Type) :=
| Answered (r : Response)
| Handled (transport : T)
| Initialized.
Arguments Answered {T} r.
Arguments Handled {T} transport.
Arguments Initialized {T}.

(** The three handlers of /mcp.  [sessionId] is the mcp-session-id header
    and [initialize] the result of [isInitializeRequest(req.body)]. *)
Definition mcp_handler {T} (verb : Verb) (sessionId : option string) (initialize : bool)
    (transports : gmap string T) : Routed T :=
  match verb with
  | POST =>
      if negb (JS.falsy sessionId) then
        match transports !! str sessionId with
        | None => Answered (error_json 400 "Invalid session ID")
        | Some transport => Handled transport
        end
      else if negb initialize then
        Answered (error_json 400 "First request must be an initialize request")
      else Initialized
  | GET | DELETE =>
      if JS.falsy sessionId then
        Answered (error_json 400 "Missing mcp-session-id header")
      else
        match transports !! str sessionId with
        | None => Answered (error_json 400 "Invalid session ID")
        | Some transport => Handled transport
        end
  end.

(** What the app that [createMcpExpressApp] returns does with a request
    before anything that [startHttpServer] mounts on it sees it: the
    middleware it comes with, a JSON body parser among it, answers the
    request itself (a body that does not parse is answered 400), or passes
    it on.  The app is the SDK's, so its verdict is an input here. *)
Inductive Premounted :=
| Refuses (r : Response)
| Passes.

(** /mcp as [startHttpServer] sets it up: after the app's own middleware,
    behind [requireAuth] when OAuth is enabled, open otherwise. *)
Definition mcp {T} (env : string -> option string) (app : Premounted)
    (authorization : option string) (now : Z) (s : Stores) (verb : Verb)
    (sessionId : option string) (initialize : bool) (transports : gmap string T)
  : Routed T :=
  match app with
  | Refuses r => Answered r
  | Passes =>
      if oauth_enabled env then
        match requireAuth authorization now s with
        | Respond r => Answered r
        | Next => mcp_handler verb sessionId initialize transports
        end
      else mcp_handler verb sessionId initialize transports
  end.

End Startup.

(** ** Concrete data for the client and the tools *)

Module DemoClient.

Definition Body : Type := list (string * Tools.Value Z).

Definition config : BillCom.BillComConfig :=
  BillCom.mkConfig "https://api.example/v3" "user" "pw" "org" "dev-key".

Definition URL_parse (s : string) : URL + string :=
  match Demo.URL_parse s with
  | Some u => inl u
  | None => inr "TypeError: Invalid URL"
  end.

(** A server whose only valid session is "s2": a login gets it, a request
    with it is answered 200, any other request 401; and one where logging
    in is forbidden. *)
Definition net (log : list (BillCom.Sent Body)) : BillCom.Fetched string string :=
  match last log with
  | Some (BillCom.Login _ _ _) =>
      BillCom.Resolves _ _ (BillCom.mkHttpResponse _ _ 200 "{}" (inl "s2"))
  | Some (BillCom.Call _ _ _ _ sid _) =>
      if decide (sid = "s2")
      then BillCom.Resolves _ _ (BillCom.mkHttpResponse _ _ 200 "[]" (inl "[]"))
      else BillCom.Resolves _ _ (BillCom.mkHttpResponse _ _ 401 "expired" (inr "not JSON"))
  | None => BillCom.Rejects _ _ "nothing sent"
  end.

(** The same server when the first login of a run hands out the session
    "s1", which it then refuses, and a later login "s2". *)
Definition net_stale (log : list (BillCom.Sent Body)) : BillCom.Fetched string string :=
  match last log with
  | Some (BillCom.Login _ _ _) =>
      if decide (BillCom.logins _ log = 1%nat)
      then BillCom.Resolves _ _ (BillCom.mkHttpResponse _ _ 200 "{}" (inl "s1"))
      else BillCom.Resolves _ _ (BillCom.mkHttpResponse _ _ 200 "{}" (inl "s2"))
  | _ => net log
  end.

(** The parsed answer of a login is written as the session id it holds,
    "null" being the answer [null]. *)
Definition sessionId_of (data : string) : string + string :=
  if decide (data = "null")
  then inr "TypeError: Cannot read properties of null (reading 'sessionId')"
  else inl data.

Definition net_forbidden (log : list (BillCom.Sent Body)) : BillCom.Fetched string string :=
  BillCom.Resolves _ _ (BillCom.mkHttpResponse _ _ 403 "forbidden" (inr "not JSON")).

Definition clock (n : nat) : Z := 5000 + Z.of_nat n.

Definition signed_out : BillCom.World Body := BillCom.mkWorld _ None [] 0.
Definition with_s1 : BillCom.World Body :=
  BillCom.mkWorld _ (Some (BillCom.mkSession "s1" 0)) [] 0.
Definition with_s2 : BillCom.World Body :=
  BillCom.mkWorld _ (Some (BillCom.mkSession "s2" 0)) [] 0.

Definition request :=
  BillCom.request Body string string net clock URL_parse sessionId_of "TypeError"
    config.

Definition vendors_url : URL := mkURL "https://api.example/v3/vendors" [].

(** A stand-in for zod's [.email()]: one "@" with something on both
    sides. *)
Definition is_email (s : string) : bool :=
  match JS.split_on "@" s with
  | [name; domain] => negb (bool_decide (name = "")) && negb (bool_decide (domain = ""))
  | _ => false
  end.

(** A vendor with an email and an address. *)
Definition acme : Tools.VendorInput :=
  Tools.mkVendorInput "Acme" (Some Tools.Company) (Some "ap@acme.example") None
    (Some "1 Main St") (Some "Suite 5") (Some "Springfield") None None None.

(** A vendor with a second address line and nothing else of an address. *)
Definition suite_only : Tools.VendorInput :=
  Tools.mkVendorInput "Acme" None (Some "") None None (Some "Suite 5") None None None None.

Definition env (key : string) : option string :=
  if decide (key ∈ Startup.required) then Some "x"
  else if decide (key = "GOOGLE_CLIENT_ID") then Some "google-client"
  else None.

End DemoClient.
(** * Properties *)

(** ** Strings *)

Lemma falsy_false (x : option string) :
  JS.falsy x = false <-> exists v, x = Some v /\ v <> "".
Proof.
  unfold JS.falsy. destruct x as [v|].
  - destruct (decide (v = "")) as [->|Hv].
    + split; [discriminate|]. intros (w & [= <-] & Hw). contradiction.
    + split; [eauto|reflexivity].
  - split; [discriminate|]. intros (w & Hw & _). discriminate.
Qed.

Lemma falsy_none : JS.falsy None = true.
Proof. reflexivity. Qed.

Lemma strict_eq_true (x : option string) (lit : string) :
  JS.strict_eq x lit = true <-> x = Some lit.
Proof. unfold JS.strict_eq. destruct (decide (x = Some lit)); split; congruence. Qed.

Lemma strict_ne_false (a : string) (b : option string) :
  JS.strict_ne a b = false <-> Some a = b.
Proof. unfold JS.strict_ne. destruct (decide (Some a = b)); split; congruence. Qed.

Lemma strict_ne_true (a : string) (b : option string) :
  JS.strict_ne a b = true <-> Some a <> b.
Proof. unfold JS.strict_ne. destruct (decide (Some a = b)); split; congruence. Qed.

Lemma append_cons (c : ascii) (p t : string) : String c p +:+ t = String c (p +:+ t).
Proof. reflexivity. Qed.

Lemma prefix_append (p t : string) : String.prefix p (p +:+ t) = true.
Proof.
  induction p as [|c p IH]; simpl.
  - destruct t; reflexivity.
  - destruct (ascii_dec c c); [exact IH|contradiction].
Qed.

Lemma slice_append (p t : string) : JS.slice (String.length p) (p +:+ t) = t.
Proof. induction p as [|c p IH]; simpl; [reflexivity|exact IH]. Qed.

Lemma prefix_split (p s : string) :
  String.prefix p s = true -> s = p +:+ JS.slice (String.length p) s.
Proof.
  revert s. induction p as [|c p IH]; intros s H.
  - reflexivity.
  - destruct s as [|d s]; simpl in H; [discriminate|].
    destruct (ascii_dec c d) as [->|]; [|discriminate].
    cbn [String.length JS.slice]. rewrite append_cons. f_equal. apply IH, H.
Qed.

(** ** The bearer check *)

Lemma requireAuth_bearer (t : string) (now : Z) (s : Stores) :
  requireAuth (bearer t) now s =
  match accessTokens s !! t with
  | None => Respond unauthorized
  | Some stored =>
      if bool_decide (now > StoredToken.expiresAt stored) then Respond unauthorized
      else Next
  end.
Proof.
  unfold requireAuth, bearer, JS.startsWith.
  rewrite prefix_append. simpl negb. cbv iota.
  change 7%nat with (String.length "Bearer "). rewrite slice_append. reflexivity.
Qed.

(** The requests that get through are those with a well-formed header
    whose token is stored and not past its expiry time. *)
Lemma requireAuth_Next (h : option string) (now : Z) (s : Stores) :
  requireAuth h now s = Next <->
  exists t stored,
    h = bearer t /\ accessTokens s !! t = Some stored
    /\ ~ (now > StoredToken.expiresAt stored).
Proof.
  split.
  - unfold requireAuth. destruct h as [authHeader|]; [|discriminate].
    destruct (JS.startsWith "Bearer " authHeader) eqn:Hp; cbn [negb]; [|discriminate].
    destruct (accessTokens s !! JS.slice 7 authHeader) as [stored|] eqn:Hs; [|discriminate].
    case_bool_decide; [discriminate|]. intros _.
    exists (JS.slice 7 authHeader), stored. repeat split; try assumption.
    unfold bearer. f_equal. apply (prefix_split "Bearer "), Hp.
  - intros (t & stored & -> & Hs & Hnow).
    rewrite requireAuth_bearer, Hs. rewrite bool_decide_eq_false_2; auto.
Qed.

(** C8: whatever makes the bearer check refuse a request (no Authorization
    header, a header that does not start with "Bearer ", a token that is not
    in the store, a stored token past its expiry time), the response is the
    same one: status 401 with the JSON body {error: "Unauthorized"}. *)
Theorem C8_requireAuth_uniform_401 (h : option string) (now : Z) (s : Stores) :
  unauthorized = mkResponse 401 (Json [("error", JString "Unauthorized")])
  /\ (forall r, requireAuth h now s = Respond r -> r = unauthorized)
  /\ (h = None -> requireAuth h now s = Respond unauthorized)
  /\ (forall x, h = Some x -> JS.startsWith "Bearer " x = false ->
        requireAuth h now s = Respond unauthorized)
  /\ (forall t, h = bearer t -> accessTokens s !! t = None ->
        requireAuth h now s = Respond unauthorized)
  /\ (forall t stored, h = bearer t -> accessTokens s !! t = Some stored ->
        now > StoredToken.expiresAt stored ->
        requireAuth h now s = Respond unauthorized).
Proof.
  split; [reflexivity|]. split; [|split; [|split; [|split]]].
  - intros r. unfold requireAuth.
    repeat case_match; intros Hr; inversion Hr; reflexivity.
  - intros ->. reflexivity.
  - intros x -> Hx. unfold requireAuth. rewrite Hx. reflexivity.
  - intros t -> Ht. rewrite requireAuth_bearer, Ht. reflexivity.
  - intros t stored -> Ht Hexp. rewrite requireAuth_bearer, Ht.
    rewrite bool_decide_eq_true_2; auto.
Qed.

(** ** The authorization endpoint *)

(** The handler answers with the redirect to Google exactly when the four
    tests pass, and with a 400 otherwise. *)
Lemma authorize_cases (config : OAuthConfig.t) (googleState : string) (now : Z)
    (q : AuthorizeQuery.t) (s : Stores) :
  (exists cid ruri cc,
      AuthorizeQuery.response_type q = Some "code"
      /\ AuthorizeQuery.client_id q = Some cid /\ cid <> ""
      /\ AuthorizeQuery.redirect_uri q = Some ruri /\ ruri <> ""
      /\ AuthorizeQuery.code_challenge q = Some cc /\ cc <> ""
      /\ AuthorizeQuery.code_challenge_method q = Some "S256"
      /\ authorize config googleState now q s =
         (mkResponse 302 (Redirect (googleAuthUrl config googleState)),
          with_pendingAuths
            (<[googleState :=
                 PendingAuth.mk cid ruri cc "S256"
                   (JS.or_default (AuthorizeQuery.state q) "") now]> (pendingAuths s)) s))
  \/ (exists r, authorize config googleState now q s = (r, s) /\ status r = 400).
Proof.
  destruct q as [rt cid ruri cc ccm st]. unfold authorize. cbn [AuthorizeQuery.response_type
    AuthorizeQuery.client_id AuthorizeQuery.redirect_uri AuthorizeQuery.code_challenge
    AuthorizeQuery.code_challenge_method AuthorizeQuery.state].
  destruct (JS.strict_eq rt "code") eqn:Hrt; cbn [negb]; [|right; eauto].
  destruct (JS.falsy cid) eqn:Hcid; cbn [orb]; [right; eauto|].
  destruct (JS.falsy ruri) eqn:Hruri; cbn [orb]; [right; eauto|].
  destruct (JS.falsy cc) eqn:Hcc; cbn [orb]; [right; eauto|].
  destruct (JS.strict_eq ccm "S256") eqn:Hccm; cbn [negb]; [|right; eauto].
  apply strict_eq_true in Hrt, Hccm.
  apply falsy_false in Hcid as (cid' & -> & ?), Hruri as (ruri' & -> & ?),
    Hcc as (cc' & -> & ?).
  subst. left. exists cid', ruri', cc'. repeat split; assumption.
Qed.

(** C6: a call to /oauth/authorize whose response_type is not "code" fails
    with unsupported_response_type; otherwise one whose client_id,
    redirect_uri or code_challenge is missing (or empty), or whose
    code_challenge_method is not "S256", fails with invalid_request; and
    every call that does not end in the redirect leaves the stores, the
    pending authorizations among them, as they were. *)
Theorem C6_authorize_rejects_without_state (config : OAuthConfig.t)
    (googleState : string) (now : Z) (q : AuthorizeQuery.t) (s : Stores) :
  let out := authorize config googleState now q s in
  (AuthorizeQuery.response_type q <> Some "code" ->
     out = (error_json 400 "unsupported_response_type", s))
  /\ (AuthorizeQuery.response_type q = Some "code" ->
      JS.falsy (AuthorizeQuery.client_id q) = true
      \/ JS.falsy (AuthorizeQuery.redirect_uri q) = true
      \/ JS.falsy (AuthorizeQuery.code_challenge q) = true
      \/ AuthorizeQuery.code_challenge_method q <> Some "S256" ->
      status out.1 = 400 /\ error_of out.1 = Some "invalid_request" /\ out.2 = s)
  /\ (status out.1 <> 302 -> out.2 = s /\ pendingAuths out.2 = pendingAuths s).
Proof.
  cbv zeta. split; [|split].
  - intros Hrt. destruct q as [rt cid ruri cc ccm st]. unfold authorize.
    cbn [AuthorizeQuery.response_type] in Hrt.
    destruct (JS.strict_eq rt "code") eqn:E; [|reflexivity].
    apply strict_eq_true in E. contradiction.
  - intros Hrt Hbad. destruct q as [rt cid ruri cc ccm st]. unfold authorize.
    cbn [AuthorizeQuery.response_type AuthorizeQuery.client_id AuthorizeQuery.redirect_uri
         AuthorizeQuery.code_challenge AuthorizeQuery.code_challenge_method] in Hrt, Hbad.
    apply strict_eq_true in Hrt. rewrite Hrt. cbn [negb].
    destruct (JS.falsy cid) eqn:Hcid; cbn [orb]; [repeat split|].
    destruct (JS.falsy ruri) eqn:Hruri; cbn [orb]; [repeat split|].
    destruct (JS.falsy cc) eqn:Hcc; cbn [orb]; [repeat split|].
    destruct (JS.strict_eq ccm "S256") eqn:Hccm; cbn [negb]; [|repeat split].
    apply strict_eq_true in Hccm.
    destruct Hbad as [?|[?|[?|?]]]; congruence.
  - intros Hst.
    destruct (authorize_cases config googleState now q s)
      as [(cid & ruri & cc & _ & _ & _ & _ & _ & _ & _ & _ & E)|(r & E & _)];
      rewrite E in Hst |- *.
    + contradiction Hst. reflexivity.
    + split; reflexivity.
Qed.

Lemma state_of_googleAuthUrl (config : OAuthConfig.t) (googleState : string) :
  searchParams_get "state" (searchParams (googleAuthUrl config googleState))
  = Some googleState.
Proof. reflexivity. Qed.

(** C9: a successful call to /oauth/authorize stores one PendingAuth, under
    the key [googleState] that [randomUUID()] returned, and changes nothing
    else; when that key is fresh the store has exactly one entry more.  The
    redirect it answers with is a function of the server's configuration and
    of [googleState] alone, so two successful calls with the same
    [googleState] answer with the same URL whatever client_id, redirect_uri,
    code_challenge and state the callers sent, and the state parameter of
    that URL is [googleState]. *)
Theorem C9_authorize_hides_caller (config : OAuthConfig.t) (googleState : string)
    (now : Z) (q : AuthorizeQuery.t) (s : Stores) :
  let out := authorize config googleState now q s in
  status out.1 = 302 ->
  (exists pending,
      out.2 = with_pendingAuths (<[googleState := pending]> (pendingAuths s)) s
      /\ Some (PendingAuth.clientId pending) = AuthorizeQuery.client_id q
      /\ Some (PendingAuth.redirectUri pending) = AuthorizeQuery.redirect_uri q
      /\ Some (PendingAuth.codeChallenge pending) = AuthorizeQuery.code_challenge q
      /\ (pendingAuths s !! googleState = None ->
          size (pendingAuths out.2) = S (size (pendingAuths s))
          /\ forall k, k <> googleState -> pendingAuths out.2 !! k = pendingAuths s !! k))
  /\ out.1 = mkResponse 302 (Redirect (googleAuthUrl config googleState))
  /\ searchParams_get "state" (searchParams (googleAuthUrl config googleState))
     = Some googleState
  /\ (forall now' q' s',
        status (authorize config googleState now' q' s').1 = 302 ->
        (authorize config googleState now' q' s').1 = out.1).
Proof.
  cbv zeta. intros Hst.
  destruct (authorize_cases config googleState now q s)
    as [(cid & ruri & cc & _ & Hcid & _ & Hruri & _ & Hcc & _ & _ & E)|(r & E & Hr)];
    rewrite E in Hst |- *; cbn [fst snd] in *; [|rewrite Hr in Hst; discriminate].
  split; [|split; [reflexivity|split; [apply state_of_googleAuthUrl|]]].
  - eexists. split; [reflexivity|]. cbn [PendingAuth.clientId PendingAuth.redirectUri
      PendingAuth.codeChallenge]. repeat split; try congruence.
    + cbn [with_pendingAuths pendingAuths]. apply map_size_insert_None. assumption.
    + intros k Hk. cbn [with_pendingAuths pendingAuths]. apply lookup_insert_ne. congruence.
  - intros now' q' s' Hst'.
    destruct (authorize_cases config googleState now' q' s')
      as [(? & ? & ? & _ & _ & _ & _ & _ & _ & _ & _ & E')|(r & E' & Hr)];
      rewrite E' in Hst' |- *; cbn [fst] in *; [reflexivity|].
    rewrite Hr in Hst'. discriminate.
Qed.

(** A successful call on the sample query, in stores where the key is
    fresh. *)
Lemma C9_authorize_hides_caller_witness :
  status (authorize Sample.config "g-2" 5000 Sample.query Sample.stores).1 = 302
  /\ pendingAuths Sample.stores !! "g-2" = None
  /\ (authorize Sample.config "g-2" 5000 Sample.query Sample.stores).1
     = mkResponse 302 (Redirect (googleAuthUrl Sample.config "g-2")).
Proof.
  split; [reflexivity|]. split; [reflexivity|].
  exact (proj1 (proj2
    (C9_authorize_hides_caller Sample.config "g-2" 5000 Sample.query Sample.stores
       eq_refl))).
Defined.

(** ** The token endpoint *)

Ltac body_fields :=
  cbn [TokenBody.grant_type TokenBody.code TokenBody.redirect_uri TokenBody.client_id
       TokenBody.client_secret TokenBody.code_verifier TokenBody.refresh_token] in *.

Ltac store_fields :=
  cbn [with_authCodes with_accessTokens with_refreshTokens with_pendingAuths
       clients pendingAuths authCodes accessTokens refreshTokens fst snd] in *.

(** No run of the handler touches the client registry, the pending
    authorizations or, but for the insertion of a new one, the refresh
    tokens; and the codes only ever lose the one that was presented. *)
Lemma token_frame (env : TokenEnv.t) (b : TokenBody.t) (s : Stores) :
  clients (token env b s).2 = clients s
  /\ pendingAuths (token env b s).2 = pendingAuths s
  /\ (authCodes (token env b s).2 = authCodes s
      \/ authCodes (token env b s).2 = delete (str (TokenBody.code b)) (authCodes s)).
Proof.
  destruct b as [gt code ruri cid csec cv rt]. unfold token.
  repeat case_match; store_fields; body_fields; auto.
Qed.

(** A request without a usable [client_id]. *)
Lemma token_no_client_id (env : TokenEnv.t) (b : TokenBody.t) (s : Stores) :
  JS.falsy (TokenBody.client_id b) = true ->
  token env b s = (error_json_desc 400 "invalid_request" "client_id required", s).
Proof.
  destruct b as [gt code ruri cid csec cv rt]. body_fields. intros H.
  unfold token. rewrite H. reflexivity.
Qed.

(** A request of a registered client with another secret than the stored
    one. *)
Lemma token_invalid_client (env : TokenEnv.t) (b : TokenBody.t) (s : Stores) :
  JS.falsy (TokenBody.client_id b) = false ->
  secret_mismatch s (TokenBody.client_id b) (TokenBody.client_secret b) = true ->
  token env b s = (error_json 401 "invalid_client", s).
Proof.
  destruct b as [gt code ruri cid csec cv rt]. body_fields. intros H1 H2.
  unfold token. rewrite H1, H2. reflexivity.
Qed.

(** The authorization-code grant when the code is in the store: the entry
    is deleted first, and the three tests follow. *)
Lemma token_code_found (env : TokenEnv.t) (b : TokenBody.t) (s : Stores)
    (authCode : AuthCode.t) :
  TokenBody.grant_type b = Some "authorization_code" ->
  passes_client_checks b s ->
  Map_get (authCodes s) (TokenBody.code b) = Some authCode ->
  let s1 := with_authCodes (delete (str (TokenBody.code b)) (authCodes s)) s in
  token env b s =
  if bool_decide (TokenEnv.now_at_check env > AuthCode.expiresAt authCode) then
    (error_json_desc 400 "invalid_grant" "Code expired", s1)
  else if JS.strict_ne (AuthCode.clientId authCode) (TokenBody.client_id b)
          || JS.strict_ne (AuthCode.redirectUri authCode) (TokenBody.redirect_uri b) then
    (error_json_desc 400 "invalid_grant" "Client/redirect mismatch", s1)
  else if JS.falsy (TokenBody.code_verifier b)
          || JS.strict_ne (AuthCode.codeChallenge authCode)
               (Some (sha256 (str (TokenBody.code_verifier b)))) then
    (error_json_desc 400 "invalid_grant" "PKCE verification failed", s1)
  else
    (mkResponse 200
       (Json [("access_token", JString (TokenEnv.accessToken env));
              ("token_type", JString "Bearer");
              ("expires_in", JNumber expiresIn);
              ("refresh_token", JString (TokenEnv.refreshTok env))]),
     with_refreshTokens
       (<[TokenEnv.refreshTok env :=
            StoredToken.mk (str (TokenBody.client_id b)) (AuthCode.googleEmail authCode) 0]>
          (refreshTokens s))
       (with_accessTokens
          (<[TokenEnv.accessToken env :=
               StoredToken.mk (str (TokenBody.client_id b)) (AuthCode.googleEmail authCode)
                 (TokenEnv.now_at_issue env + expiresIn * 1000)]> (accessTokens s))
          s1)).
Proof.
  destruct b as [gt code ruri cid csec cv rt]. unfold passes_client_checks. body_fields.
  intros -> [H1 H2] H3. cbv zeta. unfold token. rewrite H1, H2, H3.
  reflexivity.
Qed.

(** The same grant when the code is not in the store. *)
Lemma token_code_absent (env : TokenEnv.t) (b : TokenBody.t) (s : Stores) :
  TokenBody.grant_type b = Some "authorization_code" ->
  Map_get (authCodes s) (TokenBody.code b) = None ->
  (token env b s).2 = s
  /\ status (token env b s).1 <> 200
  /\ (passes_client_checks b s ->
      (token env b s).1 = error_json_desc 400 "invalid_grant" "Invalid or expired code").
Proof.
  destruct b as [gt code ruri cid csec cv rt]. unfold passes_client_checks. body_fields.
  intros -> H. unfold token. rewrite H.
  destruct (JS.falsy cid); [repeat split; [discriminate|intros [? ?]; discriminate]|].
  destruct (secret_mismatch s cid csec);
    [repeat split; [discriminate|intros [? ?]; discriminate]|].
  repeat split. discriminate.
Qed.

(** *** The handler for every body *)

Ltac raw_body body :=
  destruct body as [| | | | |members]; cbn [Json.property] in *; try discriminate;
  unfold post_token, past_client_checks in *; cbn [Json.property] in *.

(** For a body whose members are strings the handler does what [token]
    says. *)
Lemma property_json_of_TokenBody (b : TokenBody.t) :
  Json.property "grant_type" (json_of_TokenBody b) = Json.Str <$> TokenBody.grant_type b
  /\ Json.property "code" (json_of_TokenBody b) = Json.Str <$> TokenBody.code b
  /\ Json.property "redirect_uri" (json_of_TokenBody b)
     = Json.Str <$> TokenBody.redirect_uri b
  /\ Json.property "client_id" (json_of_TokenBody b) = Json.Str <$> TokenBody.client_id b
  /\ Json.property "client_secret" (json_of_TokenBody b)
     = Json.Str <$> TokenBody.client_secret b
  /\ Json.property "code_verifier" (json_of_TokenBody b)
     = Json.Str <$> TokenBody.code_verifier b
  /\ Json.property "refresh_token" (json_of_TokenBody b)
     = Json.Str <$> TokenBody.refresh_token b.
Proof.
  destruct b as [[gt|] [code|] [ruri|] [cid|] [csec|] [cv|] [rt|]];
    repeat split; reflexivity.
Qed.

Lemma Json_falsy_Str (x : option string) : Json.falsy (Json.Str <$> x) = JS.falsy x.
Proof.
  destruct x as [v|]; [|reflexivity]. cbn. unfold bool_decide.
  destruct (decide (v = "")), (decide_rel eq v ""); congruence.
Qed.

Lemma Json_string_of_Str (x : option string) : Json.string_of (Json.Str <$> x) = x.
Proof. destruct x; reflexivity. Qed.

Lemma post_token_typed (env : TokenEnv.t) (b : TokenBody.t) (s : Stores) :
  post_token env (Some (json_of_TokenBody b)) s
  = (Sends (token env b s).1, (token env b s).2).
Proof.
  destruct (property_json_of_TokenBody b) as (H1 & H2 & H3 & H4 & H5 & H6 & H7).
  unfold post_token. change (json_of_TokenBody b) with (Json.Obj
    (flat_map (fun kv => match kv.2 with Some v => [(kv.1, Json.Str v)] | None => [] end)
       [("grant_type", TokenBody.grant_type b); ("code", TokenBody.code b);
        ("redirect_uri", TokenBody.redirect_uri b); ("client_id", TokenBody.client_id b);
        ("client_secret", TokenBody.client_secret b);
        ("code_verifier", TokenBody.code_verifier b);
        ("refresh_token", TokenBody.refresh_token b)])) at 1.
  cbv beta iota zeta.
  change (Json.Obj _) with (json_of_TokenBody b).
  rewrite H1, H2, H3, H4, H5, H6, H7. rewrite !Json_falsy_Str, !Json_string_of_Str.
  destruct b as [gt code ruri cid csec cv rt]. body_fields. unfold token.
  destruct (JS.falsy cid); [reflexivity|].
  destruct (secret_mismatch s cid csec); [reflexivity|].
  destruct (JS.strict_eq gt "authorization_code").
  - destruct (Map_get (authCodes s) code) as [authCode|]; [|reflexivity].
    case_bool_decide; [reflexivity|].
    destruct (JS.strict_ne (AuthCode.clientId authCode) cid
              || JS.strict_ne (AuthCode.redirectUri authCode) ruri); [reflexivity|].
    destruct cv as [v|]; [|reflexivity].
    cbn [fmap option_fmap option_map JS.falsy Json.falsy str default from_option id orb].
    unfold bool_decide.
    destruct (decide (v = "")), (decide_rel eq v ""); try congruence; [reflexivity|].
    cbn [orb]. destruct (JS.strict_ne (AuthCode.codeChallenge authCode) (Some (sha256 v)));
      reflexivity.
  - destruct (JS.strict_eq gt "refresh_token"); [|reflexivity].
    destruct (Map_get (refreshTokens s) rt) as [stored|]; [|reflexivity].
    destruct (JS.strict_ne (StoredToken.clientId stored) cid); reflexivity.
Qed.

(** A request whose [client_id] is falsy, and one of a registered client
    with another secret than the stored one. *)
Lemma post_token_no_client_id (env : TokenEnv.t) (body : Json.value) (s : Stores) :
  body <> Json.Null ->
  Json.falsy (Json.property "client_id" body) = true ->
  post_token env (Some body) s
  = (Sends (error_json_desc 400 "invalid_request" "client_id required"), s).
Proof.
  intros Hnull H. unfold post_token. rewrite H.
  destruct body; try reflexivity. contradiction Hnull. reflexivity.
Qed.

Lemma post_token_invalid_client (env : TokenEnv.t) (body : Json.value) (s : Stores) :
  Json.falsy (Json.property "client_id" body) = false ->
  secret_mismatch s (Json.string_of (Json.property "client_id" body))
    (Json.string_of (Json.property "client_secret" body)) = true ->
  post_token env (Some body) s = (Sends (error_json 401 "invalid_client"), s).
Proof.
  intros H1 H2. unfold post_token. rewrite H1, H2.
  destruct body; try reflexivity. discriminate H1.
Qed.

(** The authorization-code grant when the code is in the store: the entry
    is deleted whatever follows, the exception included. *)
Lemma post_token_code_found (env : TokenEnv.t) (body : Json.value) (s : Stores)
    (code : string) (authCode : AuthCode.t) :
  Json.property "grant_type" body = Some (Json.Str "authorization_code") ->
  Json.property "code" body = Some (Json.Str code) ->
  past_client_checks body s ->
  authCodes s !! code = Some authCode ->
  authCodes (post_token env (Some body) s).2 = delete code (authCodes s).
Proof.
  intros Hgt Hcode [H1 H2] Hfound. raw_body body.
  rewrite H1, H2, Hgt, Hcode.
  cbn [Json.string_of Map_get str default from_option id].
  change (JS.strict_eq (Some "authorization_code") "authorization_code") with true.
  cbv iota. rewrite Hfound.
  repeat case_match; store_fields; reflexivity.
Qed.

(** The same grant when the code is not in the store. *)
Lemma post_token_code_absent (env : TokenEnv.t) (body : Json.value) (s : Stores) :
  Json.property "grant_type" body = Some (Json.Str "authorization_code") ->
  Map_get (authCodes s) (Json.string_of (Json.property "code" body)) = None ->
  exists r,
    post_token env (Some body) s = (Sends r, s)
    /\ status r <> 200
    /\ (Json.falsy (Json.property "client_id" body) = true ->
        r = error_json_desc 400 "invalid_request" "client_id required")
    /\ (Json.falsy (Json.property "client_id" body) = false ->
        secret_mismatch s (Json.string_of (Json.property "client_id" body))
          (Json.string_of (Json.property "client_secret" body)) = true ->
        r = error_json 401 "invalid_client")
    /\ (past_client_checks body s ->
        r = error_json_desc 400 "invalid_grant" "Invalid or expired code").
Proof.
  intros Hgt Hnone. raw_body body. rewrite Hgt, Hnone.
  change (JS.strict_eq (Json.string_of (Some (Json.Str "authorization_code")))
            "authorization_code") with true.
  destruct (Json.falsy (Json.member "client_id" members)).
  { eexists. split; [reflexivity|]. split; [discriminate|].
    split; [reflexivity|]. split; [discriminate|]. intros [? _]. discriminate. }
  destruct (secret_mismatch s _ _).
  { eexists. split; [reflexivity|]. split; [discriminate|].
    split; [discriminate|]. split; [reflexivity|]. intros [_ ?]. discriminate. }
  eexists. split; [reflexivity|]. split; [discriminate|].
  split; [discriminate|]. split; [discriminate|]. reflexivity.
Qed.

(** C1: when a token request with grant_type=authorization_code finds the
    AuthCode of its code, the entry is gone from the store afterwards
    whether the expiry, client_id/redirect_uri and PKCE tests pass or not
    (and also when the handler throws at the verifier); no other code is
    removed.  Any later request presenting the same code to the stores so
    left fails, whatever its other members are: it is answered, never with
    a 200, the stores stay as they are, and the error is invalid_grant once
    the request is past the client checks, invalid_request when its
    client_id is missing and invalid_client when the secret of a registered
    client is wrong. *)
Theorem C1_code_single_use (env : TokenEnv.t) (body : Json.value) (s : Stores)
    (code : string) (authCode : AuthCode.t) :
  Json.property "grant_type" body = Some (Json.Str "authorization_code") ->
  Json.property "code" body = Some (Json.Str code) ->
  past_client_checks body s ->
  authCodes s !! code = Some authCode ->
  let s' := (post_token env (Some body) s).2 in
  authCodes s' = delete code (authCodes s)
  /\ authCodes s' !! code = None
  /\ forall env2 body2,
       Json.property "grant_type" body2 = Some (Json.Str "authorization_code") ->
       Json.property "code" body2 = Some (Json.Str code) ->
       exists r,
         post_token env2 (Some body2) s' = (Sends r, s')
         /\ status r <> 200
         /\ (Json.falsy (Json.property "client_id" body2) = true ->
             error_of r = Some "invalid_request")
         /\ (Json.falsy (Json.property "client_id" body2) = false ->
             secret_mismatch s' (Json.string_of (Json.property "client_id" body2))
               (Json.string_of (Json.property "client_secret" body2)) = true ->
             error_of r = Some "invalid_client")
         /\ (past_client_checks body2 s' ->
             r = error_json_desc 400 "invalid_grant" "Invalid or expired code"
             /\ error_of r = Some "invalid_grant").
Proof.
  intros Hgt Hcode Hpast Hfound s'.
  assert (Hdel : authCodes s' = delete code (authCodes s))
    by exact (post_token_code_found env body s code authCode Hgt Hcode Hpast Hfound).
  assert (Hgone : authCodes s' !! code = None)
    by (rewrite Hdel; apply lookup_delete_eq).
  split; [exact Hdel|]. split; [exact Hgone|].
  intros env2 body2 Hgt2 Hcode2.
  assert (Habsent : Map_get (authCodes s') (Json.string_of (Json.property "code" body2))
                    = None) by (rewrite Hcode2; exact Hgone).
  destruct (post_token_code_absent env2 body2 s' Hgt2 Habsent)
    as (r & Hr & Hst & Hreq & Hcli & Hgrant).
  exists r. split; [exact Hr|]. split; [exact Hst|].
  split; [intros H; rewrite (Hreq H); reflexivity|].
  split; [intros H1 H2; rewrite (Hcli H1 H2); reflexivity|].
  intros H. rewrite (Hgrant H). split; reflexivity.
Qed.

(** The sample code redeemed with a wrong verifier, then with the right
    one. *)
Lemma C1_code_single_use_witness :
  let first := post_token Sample.env (Some (json_of_TokenBody Sample.redeem_wrong_verifier))
                 Sample.stores in
  authCodes first.2 !! "code-1" = None
  /\ post_token Sample.env' (Some (json_of_TokenBody Sample.redeem)) first.2
     = (Sends (error_json_desc 400 "invalid_grant" "Invalid or expired code"), first.2).
Proof.
  pose proof (C1_code_single_use Sample.env (json_of_TokenBody Sample.redeem_wrong_verifier)
                Sample.stores "code-1" Sample.authCode eq_refl eq_refl
                (conj eq_refl eq_refl) eq_refl) as H.
  cbv zeta in H. destruct H as (_ & Hgone & Hsecond).
  split; [exact Hgone|].
  destruct (Hsecond Sample.env' (json_of_TokenBody Sample.redeem) eq_refl eq_refl)
    as (r & Hr & _ & _ & _ & Hgrant).
  destruct (Hgrant (conj eq_refl eq_refl)) as [-> _]. exact Hr.
Defined.

(** The claim as it is written fails: the second request below presents
    the code that the first one has consumed, and it is answered
    invalid_request, not invalid_grant, because it names no client. *)
Lemma C1_second_attempt_invalid_request :
  let first := post_token Sample.env (Some (json_of_TokenBody Sample.redeem)) Sample.stores in
  let again := Json.Obj [("grant_type", Json.Str "authorization_code");
                         ("code", Json.Str "code-1")] in
  authCodes Sample.stores !! "code-1" = Some Sample.authCode
  /\ (exists r, first.1 = Sends r /\ status r = 200)
  /\ exists r, (post_token Sample.env' (Some again) first.2).1 = Sends r
       /\ error_of r = Some "invalid_request"
       /\ error_of r <> Some "invalid_grant".
Proof.
  cbv zeta. split; [reflexivity|].
  split; [eexists; split; [vm_compute; reflexivity|reflexivity]|].
  eexists. split; [reflexivity|]. split; [reflexivity|discriminate].
Qed.

(** C7: at the token endpoint a request whose body no parser has read
    makes the handler throw at its first statement, before the client_id
    test: that request names no client and is not answered invalid_request.
    For every body that a parser has produced: when client_id is missing
    (or falsy) the answer is invalid_request; when client_id is that of a
    registered client and client_secret is not the stored secret the answer
    is invalid_client, whatever the grant, and the stores are as they were;
    and for a client_id that is not registered the secret is not looked at:
    the outcome is the same with any client_secret or none, it is never
    invalid_client or invalid_request, and an authorization-code request
    that finds an unexpired code of its client_id and redirect_uri succeeds
    exactly when its code_verifier is a non-empty string whose hash is the
    stored challenge. *)
Theorem C7_token_client_checks (env : TokenEnv.t) (s : Stores) :
  post_token env None s = (Throws, s)
  /\ forall body : Json.value,
       body <> Json.Null ->
       (Json.falsy (Json.property "client_id" body) = true ->
        post_token env (Some body) s
        = (Sends (error_json_desc 400 "invalid_request" "client_id required"), s))
       /\ (forall cid client,
             Json.property "client_id" body = Some (Json.Str cid) -> cid <> "" ->
             clients s !! cid = Some client ->
             Json.string_of (Json.property "client_secret" body)
             <> Some (RegisteredClient.clientSecret client) ->
             post_token env (Some body) s = (Sends (error_json 401 "invalid_client"), s))
       /\ (Json.falsy (Json.property "client_id" body) = false ->
           Map_get (clients s) (Json.string_of (Json.property "client_id" body)) = None ->
           (forall body',
              (forall name, name <> "client_secret" ->
                            Json.property name body' = Json.property name body) ->
              post_token env (Some body') s = post_token env (Some body) s)
           /\ (forall r, (post_token env (Some body) s).1 = Sends r ->
                 error_of r <> Some "invalid_client"
                 /\ error_of r <> Some "invalid_request")
           /\ (forall authCode,
                 Json.property "grant_type" body = Some (Json.Str "authorization_code") ->
                 Map_get (authCodes s) (Json.string_of (Json.property "code" body))
                 = Some authCode ->
                 ~ (TokenEnv.now_at_check env > AuthCode.expiresAt authCode) ->
                 Json.string_of (Json.property "client_id" body)
                 = Some (AuthCode.clientId authCode) ->
                 Json.string_of (Json.property "redirect_uri" body)
                 = Some (AuthCode.redirectUri authCode) ->
                 ((exists r, (post_token env (Some body) s).1 = Sends r /\ status r = 200)
                  <-> exists verifier,
                        Json.property "code_verifier" body = Some (Json.Str verifier)
                        /\ verifier <> ""
                        /\ sha256 verifier = AuthCode.codeChallenge authCode))).
Proof.
  split; [reflexivity|]. intros body Hnull. split; [|split].
  - apply post_token_no_client_id, Hnull.
  - intros cid client Hcid Hne Hc Hsec. apply post_token_invalid_client.
    + rewrite Hcid. cbn. apply bool_decide_eq_false_2, Hne.
    + unfold secret_mismatch. rewrite Hcid. cbn [Json.string_of Map_get]. rewrite Hc.
      apply strict_ne_true. congruence.
  - intros Hf Hc.
    assert (Hm : forall x, secret_mismatch s
                             (Json.string_of (Json.property "client_id" body)) x = false)
      by (intros x; unfold secret_mismatch; rewrite Hc; reflexivity).
    split; [|split].
    + intros body' Hsame.
      assert (Hf' : Json.falsy (Json.property "client_id" body') = false)
        by (rewrite Hsame by discriminate; exact Hf).
      destruct body as [| | | | |members]; try discriminate Hf.
      destruct body' as [| | | | |members']; try discriminate Hf'.
      unfold post_token.
      rewrite (Hsame "grant_type"), (Hsame "code"), (Hsame "redirect_uri"),
        (Hsame "client_id"), (Hsame "code_verifier"), (Hsame "refresh_token")
        by discriminate.
      rewrite !Hm. reflexivity.
    + intros r. destruct body as [| | | | |members]; try discriminate Hf.
      unfold post_token. rewrite Hf, Hm.
      repeat case_match; cbn [fst]; intros Hr; try discriminate Hr;
        injection Hr as <-; split; intros E; vm_compute in E; discriminate E.
    + intros authCode Hgt Hfound Hnow Hcid Hruri.
      destruct body as [| | | | |members]; try discriminate Hf.
      unfold post_token. rewrite Hf, Hm, Hgt, Hfound, Hcid, Hruri.
      change (JS.strict_eq (Json.string_of (Some (Json.Str "authorization_code")))
                "authorization_code") with true.
      rewrite bool_decide_eq_false_2 by exact Hnow.
      rewrite !(proj2 (strict_ne_false _ _)) by reflexivity.
      cbn [orb Json.property].
      destruct (Json.member "code_verifier" members) as [v|] eqn:Hv.
      2:{ cbn [Json.falsy fst]. split.
          - intros (r & Hr & Hst). injection Hr as <-. discriminate Hst.
          - intros (v & E & _). discriminate E. }
      destruct (Json.falsy (Some v)) eqn:Hfv.
      { cbn [fst]. split.
        - intros (r & Hr & Hst). injection Hr as <-. discriminate Hst.
        - intros (verifier & E & Hne & _). injection E as ->. cbn in Hfv.
          apply bool_decide_eq_true_1 in Hfv. contradiction. }
      destruct v as [| | |verifier| |];
        try (cbn [fst]; split;
             [intros (r & Hr & _); discriminate Hr|intros (x & E & _); discriminate E]).
      destruct (JS.strict_ne (AuthCode.codeChallenge authCode) (Some (sha256 verifier)))
        eqn:Hne; cbn [fst]; split.
      * intros (r & Hr & Hst). injection Hr as <-. discriminate Hst.
      * intros (x & E & _ & Hx). injection E as <-.
        unfold JS.strict_ne in Hne. rewrite Hx in Hne.
        destruct (decide _) as [|n] in Hne; [discriminate Hne|]. contradiction n.
        reflexivity.
      * intros _. exists verifier. split; [reflexivity|]. split.
        { intros ->. cbn in Hfv. discriminate Hfv. }
        apply strict_ne_false in Hne. congruence.
      * intros _. eexists. split; reflexivity.
Qed.





(** What a successful answer leaves in the access-token store. *)
Lemma token_success (env : TokenEnv.t) (b : TokenBody.t) (s : Stores) :
  status (token env b s).1 = 200 ->
  exists cid email,
    accessTokens (token env b s).2 =
    <[TokenEnv.accessToken env :=
        StoredToken.mk cid email (TokenEnv.now_at_issue env + expiresIn * 1000)]>
      (accessTokens s)
    /\ has_field "access_token" (token env b s).1 = true.
Proof.
  destruct b as [gt code ruri cid csec cv rt]. unfold token.
  repeat case_match; store_fields; intros Hst; try discriminate Hst;
    eexists _, _; split; reflexivity.
Qed.

(** C3: the access token of a successful token response is stored with
    expiry time = time of issuance + 3600 seconds, and [requireAuth] lets a
    request with that token through exactly when the time of the request is
    not greater than the expiry time: it passes 3599 seconds after issuance
    and is answered 401 after 3601 seconds. *)
Theorem C3_access_token_lifetime (env : TokenEnv.t) (b : TokenBody.t) (s : Stores) :
  status (token env b s).1 = 200 ->
  let s' := (token env b s).2 in
  let t := TokenEnv.accessToken env in
  let issued := TokenEnv.now_at_issue env in
  exists stored,
    accessTokens s' !! t = Some stored
    /\ StoredToken.expiresAt stored = issued + 3600 * 1000
    /\ (forall now, requireAuth (bearer t) now s' = Next
                    <-> ~ (now > StoredToken.expiresAt stored))
    /\ requireAuth (bearer t) (issued + 3599 * 1000) s' = Next
    /\ requireAuth (bearer t) (issued + 3601 * 1000) s' = Respond unauthorized
    /\ status unauthorized = 401.
Proof.
  intros Hst s' t issued.
  destruct (token_success env b s Hst) as (cid & email & Hat & _).
  fold s' t issued in Hat.
  exists (StoredToken.mk cid email (issued + expiresIn * 1000)).
  assert (Hlook : accessTokens s' !! t
                  = Some (StoredToken.mk cid email (issued + expiresIn * 1000))).
  { rewrite Hat. apply lookup_insert_eq. }
  assert (Hreq : forall now, requireAuth (bearer t) now s' = Next
                             <-> ~ (now > issued + expiresIn * 1000)).
  { intros now. rewrite requireAuth_bearer, Hlook. cbn [StoredToken.expiresAt].
    case_bool_decide; split; intros; congruence || contradiction. }
  cbn [StoredToken.expiresAt]. unfold expiresIn in *.
  split; [exact Hlook|]. split; [reflexivity|]. split; [exact Hreq|].
  split; [apply Hreq; lia|]. split; [|reflexivity].
  rewrite requireAuth_bearer, Hlook. cbn [StoredToken.expiresAt].
  rewrite bool_decide_eq_true_2 by lia. reflexivity.
Qed.

(** The sample code redeemed at time 2001: accepted until 3602001. *)
Lemma C3_access_token_lifetime_witness :
  let s' := (token Sample.env Sample.redeem Sample.stores).2 in
  status (token Sample.env Sample.redeem Sample.stores).1 = 200
  /\ requireAuth (bearer "access-1") (2001 + 3599 * 1000) s' = Next
  /\ requireAuth (bearer "access-1") (2001 + 3601 * 1000) s' = Respond unauthorized.
Proof.
  assert (Hst : status (token Sample.env Sample.redeem Sample.stores).1 = 200)
    by (vm_compute; reflexivity).
  destruct (C3_access_token_lifetime Sample.env Sample.redeem Sample.stores Hst)
    as (stored & _ & _ & _ & H1 & H2 & _).
  split; [exact Hst|]. split; [exact H1|exact H2].
Defined.

(** The refresh grant, for a request past the client checks. *)
Lemma token_refresh (env : TokenEnv.t) (b : TokenBody.t) (s : Stores) :
  TokenBody.grant_type b = Some "refresh_token" ->
  passes_client_checks b s ->
  token env b s =
  match Map_get (refreshTokens s) (TokenBody.refresh_token b) with
  | None => (error_json_desc 400 "invalid_grant" "Invalid refresh token", s)
  | Some stored =>
      if JS.strict_ne (StoredToken.clientId stored) (TokenBody.client_id b) then
        (error_json_desc 400 "invalid_grant" "Invalid refresh token", s)
      else
        (mkResponse 200
           (Json [("access_token", JString (TokenEnv.accessToken env));
                  ("token_type", JString "Bearer");
                  ("expires_in", JNumber expiresIn)]),
         with_accessTokens
           (<[TokenEnv.accessToken env :=
                StoredToken.mk (StoredToken.clientId stored) (StoredToken.googleEmail stored)
                  (TokenEnv.now_at_issue env + expiresIn * 1000)]> (accessTokens s)) s)
  end.
Proof.
  destruct b as [gt code ruri cid csec cv rt]. unfold passes_client_checks. body_fields.
  intros -> [H1 H2]. unfold token. rewrite H1, H2.
  change (JS.strict_eq (Some "refresh_token") "authorization_code") with false.
  change (JS.strict_eq (Some "refresh_token") "refresh_token") with true.
  cbv iota. destruct (Map_get (refreshTokens s) rt) as [stored|]; [|reflexivity].
  destruct (JS.strict_ne (StoredToken.clientId stored) cid) eqn:Hne; [reflexivity|].
  apply strict_ne_false in Hne. subst cid. reflexivity.
Qed.

(** *** The refresh grant for every body *)

Lemma post_token_refresh (env : TokenEnv.t) (body : Json.value) (s : Stores) :
  Json.property "grant_type" body = Some (Json.Str "refresh_token") ->
  past_client_checks body s ->
  post_token env (Some body) s =
  match Map_get (refreshTokens s) (Json.string_of (Json.property "refresh_token" body)) with
  | None => (Sends (error_json_desc 400 "invalid_grant" "Invalid refresh token"), s)
  | Some stored =>
      if JS.strict_ne (StoredToken.clientId stored)
           (Json.string_of (Json.property "client_id" body)) then
        (Sends (error_json_desc 400 "invalid_grant" "Invalid refresh token"), s)
      else
        (Sends (mkResponse 200
                  (Json [("access_token", JString (TokenEnv.accessToken env));
                         ("token_type", JString "Bearer");
                         ("expires_in", JNumber expiresIn)])),
         with_accessTokens
           (<[TokenEnv.accessToken env :=
                StoredToken.mk (StoredToken.clientId stored) (StoredToken.googleEmail stored)
                  (TokenEnv.now_at_issue env + expiresIn * 1000)]> (accessTokens s)) s)
  end.
Proof.
  intros Hgt [H1 H2]. raw_body body. rewrite H1, H2, Hgt.
  change (JS.strict_eq (Json.string_of (Some (Json.Str "refresh_token")))
            "authorization_code") with false.
  change (JS.strict_eq (Json.string_of (Some (Json.Str "refresh_token")))
            "refresh_token") with true.
  cbv iota.
  destruct (Map_get (refreshTokens s) _) as [stored|]; [|reflexivity].
  destruct (JS.strict_ne (StoredToken.clientId stored) _) eqn:Hne; [reflexivity|].
  apply strict_ne_false in Hne. rewrite <- Hne. reflexivity.
Qed.

(** Whatever else a refresh_token request does, it is answered; it leaves
    the clients, the pending authorizations, the codes and the refresh
    tokens alone, changes nothing at all when it fails, and never answers
    with a refresh_token member.  Short of the client checks it fails with
    invalid_request or invalid_client. *)
Lemma post_token_refresh_frame (env : TokenEnv.t) (body : Json.value) (s : Stores) :
  Json.property "grant_type" body = Some (Json.Str "refresh_token") ->
  let out := post_token env (Some body) s in
  (exists r,
     out.1 = Sends r
     /\ has_field "refresh_token" r = false
     /\ (status r <> 200 -> out.2 = s)
     /\ (~ past_client_checks body s ->
         error_of r = Some "invalid_request" \/ error_of r = Some "invalid_client"))
  /\ refreshTokens out.2 = refreshTokens s
  /\ clients out.2 = clients s
  /\ pendingAuths out.2 = pendingAuths s
  /\ authCodes out.2 = authCodes s.
Proof.
  intros Hgt. cbv zeta. raw_body body. rewrite Hgt.
  change (JS.strict_eq (Json.string_of (Some (Json.Str "refresh_token")))
            "authorization_code") with false.
  change (JS.strict_eq (Json.string_of (Some (Json.Str "refresh_token")))
            "refresh_token") with true.
  cbv iota.
  destruct (Json.falsy (Json.member "client_id" members)).
  { split; [|auto]. eexists. split; [reflexivity|]. split; [reflexivity|].
    split; [reflexivity|]. left. reflexivity. }
  destruct (secret_mismatch s _ _).
  { split; [|auto]. eexists. split; [reflexivity|]. split; [reflexivity|].
    split; [reflexivity|]. right. reflexivity. }
  repeat case_match; store_fields; (split; [|auto]); eexists;
    (split; [reflexivity|]); (split; [reflexivity|]);
    (split; [try reflexivity; intros Hst; contradiction Hst; reflexivity|]);
    intros Hnot; contradiction Hnot; split; reflexivity.
Qed.

(** The keys of the access-token store after a run of the handler. *)
Lemma post_token_accessTokens (env : TokenEnv.t) (body : option Json.value) (s : Stores) :
  accessTokens (post_token env body s).2 = accessTokens s
  \/ exists stored,
       accessTokens (post_token env body s).2
       = <[TokenEnv.accessToken env := stored]> (accessTokens s).
Proof.
  destruct body as [body|]; [|left; reflexivity].
  destruct body as [| | | | |members]; try (left; reflexivity).
  unfold post_token. repeat case_match; store_fields; eauto.
Qed.

Section Refresh.

(** The source of [randomUUID()]'s values, which never returns a value
    twice. *)
Variable uuid : nat -> string.
Hypothesis uuid_unique : forall i j, uuid i = uuid j -> i = j.

(** The keys of the access-token store stay values of the source: a run
    that draws its access token at [i] keeps them among the first [S i]
    values. *)
Lemma post_token_drawn (env : TokenEnv.t) (body : option Json.value) (s : Stores)
    (n i : nat) :
  drawn_before uuid n s -> (n <= i)%nat -> TokenEnv.accessToken env = uuid i ->
  drawn_before uuid (S i) (post_token env body s).2.
Proof.
  intros Hdrawn Hle Ht k Hk.
  destruct (post_token_accessTokens env body s) as [E|[stored E]]; rewrite E in Hk.
  - destruct (Hdrawn k Hk) as (j & Hj & ->). exists j. split; [lia|reflexivity].
  - destruct (decide (k = TokenEnv.accessToken env)) as [->|Hne].
    + exists i. split; [lia|exact Ht].
    + rewrite lookup_insert_ne in Hk by congruence.
      destruct (Hdrawn k Hk) as (j & Hj & ->). exists j. split; [lia|reflexivity].
Qed.

(** So it is with every step that adds no access token, the cleanup among
    them, and with the stores a process starts from. *)
Lemma drawn_before_subseteq (s s' : Stores) (n : nat) :
  accessTokens s' ⊆ accessTokens s -> drawn_before uuid n s -> drawn_before uuid n s'.
Proof.
  intros Hsub Hdrawn k [stored Hk]. apply Hdrawn. exists stored.
  exact (lookup_weaken _ _ _ _ Hk Hsub).
Qed.

Lemma sweep_drawn (now : Z) (s : Stores) (n : nat) :
  drawn_before uuid n s -> drawn_before uuid n (sweep now s).
Proof. apply drawn_before_subseteq. unfold sweep. cbn. apply map_filter_subseteq. Qed.

Lemma drawn_before_empty : drawn_before uuid 0 (mkStores ∅ ∅ ∅ ∅ ∅).
Proof. intros k [stored Hk]. cbn in Hk. rewrite lookup_empty in Hk. discriminate Hk. Qed.

(** A value drawn now is the key of no access token. *)
Lemma drawn_before_new (s : Stores) (n : nat) :
  drawn_before uuid n s -> accessTokens s !! uuid n = None.
Proof.
  intros Hdrawn. destruct (accessTokens s !! uuid n) as [stored|] eqn:E; [|reflexivity].
  destruct (Hdrawn (uuid n)) as (j & Hj & Hu); [rewrite E; eauto|].
  apply uuid_unique in Hu. lia.
Qed.

(** C4: a refresh_token request is always answered; it changes neither the
    refresh tokens nor the clients, pending authorizations and codes, and
    its response has no refresh_token member.  Short of the client checks
    it fails with invalid_request or invalid_client and changes nothing.
    Past them: if its refresh token is not in the store, or is stored for
    another client id than the request's, it fails with invalid_grant and
    changes no store; otherwise it succeeds and puts one access token,
    bound to the stored client id and identity, in the access-token store,
    every other entry staying as it was.  The values of [randomUUID()]
    being those of a source that never repeats one, that access token is
    new, and a later refresh with the same refresh token succeeds as well
    with another access token, after which both pass the bearer check. *)
Theorem C4_refresh_mints_access_token_only (env : TokenEnv.t) (body : Json.value)
    (s : Stores) (n : nat) :
  Json.property "grant_type" body = Some (Json.Str "refresh_token") ->
  TokenEnv.accessToken env = uuid n ->
  drawn_before uuid n s ->
  let out := post_token env (Some body) s in
  let t := uuid n in
  let presented := Json.string_of (Json.property "refresh_token" body) in
  let invalid_grant := error_json_desc 400 "invalid_grant" "Invalid refresh token" in
  let minted token :=
    mkResponse 200 (Json [("access_token", JString token); ("token_type", JString "Bearer");
                          ("expires_in", JNumber 3600)]) in
  (exists r,
     out.1 = Sends r
     /\ has_field "refresh_token" r = false
     /\ (status r <> 200 -> out.2 = s)
     /\ (~ past_client_checks body s ->
         error_of r = Some "invalid_request" \/ error_of r = Some "invalid_client"))
  /\ refreshTokens out.2 = refreshTokens s
  /\ clients out.2 = clients s
  /\ pendingAuths out.2 = pendingAuths s
  /\ authCodes out.2 = authCodes s
  /\ (past_client_checks body s ->
      (Map_get (refreshTokens s) presented = None -> out = (Sends invalid_grant, s))
      /\ (forall stored,
            Map_get (refreshTokens s) presented = Some stored ->
            Json.string_of (Json.property "client_id" body)
            <> Some (StoredToken.clientId stored) ->
            out = (Sends invalid_grant, s))
      /\ (forall stored,
            Map_get (refreshTokens s) presented = Some stored ->
            Json.string_of (Json.property "client_id" body)
            = Some (StoredToken.clientId stored) ->
            out.1 = Sends (minted t)
            /\ out.2 = with_accessTokens
                         (<[t := StoredToken.mk (StoredToken.clientId stored)
                                   (StoredToken.googleEmail stored)
                                   (TokenEnv.now_at_issue env + 3600 * 1000)]>
                            (accessTokens s)) s
            /\ accessTokens s !! t = None
            /\ size (accessTokens out.2) = S (size (accessTokens s))
            /\ (forall k, k <> t -> accessTokens out.2 !! k = accessTokens s !! k)
            /\ Map_get (refreshTokens out.2) presented = Some stored
            /\ drawn_before uuid (S n) out.2
            /\ forall env2 m,
                 (n < m)%nat -> TokenEnv.accessToken env2 = uuid m ->
                 let out2 := post_token env2 (Some body) out.2 in
                 out2.1 = Sends (minted (uuid m))
                 /\ uuid m <> t
                 /\ minted (uuid m) <> minted t
                 /\ refreshTokens out2.2 = refreshTokens s
                 /\ (forall now, now <= TokenEnv.now_at_issue env + 3600 * 1000 ->
                     requireAuth (bearer t) now out2.2 = Next)
                 /\ (forall now, now <= TokenEnv.now_at_issue env2 + 3600 * 1000 ->
                     requireAuth (bearer (uuid m)) now out2.2 = Next))).
Proof.
  intros Hgt Ht Hdrawn out t presented invalid_grant minted.
  destruct (post_token_refresh_frame env body s Hgt) as (Hr & Hrt & Hcl & Hpe & Hco).
  fold out in Hr, Hrt, Hcl, Hpe, Hco.
  split; [exact Hr|]. do 4 (split; [assumption|]). intros Hpass.
  pose proof (post_token_refresh env body s Hgt Hpass) as Hout.
  fold out presented in Hout. rewrite Ht in Hout. fold t in Hout.
  split; [|split].
  - intros Hnone. rewrite Hout, Hnone. reflexivity.
  - intros stored Hsome Hne. rewrite Hout, Hsome.
    rewrite (proj2 (strict_ne_true _ _)) by congruence. reflexivity.
  - intros stored Hsome Heq. rewrite Hsome in Hout.
    rewrite (proj2 (strict_ne_false _ _)) in Hout by congruence.
    assert (Hnew : accessTokens s !! t = None) by exact (drawn_before_new s n Hdrawn).
    assert (Hdrawn1 : drawn_before uuid (S n) out.2)
      by exact (post_token_drawn env (Some body) s n n Hdrawn (le_n n) Ht).
    clearbody out. subst out. store_fields. unfold expiresIn in *.
    split; [reflexivity|]. split; [reflexivity|]. split; [exact Hnew|].
    split; [apply map_size_insert_None, Hnew|].
    split; [intros k Hk; apply lookup_insert_ne; congruence|].
    split; [exact Hsome|]. split; [exact Hdrawn1|].
    intros env2 m Hlt Ht2.
    set (s1 := with_accessTokens _ s) in *.
    assert (Hpass1 : past_client_checks body s1) by exact Hpass.
    pose proof (post_token_refresh env2 body s1 Hgt Hpass1) as Hout2.
    change (refreshTokens s1) with (refreshTokens s) in Hout2.
    fold presented in Hout2. rewrite Hsome in Hout2.
    rewrite (proj2 (strict_ne_false _ _)) in Hout2 by congruence.
    rewrite Ht2 in Hout2.
    assert (Hdiff : uuid m <> t).
    { intros E. apply uuid_unique in E. lia. }
    cbv zeta. rewrite Hout2. store_fields. unfold expiresIn.
    split; [reflexivity|]. split; [exact Hdiff|].
    split; [subst minted; cbv beta; intros E; injection E as E; exact (Hdiff E)|].
    split; [reflexivity|].
    split; intros now Hnow; rewrite requireAuth_bearer; store_fields.
    + rewrite lookup_insert_ne by exact Hdiff. subst s1. store_fields.
      rewrite lookup_insert_eq. cbn [StoredToken.expiresAt].
      rewrite bool_decide_eq_false_2 by lia. reflexivity.
    + rewrite lookup_insert_eq. cbn [StoredToken.expiresAt].
      rewrite bool_decide_eq_false_2 by lia. reflexivity.
Qed.

End Refresh.

(** The values "uuid-0", "uuid-1", ... are all different. *)
Lemma Demo_uuid_unique (i j : nat) : Demo.uuid i = Demo.uuid j -> i = j.
Proof.
  unfold Demo.uuid. rewrite !append_cons. intros E.
  injection E as E. exact (pretty_nat_inj _ _ E).
Qed.

(** Two refreshes with the sample refresh token, the source being at its
    first and at its fourth value. *)
Lemma C4_refresh_mints_access_token_only_witness :
  let body := json_of_TokenBody Sample.refresh in
  let out := post_token (TokenEnv.mk 2000 "uuid-0" "uuid-1" 2001) (Some body) Sample.stores in
  let out2 := post_token (TokenEnv.mk 3000 "uuid-3" "uuid-4" 3001) (Some body) out.2 in
  (exists r, out.1 = Sends r /\ has_field "refresh_token" r = false)
  /\ accessTokens Sample.stores !! "uuid-0" = None
  /\ refreshTokens out2.2 = refreshTokens Sample.stores
  /\ requireAuth (bearer "uuid-0") 3001 out2.2 = Next
  /\ requireAuth (bearer "uuid-3") 3001 out2.2 = Next.
Proof.
  assert (Hdrawn : drawn_before Demo.uuid 0 Sample.stores).
  { intros k [x Hx]. cbn in Hx. rewrite lookup_empty in Hx. discriminate Hx. }
  destruct (C4_refresh_mints_access_token_only Demo.uuid Demo_uuid_unique
              (TokenEnv.mk 2000 "uuid-0" "uuid-1" 2001) (json_of_TokenBody Sample.refresh)
              Sample.stores 0 eq_refl eq_refl Hdrawn)
    as ((r & Hr & Hno & _) & _ & _ & _ & _ & H).
  destruct (H (conj eq_refl eq_refl)) as (_ & _ & H0).
  destruct (H0 Sample.refreshToken eq_refl eq_refl) as (_ & _ & Hnew & _ & _ & _ & _ & H2).
  destruct (H2 (TokenEnv.mk 3000 "uuid-3" "uuid-4" 3001) 3%nat (Nat.lt_0_succ 2) eq_refl)
    as (_ & _ & _ & Hrt & Ha & Hb).
  cbv zeta. split; [exists r; split; assumption|]. split; [exact Hnew|].
  split; [exact Hrt|]. split; [apply Ha; vm_compute; discriminate|].
  apply Hb; vm_compute; discriminate.
Defined.

(** The claim as it is written fails: a refresh_token request whose refresh
    token is not in the store, sent without client_id, is answered
    invalid_request, not invalid_grant; and one of a registered client with
    a wrong secret and the refresh token of another client is answered
    invalid_client. *)
Lemma C4_refresh_short_of_client_checks :
  let anonymous := Json.Obj [("grant_type", Json.Str "refresh_token");
                             ("refresh_token", Json.Str "no-such-token")] in
  refreshTokens Sample.stores !! "no-such-token" = None
  /\ post_token Sample.env (Some anonymous) Sample.stores
     = (Sends (error_json_desc 400 "invalid_request" "client_id required"), Sample.stores)
  /\ error_of (error_json_desc 400 "invalid_request" "client_id required")
     <> Some "invalid_grant"
  /\ Some (StoredToken.clientId Sample.refreshToken)
     <> TokenBody.client_id Sample.web_wrong_secret
  /\ post_token Sample.env (Some (json_of_TokenBody Sample.web_wrong_secret)) Sample.stores
     = (Sends (error_json 401 "invalid_client"), Sample.stores).
Proof.
  cbv zeta. split; [reflexivity|]. split; [reflexivity|]. split; [discriminate|].
  split; [discriminate|]. reflexivity.
Qed.

(** ** The callback *)

Lemma searchParams_get_set_eq (name value : string) (l : list (string * string)) :
  searchParams_get name (searchParams_set name value l) = Some value.
Proof.
  unfold searchParams_get. induction l as [|[k v] l IH]; cbn [searchParams_set].
  - cbn [List.find fst]. rewrite bool_decide_eq_true_2 by reflexivity. reflexivity.
  - destruct (decide (k = name)) as [->|Hk]; cbn [List.find fst].
    + rewrite bool_decide_eq_true_2 by reflexivity. reflexivity.
    + rewrite bool_decide_eq_false_2 by exact Hk. exact IH.
Qed.

Lemma searchParams_get_remove (n name : string) (l : list (string * string)) :
  n <> name ->
  searchParams_get n (filter (fun kv => kv.1 <> name) l) = searchParams_get n l.
Proof.
  intros Hn. unfold searchParams_get. induction l as [|[k v] l IH]; [reflexivity|].
  rewrite filter_cons. cbn [fst List.find].
  destruct (decide (k <> name)) as [Hk|Hk]; cbn [List.find fst].
  - destruct (bool_decide (k = n)); [reflexivity|exact IH].
  - assert (k = name) as -> by (destruct (decide (k = name)); [assumption|contradiction]).
    rewrite bool_decide_eq_false_2 by congruence. exact IH.
Qed.

Lemma searchParams_get_set_ne (n name value : string) (l : list (string * string)) :
  n <> name ->
  searchParams_get n (searchParams_set name value l) = searchParams_get n l.
Proof.
  intros Hn. induction l as [|[k v] l IH]; cbn [searchParams_set].
  - unfold searchParams_get. cbn [List.find fst].
    rewrite bool_decide_eq_false_2 by congruence. reflexivity.
  - destruct (decide (k = name)) as [->|Hk].
    + unfold searchParams_get at 1 2. cbn [List.find fst].
      rewrite !bool_decide_eq_false_2 by congruence.
      apply (searchParams_get_remove n name l Hn).
    + unfold searchParams_get in *. cbn [List.find fst].
      destruct (bool_decide (k = n)); [reflexivity|exact IH].
Qed.

Section CallbackProperties.

Variable URL_parse : string -> option URL.

Lemma callback_resume_denied (ALLOWED_EMAILS : option string) (email ourCode : string)
    (now : Z) (pending : PendingAuth.t) (s : Stores) :
  rejected_by_allowlist ALLOWED_EMAILS email = true ->
  callback_resume URL_parse ALLOWED_EMAILS (Resolved email) ourCode now pending s
  = (mkResponse 403 (Text "Access denied"), s).
Proof. intros H. unfold callback_resume. rewrite H. reflexivity. Qed.

Lemma callback_resume_accepted (ALLOWED_EMAILS : option string) (email ourCode : string)
    (now : Z) (pending : PendingAuth.t) (s : Stores) :
  rejected_by_allowlist ALLOWED_EMAILS email = false ->
  let out := callback_resume URL_parse ALLOWED_EMAILS (Resolved email) ourCode now pending s in
  out.2 = with_authCodes (<[ourCode := minted ourCode email now pending]> (authCodes s)) s
  /\ status out.1 <> 403
  /\ (forall url, URL_parse (PendingAuth.redirectUri pending) = Some url ->
      exists target, out.1 = mkResponse 302 (Redirect target)
                     /\ searchParams_get "code" (searchParams target) = Some ourCode
                     /\ href_base target = href_base url).
Proof.
  intros H. cbv zeta. unfold callback_resume. rewrite H.
  destruct (URL_parse (PendingAuth.redirectUri pending)) as [u|].
  - cbn [fst snd]. split; [reflexivity|]. split; [discriminate|].
    intros url [= <-]. eexists. split; [reflexivity|]. split; [|case_match; reflexivity].
    case_match; cbn [URL_set searchParams]; [apply searchParams_get_set_eq|].
    rewrite searchParams_get_set_ne by discriminate. apply searchParams_get_set_eq.
  - cbn [fst snd]. split; [reflexivity|]. split; [discriminate|]. discriminate.
Qed.

(** C5: when ALLOWED_EMAILS is set and the email that Google resolved is
    not one of its comma-separated, trimmed entries, the callback answers
    403 "Access denied" and leaves the code store (and every other store)
    as it found it; when ALLOWED_EMAILS is not set, every resolved email is
    accepted and the callback stores an AuthCode for it. *)
Theorem C5_allowlist (ALLOWED_EMAILS : option string) (email ourCode : string)
    (now : Z) (pending : PendingAuth.t) (s : Stores) :
  let resumed :=
    callback_resume URL_parse ALLOWED_EMAILS (Resolved email) ourCode now pending s in
  (forall v, ALLOWED_EMAILS = Some v ->
     email ∉ map JS.trim (JS.split_on "," v) ->
     resumed = (mkResponse 403 (Text "Access denied"), s)
     /\ forall q s0,
          callback_begin q s0 = (inr pending, s) ->
          callback URL_parse ALLOWED_EMAILS (Resolved email) ourCode now q s0
          = (mkResponse 403 (Text "Access denied"), s)
          /\ authCodes s = authCodes s0)
  /\ (ALLOWED_EMAILS = None ->
      resumed.2 = with_authCodes (<[ourCode := minted ourCode email now pending]> (authCodes s)) s
      /\ authCodes resumed.2 !! ourCode = Some (minted ourCode email now pending)
      /\ AuthCode.googleEmail (minted ourCode email now pending) = email
      /\ status resumed.1 <> 403).
Proof.
  cbv zeta. split.
  - intros v -> Hnot.
    assert (Hrej : rejected_by_allowlist (Some v) email = true).
    { unfold rejected_by_allowlist, allowedEmails. cbn [fmap option_fmap option_map].
      rewrite bool_decide_eq_false_2 by exact Hnot. reflexivity. }
    split; [apply callback_resume_denied, Hrej|].
    intros q s0 Hbegin. unfold callback. rewrite Hbegin.
    split; [apply callback_resume_denied, Hrej|].
    unfold callback_begin in Hbegin. repeat case_match; try discriminate.
    injection Hbegin as _ <-. reflexivity.
  - intros ->.
    destruct (callback_resume_accepted None email ourCode now pending s eq_refl)
      as (Hs & Hst & _).
    split; [exact Hs|]. split; [|split; [reflexivity|exact Hst]].
    rewrite Hs. store_fields. apply lookup_insert_eq.
Qed.

(** C10: a callback with a non-empty error parameter is answered 400
    before the pending authorization is looked up: the stores are left as
    they were, so the PendingAuth under the given state is still there, the
    cleanup keeps it as long as it is at most ten minutes old, and a later
    callback with the same state and no error finds it, consumes it and,
    the email being accepted and the redirect URI parsing, mints a code and
    redirects. *)
Theorem C10_callback_error_keeps_pending (q : CallbackQuery.t) (s : Stores) (e : string) :
  CallbackQuery.error q = Some e -> e <> "" ->
  callback_begin q s = (inl (mkResponse 400 (Text ("OAuth error: " +:+ e))), s)
  /\ (forall ALLOWED_EMAILS exchanged ourCode now,
        callback URL_parse ALLOWED_EMAILS exchanged ourCode now q s
        = (mkResponse 400 (Text ("OAuth error: " +:+ e)), s))
  /\ forall st pending,
       CallbackQuery.state q = Some st ->
       pendingAuths s !! st = Some pending ->
       pendingAuths (callback_begin q s).2 !! st = Some pending
       /\ (forall now, now - PendingAuth.createdAt pending <= 10 * 60000 ->
           pendingAuths (sweep now (callback_begin q s).2) !! st = Some pending)
       /\ forall code' ALLOWED_EMAILS email ourCode now,
            let q' := CallbackQuery.mk code' (Some st) None in
            let out := callback URL_parse ALLOWED_EMAILS (Resolved email) ourCode now q'
                         (callback_begin q s).2 in
            callback_begin q' (callback_begin q s).2
            = (inr pending, with_pendingAuths (delete st (pendingAuths s)) s)
            /\ (rejected_by_allowlist ALLOWED_EMAILS email = false ->
                authCodes out.2 !! ourCode = Some (minted ourCode email now pending)
                /\ pendingAuths out.2 !! st = None
                /\ forall url, URL_parse (PendingAuth.redirectUri pending) = Some url ->
                     exists target, out.1 = mkResponse 302 (Redirect target)
                       /\ searchParams_get "code" (searchParams target) = Some ourCode).
Proof.
  intros He Hne.
  assert (Hbegin : callback_begin q s
                   = (inl (mkResponse 400 (Text ("OAuth error: " +:+ e))), s)).
  { unfold callback_begin. rewrite He.
    assert (JS.falsy (Some e) = false) as -> by (apply falsy_false; eauto).
    reflexivity. }
  split; [exact Hbegin|]. split.
  { intros. unfold callback. rewrite Hbegin. reflexivity. }
  intros st pending Hst Hp. rewrite Hbegin. cbn [snd].
  split; [exact Hp|]. split.
  { intros now Hage. unfold sweep. store_fields.
    apply map_lookup_filter_Some. split; [exact Hp|]. cbn [snd]. lia. }
  intros code' ALLOWED_EMAILS email ourCode now. cbv zeta.
  assert (Hbegin' : callback_begin (CallbackQuery.mk code' (Some st) None) s
                    = (inr pending, with_pendingAuths (delete st (pendingAuths s)) s)).
  { unfold callback_begin. cbn [CallbackQuery.error CallbackQuery.state JS.falsy negb Map_get].
    rewrite Hp. reflexivity. }
  split; [exact Hbegin'|]. intros Hacc. unfold callback. rewrite Hbegin'.
  destruct (callback_resume_accepted ALLOWED_EMAILS email ourCode now pending
              (with_pendingAuths (delete st (pendingAuths s)) s) Hacc) as (Hs & _ & Hurl).
  rewrite Hs. store_fields.
  split; [apply lookup_insert_eq|]. split; [apply lookup_delete_eq|].
  intros url Hu. destruct (Hurl url Hu) as (target & Ht & Hc & _). eauto.
Qed.

End CallbackProperties.

(** The allowlist "a@x.com" and the identity "b@x.com". *)
Example allowlist_denies_b :
  callback Sample.URL_parse (Some "a@x.com") (Resolved "b@x.com") "code-2" 5000
    (CallbackQuery.mk (Some "google-code") (Some "g-state") None) Sample.stores
  = (mkResponse 403 (Text "Access denied"),
     with_pendingAuths ∅ Sample.stores).
Proof. vm_compute. reflexivity. Qed.

(** A denied callback and, on the same state, an error callback followed by
    a good one. *)
Lemma C10_callback_error_keeps_pending_witness :
  let q := CallbackQuery.mk None (Some "g-state") (Some "access_denied") in
  let q' := CallbackQuery.mk (Some "google-code") (Some "g-state") None in
  callback_begin q Sample.stores
  = (inl (mkResponse 400 (Text "OAuth error: access_denied")), Sample.stores)
  /\ pendingAuths (callback_begin q Sample.stores).2 !! "g-state" = Some Sample.pending
  /\ authCodes (callback Sample.URL_parse None (Resolved "a@x.com") "code-2" 5000 q'
                  (callback_begin q Sample.stores).2).2 !! "code-2"
     = Some (minted "code-2" "a@x.com" 5000 Sample.pending).
Proof.
  assert (Hne : "access_denied" <> "") by discriminate.
  destruct (C10_callback_error_keeps_pending Sample.URL_parse
              (CallbackQuery.mk None (Some "g-state") (Some "access_denied"))
              Sample.stores "access_denied" eq_refl Hne) as (H1 & _ & H2).
  destruct (H2 "g-state" Sample.pending eq_refl eq_refl) as (H3 & _ & H4).
  destruct (H4 (Some "google-code") None "a@x.com" "code-2" 5000) as (_ & H5).
  destruct (H5 eq_refl) as (H6 & _).
  cbv zeta. split; [exact H1|]. split; [exact H3|exact H6].
Defined.

(** ** The definitions at work *)

Example sha256_empty : sha256 "" = "47DEQpj8HBSa-_TImW-5JCeuQeRkm5NMpJWZG3hSuFU".
Proof. vm_compute. reflexivity. Qed.

Example sha256_abc : sha256 "abc" = "ungWv48Bz-pBQUDeXa4iI7ADYaOWF3qctBD_YfIAFa0".
Proof. vm_compute. reflexivity. Qed.

Example sha256_rfc7636 : sha256 Sample.verifier = Sample.challenge.
Proof. vm_compute. reflexivity. Qed.

(** 56 bytes: the padding spills into a second block. *)
Example sha256_two_blocks :
  sha256 "aaaaaaaaaaaaaaaaaaaaaaaaaaaaaaaaaaaaaaaaaaaaaaaaaaaaaaaa"
  = "s1Q5pKxvCUi21vnjxq8PX1kM4g8b3nCQ73lwaG7Gc4o".
Proof. vm_compute. reflexivity. Qed.

Example allowedEmails_of_env :
  allowedEmails (Some "a@x.com, b@x.com ,") = Some ["a@x.com"; "b@x.com"; ""]
  /\ allowedEmails (Some "") = Some [""]
  /\ allowedEmails None = None.
Proof. vm_compute. repeat split; reflexivity. Qed.

(** A wrong secret for the registered sample client is refused before the
    refresh token is looked at; the unregistered client is served. *)
Example registered_client_wrong_secret :
  token Sample.env Sample.web_wrong_secret Sample.stores
  = (error_json 401 "invalid_client", Sample.stores)
  /\ status (token Sample.env Sample.refresh Sample.stores).1 = 200.
Proof. vm_compute. split; reflexivity. Qed.

(** The whole flow from empty stores: authorize, callback, token, and a
    request to /mcp with the access token. *)
Example end_to_end :
  let (r1, s1) := authorize Sample.config "g-state" 1000 Sample.query Sample.empty in
  let (r2, s2) :=
    callback Sample.URL_parse (Some "a@x.com") (Resolved "a@x.com") "code-1" 1000
      (CallbackQuery.mk (Some "google-code") (Some "g-state") None) s1 in
  let (r3, s3) := token Sample.env Sample.redeem s2 in
  r1 = mkResponse 302 (Redirect (googleAuthUrl Sample.config "g-state"))
  /\ r2 = mkResponse 302
            (Redirect (mkURL "https://client.example/cb"
                         [("code", "code-1"); ("state", "xyz")]))
  /\ r3 = mkResponse 200
            (Json [("access_token", JString "access-1"); ("token_type", JString "Bearer");
                   ("expires_in", JNumber 3600); ("refresh_token", JString "refresh-2")])
  /\ authCodes s3 = ∅ /\ pendingAuths s3 = ∅
  /\ requireAuth (bearer "access-1") 5000 s3 = Next
  /\ requireAuth (bearer "access-0") 5000 s3 = Respond unauthorized
  /\ requireAuth (Some "Basic access-1") 5000 s3 = Respond unauthorized.
Proof. vm_compute. repeat split; reflexivity. Qed.

(** Each way /oauth/authorize refuses a request, in order of the tests. *)
Example authorize_refusals :
  let q rt cid ruri cc ccm := AuthorizeQuery.mk rt cid ruri cc ccm None in
  let run q := authorize Sample.config "g-2" 5000 q Sample.stores in
  run (q (Some "token") (Some "desktop") (Some "https://client.example/cb")
         (Some Sample.challenge) (Some "S256"))
  = (error_json 400 "unsupported_response_type", Sample.stores)
  /\ run (q (Some "code") None (Some "https://client.example/cb")
            (Some Sample.challenge) (Some "S256"))
     = (error_json_desc 400 "invalid_request" "client_id and redirect_uri required",
        Sample.stores)
  /\ run (q (Some "code") (Some "desktop") (Some "https://client.example/cb")
            None (Some "S256"))
     = (error_json_desc 400 "invalid_request" "PKCE with S256 required", Sample.stores)
  /\ run (q (Some "code") (Some "desktop") (Some "https://client.example/cb")
            (Some Sample.challenge) (Some "plain"))
     = (error_json_desc 400 "invalid_request" "PKCE with S256 required", Sample.stores).
Proof. vm_compute. repeat split; reflexivity. Qed.

(** The four ways the bearer check refuses, on a store with one token that
    expires at 3602001. *)
Example requireAuth_refusals :
  let s := (token Sample.env Sample.redeem Sample.stores).2 in
  requireAuth None 5000 s = Respond unauthorized
  /\ requireAuth (Some "bearer access-1") 5000 s = Respond unauthorized
  /\ requireAuth (bearer "access-9") 5000 s = Respond unauthorized
  /\ requireAuth (bearer "access-1") 3602002 s = Respond unauthorized
  /\ requireAuth (bearer "access-1") 3602001 s = Next.
Proof. vm_compute. repeat split; reflexivity. Qed.

(** With no allowlist the identity "b@x.com" gets its code. *)
Example open_mode_accepts_b :
  authCodes
    (callback Sample.URL_parse None (Resolved "b@x.com") "code-2" 5000
       (CallbackQuery.mk (Some "google-code") (Some "g-state") None) Sample.stores).2
  !! "code-2"
  = Some (minted "code-2" "b@x.com" 5000 Sample.pending).
Proof. vm_compute. reflexivity. Qed.

(** The cleanup at 601001 removes the sample pending authorization, created
    at 1000, and the cleanup at 601000 keeps it. *)
Example sweep_pending :
  pendingAuths (sweep 601001 Sample.stores) !! "g-state" = None
  /\ pendingAuths (sweep 601000 Sample.stores) !! "g-state" = Some Sample.pending.
Proof. vm_compute. split; reflexivity. Qed.

(** * Further properties of the router *)

(** ** Registration *)



(** Past the client checks the answer is neither of the two errors of
    those checks. *)
Lemma token_past_client_checks (env : TokenEnv.t) (b : TokenBody.t) (s : Stores) :
  passes_client_checks b s ->
  error_of (token env b s).1 <> Some "invalid_client"
  /\ error_of (token env b s).1 <> Some "invalid_request".
Proof.
  destruct b as [gt code ruri cid csec cv rt]. unfold passes_client_checks. body_fields.
  intros [Hf Hm]. unfold token. rewrite Hf, Hm.
  split; repeat case_match; intros E; vm_compute in E; discriminate.
Qed.

(** X2: the secret that /oauth/register hands out is the one the token
    endpoint then asks of that client: after a registration under a
    non-empty id, a token request of that client with any other secret, or
    none, is answered 401 invalid_client with the stores unchanged, and one
    with the secret gets past the client checks. *)
Theorem X2_registered_secret_enforced (clientId clientSecret : string)
    (body : RegisterBody.t) (s : Stores) (env : TokenEnv.t) (b : TokenBody.t) :
  clientId <> "" ->
  uris_refused (RegisterBody.redirect_uris body) = false ->
  let s' := (register clientId clientSecret body s).2 in
  (forall x, x <> Some clientSecret ->
     token env (as_client clientId x b) s' = (error_json 401 "invalid_client", s'))
  /\ passes_client_checks (as_client clientId (Some clientSecret) b) s'
  /\ error_of (token env (as_client clientId (Some clientSecret) b) s').1
     <> Some "invalid_client".
Proof.
  intros Hid Huris s'.
  assert (Hc : exists uris name,
             clients s' !! clientId
             = Some (RegisteredClient.mk clientId clientSecret uris name)).
  { subst s'. unfold register. rewrite Huris. store_fields.
    eexists _, _. apply lookup_insert_eq. }
  destruct Hc as (uris & name & Hc). clearbody s'.
  assert (Hf : JS.falsy (Some clientId) = false) by (apply falsy_false; eauto).
  assert (Hpass : passes_client_checks (as_client clientId (Some clientSecret) b) s').
  { split; [exact Hf|]. unfold as_client, secret_mismatch. body_fields.
    cbn [Map_get]. rewrite Hc. apply strict_ne_false. reflexivity. }
  split; [|split; [exact Hpass|]].
  - intros x Hx. apply token_invalid_client; [exact Hf|].
    unfold as_client, secret_mismatch. body_fields. cbn [Map_get]. rewrite Hc.
    apply strict_ne_true. cbn [RegisteredClient.clientSecret]. congruence.
  - apply token_past_client_checks, Hpass.
Qed.

(** A registration in the sample stores, then a guess and the secret. *)
Lemma X2_registered_secret_enforced_witness :
  let s' := (register "app" "app-secret" Demo.body Sample.stores).2 in
  token Sample.env (as_client "app" (Some "guess") Sample.refresh) s'
  = (error_json 401 "invalid_client", s')
  /\ passes_client_checks (as_client "app" (Some "app-secret") Sample.refresh) s'.
Proof.
  assert (Hid : "app" <> "") by discriminate.
  destruct (X2_registered_secret_enforced "app" "app-secret" Demo.body Sample.stores
              Sample.env Sample.refresh Hid eq_refl) as (H1 & H2 & _).
  split; [apply H1; discriminate|exact H2].
Defined.

(** ** The authorization endpoint and the registry *)

Lemma authorize_accepts_iff (config : OAuthConfig.t) (googleState : string) (now : Z)
    (q : AuthorizeQuery.t) (s : Stores) :
  status (authorize config googleState now q s).1 = 302 <-> authorize_accepts q.
Proof.
  unfold authorize_accepts. split.
  - intros Hst.
    destruct (authorize_cases config googleState now q s)
      as [(cid & ruri & cc & Hrt & Hcid & ? & Hruri & ? & Hcc & ? & Hm & E)|(r & E & Hr)].
    + rewrite Hcid, Hruri, Hcc. repeat split; try assumption; apply falsy_false; eauto.
    + rewrite E in Hst. cbn [fst] in Hst. rewrite Hr in Hst. discriminate.
  - intros (Hrt & Hcid & Hruri & Hcc & Hm).
    destruct q as [rt cid ruri cc ccm st].
    cbn [AuthorizeQuery.response_type AuthorizeQuery.client_id AuthorizeQuery.redirect_uri
         AuthorizeQuery.code_challenge AuthorizeQuery.code_challenge_method] in *.
    subst rt ccm. unfold authorize. rewrite Hcid, Hruri, Hcc. reflexivity.
Qed.

(** X3: /oauth/authorize never reads the client registry, nor any other
    store: whether it redirects depends on the query alone, its answer is the
    same in all stores, and a client_id that is not registered, or a
    redirect_uri that is not among the registered URIs of its client, is
    accepted and recorded as sent. *)
Theorem X3_authorize_ignores_registry (config : OAuthConfig.t) (googleState : string)
    (now : Z) (q : AuthorizeQuery.t) (s : Stores) :
  (status (authorize config googleState now q s).1 = 302 <-> authorize_accepts q)
  /\ (forall s', (authorize config googleState now q s').1
                 = (authorize config googleState now q s).1)
  /\ (authorize_accepts q ->
      exists pending,
        pendingAuths (authorize config googleState now q s).2 !! googleState = Some pending
        /\ Some (PendingAuth.clientId pending) = AuthorizeQuery.client_id q
        /\ Some (PendingAuth.redirectUri pending) = AuthorizeQuery.redirect_uri q
        /\ PendingAuth.createdAt pending = now
        /\ clients (authorize config googleState now q s).2 = clients s).
Proof.
  split; [apply authorize_accepts_iff|]. split.
  - intros s'. destruct q as [rt cid ruri cc ccm st]. unfold authorize.
    repeat case_match; reflexivity.
  - intros Hacc. apply (authorize_accepts_iff config googleState now q s) in Hacc.
    destruct (authorize_cases config googleState now q s)
      as [(cid & ruri & cc & Hrt & Hcid & ? & Hruri & ? & Hcc & ? & Hm & E)|(r & E & Hr)].
    + rewrite E. store_fields. eexists. split; [apply lookup_insert_eq|].
      cbn [PendingAuth.clientId PendingAuth.redirectUri PendingAuth.createdAt].
      repeat split; congruence.
    + rewrite E in Hacc. cbn [fst] in Hacc. rewrite Hr in Hacc. discriminate.
Qed.

(** The registered sample client asks for a redirect URI that it did not
    register. *)
Example authorize_unregistered_uri :
  RegisteredClient.redirectUris Sample.registered = ["https://web.example/cb"]
  /\ status (authorize Sample.config "g-2" 5000 Demo.query_other_uri Sample.stores).1 = 302
  /\ PendingAuth.redirectUri
       <$> pendingAuths (authorize Sample.config "g-2" 5000 Demo.query_other_uri
                           Sample.stores).2 !! "g-2"
     = Some "https://elsewhere.example/cb".
Proof. vm_compute. repeat split; reflexivity. Qed.

(** ** More on the callback *)

Section CallbackMore.

Variable URL_parse : string -> option URL.

(** The second step changes nothing but the code store, and there only the
    entry of [ourCode]. *)
Lemma callback_resume_frame (ALLOWED_EMAILS : option string) (exchanged : Exchange)
    (ourCode : string) (now : Z) (pending : PendingAuth.t) (s : Stores) :
  let out := callback_resume URL_parse ALLOWED_EMAILS exchanged ourCode now pending s in
  clients out.2 = clients s /\ pendingAuths out.2 = pendingAuths s
  /\ accessTokens out.2 = accessTokens s /\ refreshTokens out.2 = refreshTokens s
  /\ (forall k, k <> ourCode -> authCodes out.2 !! k = authCodes s !! k).
Proof.
  cbv zeta. unfold callback_resume. repeat case_match; store_fields; repeat split;
    try reflexivity; intros k Hk; apply lookup_insert_ne; congruence.
Qed.

(** X4: a pending authorization is consumed by the callback that finds it:
    the entry is deleted before Google is asked, nothing else changes, and
    whatever comes of the exchange (an exception, a denied email, a stored
    code) every later callback with the same state is answered 400. *)
Theorem X4_pending_single_use (q : CallbackQuery.t) (s s1 : Stores)
    (pending : PendingAuth.t) :
  callback_begin q s = (inr pending, s1) ->
  (exists st, CallbackQuery.state q = Some st
     /\ pendingAuths s !! st = Some pending
     /\ s1 = with_pendingAuths (delete st (pendingAuths s)) s)
  /\ forall ALLOWED_EMAILS exchanged ourCode now q2,
       CallbackQuery.state q2 = CallbackQuery.state q ->
       let s2 := (callback_resume URL_parse ALLOWED_EMAILS exchanged ourCode now
                    pending s1).2 in
       exists r, callback_begin q2 s2 = (inl r, s2) /\ status r = 400.
Proof.
  intros Hbegin. unfold callback_begin in Hbegin.
  destruct (negb (JS.falsy (CallbackQuery.error q))); [discriminate|].
  destruct (CallbackQuery.state q) as [st|] eqn:Hst; [|discriminate].
  cbn [Map_get str default] in Hbegin.
  destruct (pendingAuths s !! st) as [p|] eqn:Hp; [|discriminate].
  injection Hbegin as -> <-.
  split; [exists st; repeat split; assumption || reflexivity|].
  intros ALLOWED_EMAILS exchanged ourCode now q2 Hq2 s2.
  assert (Hgone : pendingAuths s2 !! st = None).
  { subst s2.
    destruct (callback_resume_frame ALLOWED_EMAILS exchanged ourCode now pending
                (with_pendingAuths (delete st (pendingAuths s)) s)) as (_ & -> & _).
    store_fields. apply lookup_delete_eq. }
  clearbody s2. unfold callback_begin. rewrite Hq2. cbn [Map_get]. rewrite Hgone.
  destruct (negb (JS.falsy (CallbackQuery.error q2))); eexists; split; reflexivity.
Qed.

(** X5: the callback answers 500 in two cases.  When the exchange with
    Google throws, nothing is stored.  When the email is accepted and the
    stored redirect URI is not a URL, the code has already been stored: the
    browser gets the 500 and the code stays in the store. *)
Theorem X5_callback_500 (ALLOWED_EMAILS : option string) (exchanged : Exchange)
    (ourCode : string) (now : Z) (pending : PendingAuth.t) (s : Stores) :
  let out := callback_resume URL_parse ALLOWED_EMAILS exchanged ourCode now pending s in
  (status out.1 = 500 <->
   exchanged = Threw
   \/ exists email, exchanged = Resolved email
        /\ rejected_by_allowlist ALLOWED_EMAILS email = false
        /\ URL_parse (PendingAuth.redirectUri pending) = None)
  /\ (exchanged = Threw -> out = (mkResponse 500 (Text "Authentication failed"), s))
  /\ (forall email, exchanged = Resolved email ->
      rejected_by_allowlist ALLOWED_EMAILS email = false ->
      URL_parse (PendingAuth.redirectUri pending) = None ->
      out.1 = mkResponse 500 (Text "Authentication failed")
      /\ authCodes out.2 !! ourCode = Some (minted ourCode email now pending)).
Proof.
  cbv zeta. unfold callback_resume. split; [|split].
  - destruct exchanged as [email|]; [|split; auto].
    destruct (rejected_by_allowlist ALLOWED_EMAILS email) eqn:Hrej.
    + split; [discriminate|]. intros [|(e & [= <-] & ? & _)]; congruence.
    + destruct (URL_parse (PendingAuth.redirectUri pending)) eqn:Hu.
      * split; [discriminate|]. intros [|(e & _ & _ & ?)]; congruence.
      * split; [|reflexivity]. intros _. right. eauto.
  - intros ->. reflexivity.
  - intros email -> -> ->. store_fields. split; [reflexivity|apply lookup_insert_eq].
Qed.

(** X6: the redirect back to the client goes to the stored redirect URI
    with the query parameter code set to the new code, replacing any code
    parameter the URI had; state is set to the caller's state when that is
    not empty and is otherwise left as the URI had it; every other
    parameter of the URI is kept. *)
Theorem X6_callback_redirect (ALLOWED_EMAILS : option string) (email ourCode : string)
    (now : Z) (pending : PendingAuth.t) (s : Stores) (url : URL) :
  rejected_by_allowlist ALLOWED_EMAILS email = false ->
  URL_parse (PendingAuth.redirectUri pending) = Some url ->
  exists target,
    (callback_resume URL_parse ALLOWED_EMAILS (Resolved email) ourCode now pending s).1
    = mkResponse 302 (Redirect target)
    /\ href_base target = href_base url
    /\ searchParams_get "code" (searchParams target) = Some ourCode
    /\ searchParams_get "state" (searchParams target)
       = (if decide (PendingAuth.clientState pending = "")
          then searchParams_get "state" (searchParams url)
          else Some (PendingAuth.clientState pending))
    /\ forall n, n <> "code" -> n <> "state" ->
         searchParams_get n (searchParams target) = searchParams_get n (searchParams url).
Proof.
  intros Hacc Hurl. unfold callback_resume. rewrite Hacc, Hurl.
  unfold JS.falsy. destruct (decide (PendingAuth.clientState pending = "")) as [He|He].
  - eexists. split; [reflexivity|]. cbn [URL_set searchParams href_base].
    split; [reflexivity|]. split; [apply searchParams_get_set_eq|].
    split; [apply searchParams_get_set_ne; discriminate|].
    intros n Hn _. apply searchParams_get_set_ne. exact Hn.
  - eexists. split; [reflexivity|]. cbn [URL_set searchParams href_base].
    split; [reflexivity|].
    split; [rewrite searchParams_get_set_ne by discriminate;
            apply searchParams_get_set_eq|].
    split; [apply searchParams_get_set_eq|].
    intros n Hn Hn'. rewrite !searchParams_get_set_ne by assumption. reflexivity.
Qed.

End CallbackMore.

(** The sample pending authorization consumed by a callback that Google
    fails, then presented again. *)
Lemma X4_pending_single_use_witness :
  let s1 := with_pendingAuths ∅ Sample.stores in
  let s2 := (callback_resume Demo.URL_parse None Threw "code-2" 5000 Sample.pending s1).2 in
  callback_begin Demo.callback_query Sample.stores = (inr Sample.pending, s1)
  /\ exists r, callback_begin Demo.callback_query s2 = (inl r, s2) /\ status r = 400.
Proof.
  assert (Hb : callback_begin Demo.callback_query Sample.stores
               = (inr Sample.pending, with_pendingAuths ∅ Sample.stores))
    by (vm_compute; reflexivity).
  split; [exact Hb|].
  exact (proj2 (X4_pending_single_use Demo.URL_parse Demo.callback_query Sample.stores
                  _ Sample.pending Hb) None Threw "code-2" 5000 Demo.callback_query eq_refl).
Defined.

(** A redirect URI that has a query with a code and a state of its own. *)
Lemma X6_callback_redirect_witness :
  let pending := PendingAuth.mk "desktop" "https://client.example/cb?code=old&tab=1&state=s0"
                   Sample.challenge "S256" "" 1000 in
  Demo.URL_parse (PendingAuth.redirectUri pending)
  = Some (mkURL "https://client.example/cb" [("code", "old"); ("tab", "1"); ("state", "s0")])
  /\ (callback_resume Demo.URL_parse None (Resolved "a@x.com") "code-2" 5000 pending
        Sample.stores).1
     = mkResponse 302
         (Redirect (mkURL "https://client.example/cb"
                      [("code", "code-2"); ("tab", "1"); ("state", "s0")])).
Proof.
  cbv zeta.
  assert (Hu : Demo.URL_parse "https://client.example/cb?code=old&tab=1&state=s0"
               = Some (mkURL "https://client.example/cb"
                         [("code", "old"); ("tab", "1"); ("state", "s0")]))
    by (vm_compute; reflexivity).
  split; [exact Hu|].
  destruct (X6_callback_redirect Demo.URL_parse None "a@x.com" "code-2" 5000
              (PendingAuth.mk "desktop" "https://client.example/cb?code=old&tab=1&state=s0"
                 Sample.challenge "S256" "" 1000)
              Sample.stores _ eq_refl Hu) as (target & Ht & _).
  vm_compute. reflexivity.
Defined.

(** ** The shape of a PKCE hash *)

Lemma round_length (v : list Z) (kw : Z * Z) :
  length v = 8%nat -> length (SHA256.round v kw) = 8%nat.
Proof.
  intros H. do 9 (destruct v as [|? v]; try discriminate H). reflexivity.
Qed.

Lemma rounds_length (kws : list (Z * Z)) (v : list Z) :
  length v = 8%nat -> length (fold_left SHA256.round kws v) = 8%nat.
Proof.
  revert v. induction kws as [|kw kws IH]; intros v H; [exact H|].
  apply IH, round_length, H.
Qed.

Lemma compress_length (H : list Z) (block : list Z) :
  length H = 8%nat -> length (SHA256.compress H block) = 8%nat.
Proof.
  intros HH. unfold SHA256.compress. rewrite length_zip_with, rounds_length by exact HH.
  rewrite HH. reflexivity.
Qed.

Lemma compress_all_length (bl : list (list Z)) (H : list Z) :
  length H = 8%nat -> length (fold_left SHA256.compress bl H) = 8%nat.
Proof.
  revert H. induction bl as [|b bl IH]; intros H HH; [exact HH|].
  apply IH, compress_length, HH.
Qed.

Lemma be_bytes4 (ws : list Z) :
  length (flat_map (SHA256.be_bytes 4) ws) = (4 * length ws)%nat
  /\ Forall (fun b => 0 <= b < 256) (flat_map (SHA256.be_bytes 4) ws).
Proof.
  induction ws as [|w ws [IHl IHb]]; [split; [reflexivity|constructor]|].
  cbn [flat_map]. split.
  - rewrite length_app, IHl. cbn [length]. unfold SHA256.be_bytes.
    rewrite length_map, length_rev, length_seq. lia.
  - apply Forall_app. split; [|exact IHb].
    unfold SHA256.be_bytes. apply Forall_forall. intros b Hb.
    apply list_elem_of_In, in_map_iff in Hb as (i & <- & _).
    apply Z.mod_pos_bound. lia.
Qed.

(** The digest is thirty-two bytes. *)
Lemma digest_bytes (msg : list Z) :
  length (SHA256.digest msg) = 32%nat
  /\ Forall (fun b => 0 <= b < 256) (SHA256.digest msg).
Proof.
  unfold SHA256.digest. cbv zeta.
  destruct (be_bytes4 (fold_left SHA256.compress
              (SHA256.blocks (length (SHA256.words (SHA256.pad msg)))
                 (SHA256.words (SHA256.pad msg))) SHA256.H0)) as [Hl Hb].
  split; [|exact Hb]. rewrite Hl, compress_all_length; reflexivity.
Qed.

Lemma sextet_char (i : Z) : 0 <= i < 64 -> base64url_char (SHA256.sextet i).
Proof.
  intros Hi.
  assert (Hall : Forall (fun n => base64url_char (SHA256.sextet (Z.of_nat n))) (seq 0 64)).
  { unfold base64url_char. apply (bool_decide_unpack _). vm_compute. exact I. }
  rewrite Forall_forall in Hall. rewrite <- (Z2Nat.id i) by lia.
  apply Hall, list_elem_of_In, in_seq. lia.
Qed.

(** The pieces of a byte that go into sextets. *)
Lemma byte_parts (a : Z) :
  0 <= a < 256 ->
  0 <= Z.shiftr a 2 < 64 /\ 0 <= Z.land a 63 < 64
  /\ 0 <= Z.shiftl (Z.land a 15) 2 < 64 /\ 0 <= Z.shiftl (Z.land a 3) 4 < 64
  /\ 0 <= Z.land a 3 < 4 /\ 0 <= Z.shiftr a 4 < 16
  /\ 0 <= Z.land a 15 < 16 /\ 0 <= Z.shiftr a 6 < 4.
Proof.
  intros Ha.
  assert (Hall : Forall (fun m =>
            0 <= Z.shiftr (Z.of_nat m) 2 < 64 /\ 0 <= Z.land (Z.of_nat m) 63 < 64
            /\ 0 <= Z.shiftl (Z.land (Z.of_nat m) 15) 2 < 64
            /\ 0 <= Z.shiftl (Z.land (Z.of_nat m) 3) 4 < 64
            /\ 0 <= Z.land (Z.of_nat m) 3 < 4 /\ 0 <= Z.shiftr (Z.of_nat m) 4 < 16
            /\ 0 <= Z.land (Z.of_nat m) 15 < 16 /\ 0 <= Z.shiftr (Z.of_nat m) 6 < 4)
          (seq 0 256)).
  { apply (bool_decide_unpack _). vm_compute. exact I. }
  rewrite Forall_forall in Hall. specialize (Hall (Z.to_nat a)).
  rewrite Z2Nat.id in Hall by lia. apply Hall, list_elem_of_In, in_seq. lia.
Qed.

(** Two pieces joined by [Z.lor]. *)
Lemma join_parts (x y : Z) :
  0 <= x < 16 -> 0 <= y < 16 ->
  (x < 4 -> 0 <= Z.lor (Z.shiftl x 4) y < 64)
  /\ (y < 4 -> 0 <= Z.lor (Z.shiftl x 2) y < 64).
Proof.
  intros Hx Hy.
  assert (Hall : Forall (fun m => Forall (fun n =>
            (Z.of_nat m < 4 -> 0 <= Z.lor (Z.shiftl (Z.of_nat m) 4) (Z.of_nat n) < 64)
            /\ (Z.of_nat n < 4 -> 0 <= Z.lor (Z.shiftl (Z.of_nat m) 2) (Z.of_nat n) < 64))
          (seq 0 16)) (seq 0 16)).
  { apply (bool_decide_unpack _). vm_compute. exact I. }
  rewrite Forall_forall in Hall.
  specialize (Hall (Z.to_nat x)). rewrite Forall_forall in Hall.
  specialize (fun H => Hall H (Z.to_nat y)).
  rewrite !Z2Nat.id in Hall by lia.
  apply Hall; apply list_elem_of_In, in_seq; lia.
Qed.

Lemma sextet_bounds (a b : Z) :
  0 <= a < 256 -> 0 <= b < 256 ->
  0 <= Z.shiftr a 2 < 64
  /\ 0 <= Z.lor (Z.shiftl (Z.land a 3) 4) (Z.shiftr b 4) < 64
  /\ 0 <= Z.lor (Z.shiftl (Z.land a 15) 2) (Z.shiftr b 6) < 64
  /\ 0 <= Z.land a 63 < 64
  /\ 0 <= Z.shiftl (Z.land a 15) 2 < 64
  /\ 0 <= Z.shiftl (Z.land a 3) 4 < 64.
Proof.
  intros Ha Hb.
  destruct (byte_parts a Ha) as (? & ? & ? & ? & Ha3 & _ & Ha15 & _).
  destruct (byte_parts b Hb) as (_ & _ & _ & _ & _ & Hb4 & _ & Hb6).
  repeat split; try lia.
  - apply (join_parts (Z.land a 3) (Z.shiftr b 4)); lia.
  - apply (join_parts (Z.land a 3) (Z.shiftr b 4)); lia.
  - apply (join_parts (Z.land a 15) (Z.shiftr b 6)); lia.
  - apply (join_parts (Z.land a 15) (Z.shiftr b 6)); lia.
Qed.

Ltac sextets :=
  repeat (apply Forall_cons; split; [apply sextet_char; assumption|]);
  try (apply Forall_nil; exact I).

(** Bytes to characters: four for every three, no padding, all of them in
    the base64url alphabet. *)
Lemma base64url_shape (bs : list Z) :
  let P l := Forall (fun b => 0 <= b < 256) l ->
             length (SHA256.base64url l) = ((4 * length l + 2) / 3)%nat
             /\ Forall base64url_char (SHA256.base64url l) in
  P bs /\ (forall a, P (a :: bs)) /\ (forall a b, P (a :: b :: bs)).
Proof.
  cbv zeta. induction bs as [|c bs (IH0 & IH1 & IH2)].
  - split; [intros _; split; [reflexivity|constructor]|]. split.
    + intros a Ha. apply Forall_cons in Ha as [Ha _].
      destruct (sextet_bounds a a Ha Ha) as (? & _ & _ & _ & _ & ?).
      split; [reflexivity|]. cbn [SHA256.base64url].
      sextets.
    + intros a b Hab. apply Forall_cons in Hab as [Ha Hb].
      apply Forall_cons in Hb as [Hb _].
      destruct (sextet_bounds a b Ha Hb) as (? & ? & _).
      destruct (sextet_bounds b b Hb Hb) as (_ & _ & _ & _ & ? & _).
      split; [reflexivity|]. cbn [SHA256.base64url].
      sextets.
  - split; [exact (IH1 c)|]. split; [intros a; exact (IH2 a c)|].
    intros a b Habc. apply Forall_cons in Habc as [Ha Hbc].
    apply Forall_cons in Hbc as [Hb Hc]. apply Forall_cons in Hc as [Hc Hbs].
    destruct (IH0 Hbs) as [Hlen Hchars].
    destruct (sextet_bounds a b Ha Hb) as (? & ? & _).
    destruct (sextet_bounds b c Hb Hc) as (_ & _ & ? & _).
    destruct (sextet_bounds c c Hc Hc) as (_ & _ & _ & ? & _).
    cbn [SHA256.base64url]. split.
    + rewrite length_app, Hlen. cbn [length].
      replace (4 * S (S (S (length bs))) + 2)%nat with (4 * length bs + 2 + 4 * 3)%nat by lia.
      rewrite Nat.div_add by discriminate. lia.
    + apply Forall_app. split; [|exact Hchars].
      sextets.
Qed.

Lemma length_string_of_list_ascii (l : list ascii) :
  String.length (string_of_list_ascii l) = length l.
Proof. induction l as [|c l IH]; [reflexivity|]. cbn. rewrite IH. reflexivity. Qed.

Lemma sha256_length (input : string) : String.length (sha256 input) = 43%nat.
Proof.
  unfold sha256. rewrite length_string_of_list_ascii.
  destruct (digest_bytes (SHA256.utf8 input)) as [Hl Hb].
  destruct (base64url_shape (SHA256.digest (SHA256.utf8 input))) as (H & _).
  destruct (H Hb) as [-> _]. rewrite Hl. reflexivity.
Qed.

Lemma sha256_nonempty (input : string) : sha256 input <> "".
Proof.
  intros E. pose proof (sha256_length input) as H. rewrite E in H. discriminate.
Qed.

(** X7: the hash that the PKCE test compares with the stored challenge is
    always forty-three characters of the base64url alphabet (letters,
    digits, '-' and '_'), without padding. *)
Theorem X7_pkce_hash_shape (input : string) :
  String.length (sha256 input) = 43%nat
  /\ Forall base64url_char (list_ascii_of_string (sha256 input)).
Proof.
  split; [apply sha256_length|].
  unfold sha256. rewrite list_ascii_of_string_of_list_ascii.
  destruct (digest_bytes (SHA256.utf8 input)) as [_ Hb].
  destruct (base64url_shape (SHA256.digest (SHA256.utf8 input))) as (H & _).
  apply H, Hb.
Qed.



(** ** From the authorization request to the tokens *)

Section Flow.

Variable URL_parse : string -> option URL.

(** X9: the three endpoints in sequence.  A client sends /oauth/authorize
    a non-empty client_id and redirect_uri and the challenge sha256(V) of a
    non-empty verifier V; Google calls back with the state the redirect
    carried and resolves an email that the allowlist accepts; the client
    then presents the code to /oauth/token with the same client_id and
    redirect_uri and with V, not later than five minutes after the callback
    and, if it is registered, with its secret.  The answer is 200 with the
    two tokens, both stored for that client and that email, the code and
    the pending authorization are gone, and the access token passes the
    bearer check.  Whether the redirect URI parses plays no part. *)
Theorem X9_authorize_callback_token (config : OAuthConfig.t) (googleState : string)
    (t0 : Z) (cid ruri V : string) (st : option string) (s : Stores)
    (ALLOWED_EMAILS : option string) (email ourCode : string) (t1 : Z)
    (gcode secret : option string) (env : TokenEnv.t) :
  cid <> "" -> ruri <> "" -> V <> "" ->
  rejected_by_allowlist ALLOWED_EMAILS email = false ->
  TokenEnv.now_at_check env <= t1 + 5 * 60000 ->
  secret_mismatch s (Some cid) secret = false ->
  let q := AuthorizeQuery.mk (Some "code") (Some cid) (Some ruri) (Some (sha256 V))
             (Some "S256") st in
  let s1 := (authorize config googleState t0 q s).2 in
  let s2 := (callback URL_parse ALLOWED_EMAILS (Resolved email) ourCode t1
               (CallbackQuery.mk gcode (Some googleState) None) s1).2 in
  let b := TokenBody.mk (Some "authorization_code") (Some ourCode) (Some ruri) (Some cid)
             secret (Some V) None in
  let out := token env b s2 in
  out.1 = mkResponse 200
            (Json [("access_token", JString (TokenEnv.accessToken env));
                   ("token_type", JString "Bearer");
                   ("expires_in", JNumber 3600);
                   ("refresh_token", JString (TokenEnv.refreshTok env))])
  /\ accessTokens out.2 !! TokenEnv.accessToken env
     = Some (StoredToken.mk cid email (TokenEnv.now_at_issue env + 3600 * 1000))
  /\ refreshTokens out.2 !! TokenEnv.refreshTok env = Some (StoredToken.mk cid email 0)
  /\ authCodes out.2 !! ourCode = None
  /\ pendingAuths out.2 !! googleState = None
  /\ requireAuth (bearer (TokenEnv.accessToken env)) (TokenEnv.now_at_issue env) out.2 = Next.
Proof.
  intros Hcid Hruri HV Hacc Htime Hsecret q s1 s2 b out.
  assert (Hfc : JS.falsy (Some cid) = false) by (apply falsy_false; eauto).
  assert (Hfr : JS.falsy (Some ruri) = false) by (apply falsy_false; eauto).
  assert (Hfv : JS.falsy (Some V) = false) by (apply falsy_false; eauto).
  assert (Hfh : JS.falsy (Some (sha256 V)) = false).
  { apply falsy_false. eexists. split; [reflexivity|apply sha256_nonempty]. }
  set (pending := PendingAuth.mk cid ruri (sha256 V) "S256" (JS.or_default st "") t0).
  assert (Hs1 : s1 = with_pendingAuths (<[googleState := pending]> (pendingAuths s)) s).
  { subst s1 q. unfold authorize. rewrite Hfc, Hfr, Hfh. reflexivity. }
  set (s1' := with_pendingAuths (delete googleState (pendingAuths s1)) s1).
  assert (Hs2 : s2 = with_authCodes
                       (<[ourCode := minted ourCode email t1 pending]> (authCodes s1')) s1').
  { subst s2. unfold callback, callback_begin.
    cbn [CallbackQuery.error CallbackQuery.state JS.falsy negb Map_get str default].
    assert (Hp : pendingAuths s1 !! googleState = Some pending).
    { rewrite Hs1. store_fields. apply lookup_insert_eq. }
    rewrite Hp.
    destruct (callback_resume_accepted URL_parse ALLOWED_EMAILS email ourCode t1 pending
                s1' Hacc) as (E & _). exact E. }
  assert (Hclients : clients s2 = clients s).
  { rewrite Hs2. subst s1'. rewrite Hs1. reflexivity. }
  assert (Hpass : passes_client_checks b s2).
  { split; [exact Hfc|]. unfold secret_mismatch in *. subst b. body_fields.
    rewrite Hclients. exact Hsecret. }
  assert (Hfound : Map_get (authCodes s2) (TokenBody.code b)
                   = Some (minted ourCode email t1 pending)).
  { rewrite Hs2. subst b. body_fields. store_fields. apply lookup_insert_eq. }
  pose proof (token_code_found env b s2 _ eq_refl Hpass Hfound) as Hout.
  cbv zeta in Hout. fold out in Hout.
  rewrite bool_decide_eq_false_2 in Hout
    by (unfold minted; cbn [AuthCode.expiresAt]; lia).
  subst b. body_fields. unfold minted in Hout.
  cbn [AuthCode.clientId AuthCode.redirectUri AuthCode.codeChallenge AuthCode.googleEmail
       PendingAuth.clientId PendingAuth.redirectUri PendingAuth.codeChallenge pending]
    in Hout.
  assert (E1 : JS.strict_ne cid (Some cid) = false) by (apply strict_ne_false; reflexivity).
  assert (E2 : JS.strict_ne ruri (Some ruri) = false) by (apply strict_ne_false; reflexivity).
  assert (E3 : JS.strict_ne (sha256 V) (Some (sha256 (str (Some V)))) = false)
    by (apply strict_ne_false; reflexivity).
  rewrite E1, E2, Hfv, E3 in Hout. cbn [orb] in Hout.
  clearbody out. subst out. store_fields. unfold expiresIn.
  change (str (Some cid)) with cid.
  split; [reflexivity|]. split; [apply lookup_insert_eq|].
  split; [apply lookup_insert_eq|]. split; [apply lookup_delete_eq|].
  split.
  - rewrite Hs2. subst s1'. store_fields. apply lookup_delete_eq.
  - rewrite requireAuth_bearer. store_fields. rewrite lookup_insert_eq.
    cbn [StoredToken.expiresAt]. rewrite bool_decide_eq_false_2 by lia. reflexivity.
Qed.

End Flow.

(** The flow of a public client whose redirect URI has no colon: the
    callback answers 500 and the code it stored is redeemed all the same. *)
Lemma X9_authorize_callback_token_witness :
  let q := AuthorizeQuery.mk (Some "code") (Some "desktop") (Some "not a url")
             (Some (sha256 Sample.verifier)) (Some "S256") None in
  let s1 := (authorize Sample.config "g-9" 1000 q Sample.empty).2 in
  let cb := callback Demo.URL_parse None (Resolved "a@x.com") "code-9" 1000
              (CallbackQuery.mk None (Some "g-9") None) s1 in
  let b := TokenBody.mk (Some "authorization_code") (Some "code-9") (Some "not a url")
             (Some "desktop") None (Some Sample.verifier) None in
  status cb.1 = 500
  /\ status (token Sample.env b cb.2).1 = 200
  /\ requireAuth (bearer "access-1") 2001 (token Sample.env b cb.2).2 = Next.
Proof.
  assert (H1 : "desktop" <> "") by discriminate.
  assert (H2 : "not a url" <> "") by discriminate.
  assert (H3 : Sample.verifier <> "") by discriminate.
  assert (H4 : TokenEnv.now_at_check Sample.env <= 1000 + 5 * 60000)
    by (vm_compute; discriminate).
  destruct (X9_authorize_callback_token Demo.URL_parse Sample.config "g-9" 1000
              "desktop" "not a url" Sample.verifier None Sample.empty None "a@x.com"
              "code-9" 1000 None None Sample.env H1 H2 H3 eq_refl H4 eq_refl)
    as (Hr & _ & _ & _ & _ & Hb).
  cbv zeta. split; [vm_compute; reflexivity|]. split; [rewrite Hr; reflexivity|exact Hb].
Defined.

(** ** What the token endpoint leaves alone *)


(** X11: the refresh token of a successful code redemption is stored for
    the redeeming client and the email of the code that was redeemed; a
    later refresh_token request of the same client with that token succeeds
    and its access token is stored for that same email, while the same
    request under another client id gets invalid_grant (when that id passes
    the client checks) and leaves the stores as they were. *)
Theorem X11_redeem_then_refresh (env env2 : TokenEnv.t) (b : TokenBody.t) (s : Stores) :
  TokenBody.grant_type b = Some "authorization_code" ->
  status (token env b s).1 = 200 ->
  let s' := (token env b s).2 in
  let refresh cid :=
    TokenBody.mk (Some "refresh_token") None None cid (TokenBody.client_secret b) None
      (Some (TokenEnv.refreshTok env)) in
  exists cid authCode,
    let email := AuthCode.googleEmail authCode in
    TokenBody.client_id b = Some cid
    /\ Map_get (authCodes s) (TokenBody.code b) = Some authCode
    /\ field "refresh_token" (token env b s).1 = Some (JString (TokenEnv.refreshTok env))
    /\ refreshTokens s' !! TokenEnv.refreshTok env = Some (StoredToken.mk cid email 0)
    /\ status (token env2 (refresh (Some cid)) s').1 = 200
    /\ accessTokens (token env2 (refresh (Some cid)) s').2 !! TokenEnv.accessToken env2
       = Some (StoredToken.mk cid email (TokenEnv.now_at_issue env2 + 3600 * 1000))
    /\ forall other,
         other <> Some cid -> passes_client_checks (refresh other) s' ->
         token env2 (refresh other) s'
         = (error_json_desc 400 "invalid_grant" "Invalid refresh token", s').
Proof.
  intros Hgt Hst s' refresh.
  destruct (JS.falsy (TokenBody.client_id b)) eqn:Hf.
  { rewrite token_no_client_id in Hst by exact Hf. discriminate. }
  destruct (secret_mismatch s (TokenBody.client_id b) (TokenBody.client_secret b)) eqn:Hm.
  { rewrite token_invalid_client in Hst by assumption. discriminate. }
  destruct (Map_get (authCodes s) (TokenBody.code b)) as [authCode|] eqn:Hfound.
  2:{ destruct (token_code_absent env b s Hgt Hfound) as (_ & Hne & _). contradiction. }
  pose proof (token_code_found env b s authCode Hgt (conj Hf Hm) Hfound) as Hout.
  cbv zeta in Hout. subst s'. rewrite Hout in Hst |- *. clear Hout.
  destruct (bool_decide _); [discriminate|].
  destruct (_ || _); [discriminate|]. destruct (_ || _); [discriminate|].
  apply falsy_false in Hf as (cid & Hcid & Hne). rewrite Hcid in *.
  change (str (Some cid)) with cid. store_fields.
  set (s' := with_refreshTokens _ _).
  assert (Hrt : refreshTokens s' !! TokenEnv.refreshTok env
                = Some (StoredToken.mk cid (AuthCode.googleEmail authCode) 0)).
  { subst s'. store_fields. apply lookup_insert_eq. }
  assert (Hpass : passes_client_checks (refresh (Some cid)) s').
  { split; [apply falsy_false; eauto|exact Hm]. }
  exists cid, authCode. cbv zeta.
  split; [reflexivity|]. split; [reflexivity|]. split; [reflexivity|]. split; [exact Hrt|].
  pose proof (token_refresh env2 (refresh (Some cid)) s' eq_refl Hpass) as Hr.
  subst refresh. body_fields. cbn [Map_get] in Hr. rewrite Hrt in Hr.
  cbn [StoredToken.clientId StoredToken.googleEmail] in Hr.
  assert (E : JS.strict_ne cid (Some cid) = false) by (apply strict_ne_false; reflexivity).
  rewrite E in Hr. rewrite Hr. store_fields. unfold expiresIn.
  split; [reflexivity|]. split; [apply lookup_insert_eq|].
  intros other Hother Hpass'.
  pose proof (token_refresh env2
                (TokenBody.mk (Some "refresh_token") None None other
                   (TokenBody.client_secret b) None (Some (TokenEnv.refreshTok env)))
                s' eq_refl Hpass') as Hr'.
  body_fields. cbn [Map_get] in Hr'. rewrite Hrt in Hr'.
  cbn [StoredToken.clientId] in Hr'.
  assert (E' : JS.strict_ne cid other = true) by (apply strict_ne_true; congruence).
  rewrite E' in Hr'. exact Hr'.
Qed.

(** The sample code redeemed, then its refresh token used by the same
    client and by the registered one. *)
Lemma X11_redeem_then_refresh_witness :
  let s' := (token Sample.env Sample.redeem Sample.stores).2 in
  status (token Sample.env Sample.redeem Sample.stores).1 = 200
  /\ status (token Sample.env'
               (TokenBody.mk (Some "refresh_token") None None (Some "desktop") None None
                  (Some "refresh-2")) s').1 = 200.
Proof.
  assert (Hst : status (token Sample.env Sample.redeem Sample.stores).1 = 200)
    by (vm_compute; reflexivity).
  destruct (X11_redeem_then_refresh Sample.env Sample.env' Sample.redeem Sample.stores
              eq_refl Hst) as (cid & authCode & Hcid & _ & _ & _ & H & _).
  injection Hcid as <-. split; [exact Hst|exact H].
Defined.

(** ** The periodic cleanup *)

Lemma sweep_pendingAuths (now : Z) (s : Stores) (k : string) (p : PendingAuth.t) :
  pendingAuths (sweep now s) !! k = Some p
  <-> pendingAuths s !! k = Some p /\ now - PendingAuth.createdAt p <= 10 * 60000.
Proof.
  unfold sweep. store_fields. rewrite map_lookup_filter_Some. cbn [snd].
  split; intros [? ?]; split; try assumption; lia.
Qed.

Lemma sweep_authCodes (now : Z) (s : Stores) (k : string) (c : AuthCode.t) :
  authCodes (sweep now s) !! k = Some c
  <-> authCodes s !! k = Some c /\ now <= AuthCode.expiresAt c.
Proof.
  unfold sweep. store_fields. rewrite map_lookup_filter_Some. cbn [snd].
  split; intros [? ?]; split; try assumption; lia.
Qed.

Lemma sweep_accessTokens (now : Z) (s : Stores) (k : string) (t : StoredToken.t) :
  accessTokens (sweep now s) !! k = Some t
  <-> accessTokens s !! k = Some t /\ now <= StoredToken.expiresAt t.
Proof.
  unfold sweep. store_fields. rewrite map_lookup_filter_Some. cbn [snd].
  split; intros [? ?]; split; try assumption; lia.
Qed.

Lemma stores_eq (s s' : Stores) :
  clients s = clients s' -> pendingAuths s = pendingAuths s' ->
  authCodes s = authCodes s' -> accessTokens s = accessTokens s' ->
  refreshTokens s = refreshTokens s' -> s = s'.
Proof. destruct s, s'. cbn. intros -> -> -> -> ->. reflexivity. Qed.

(** X12: the cleanup at time [now] keeps exactly the pending authorizations
    that are at most ten minutes old and the codes and access tokens whose
    expiry time is not before [now]; it never touches the clients and the
    refresh tokens; and a cleanup makes every earlier one redundant:
    cleaning at [now] after cleaning at an earlier (or the same) time gives
    what cleaning at [now] alone gives. *)
Theorem X12_sweep_keeps_the_unexpired (now : Z) (s : Stores) :
  clients (sweep now s) = clients s
  /\ refreshTokens (sweep now s) = refreshTokens s
  /\ (forall k p, pendingAuths (sweep now s) !! k = Some p
        <-> pendingAuths s !! k = Some p /\ now - PendingAuth.createdAt p <= 10 * 60000)
  /\ (forall k c, authCodes (sweep now s) !! k = Some c
        <-> authCodes s !! k = Some c /\ now <= AuthCode.expiresAt c)
  /\ (forall k t, accessTokens (sweep now s) !! k = Some t
        <-> accessTokens s !! k = Some t /\ now <= StoredToken.expiresAt t)
  /\ (forall earlier, earlier <= now -> sweep now (sweep earlier s) = sweep now s).
Proof.
  split; [reflexivity|]. split; [reflexivity|].
  split; [apply sweep_pendingAuths|]. split; [apply sweep_authCodes|].
  split; [apply sweep_accessTokens|].
  intros earlier Hle. apply stores_eq; try reflexivity;
    apply map_eq; intros k; apply option_eq; intros x.
  - rewrite !sweep_pendingAuths. intuition lia.
  - rewrite !sweep_authCodes. intuition lia.
  - rewrite !sweep_accessTokens. intuition lia.
Qed.

(** X13: the bearer check does not depend on the cleanup having run: at
    any time not before the cleanup it decides the same in the cleaned
    stores as in the stores as they were.  And its decision only goes one
    way in time: a header that is refused at some time is refused at every
    later time. *)
Theorem X13_requireAuth_and_sweep (h : option string) (s : Stores) (swept now : Z) :
  (swept <= now -> requireAuth h now (sweep swept s) = requireAuth h now s)
  /\ (forall later, now <= later ->
        requireAuth h now s = Respond unauthorized ->
        requireAuth h later s = Respond unauthorized).
Proof.
  split.
  - intros Hle. unfold requireAuth. destruct h as [authHeader|]; [|reflexivity].
    destruct (negb (JS.startsWith "Bearer " authHeader)); [reflexivity|].
    cbv zeta.
    destruct (accessTokens s !! JS.slice 7 authHeader) as [t|] eqn:Ht.
    + destruct (decide (swept <= StoredToken.expiresAt t)) as [Hok|Hexp].
      * assert (accessTokens (sweep swept s) !! JS.slice 7 authHeader = Some t) as ->
          by (apply sweep_accessTokens; auto).
        reflexivity.
      * assert (accessTokens (sweep swept s) !! JS.slice 7 authHeader = None) as ->.
        { apply eq_None_not_Some. intros [t' Ht']. apply sweep_accessTokens in Ht' as [Ht' ?].
          rewrite Ht in Ht'. injection Ht' as <-. contradiction. }
        rewrite bool_decide_eq_true_2 by lia. reflexivity.
    + assert (accessTokens (sweep swept s) !! JS.slice 7 authHeader = None) as ->.
      { apply eq_None_not_Some. intros [t' Ht']. apply sweep_accessTokens in Ht' as [Ht' ?].
        congruence. }
      reflexivity.
  - intros later Hle. unfold requireAuth. repeat case_match; try reflexivity; try discriminate.
    repeat case_bool_decide; try discriminate; lia.
Qed.

(** X14: the token endpoint does not depend on the cleanup having run
    either: for a request handled not before the cleanup, the status and the
    error of the answer are the same in the cleaned stores as in the stores
    as they were, and so is the whole answer when the request succeeds.  (A
    code that the cleanup removed is refused as expired in the one case and
    as unknown in the other, both invalid_grant.) *)
Theorem X14_token_and_sweep (env : TokenEnv.t) (b : TokenBody.t) (s : Stores) (swept : Z) :
  swept <= TokenEnv.now_at_check env ->
  let r := (token env b s).1 in
  let r' := (token env b (sweep swept s)).1 in
  status r' = status r /\ error_of r' = error_of r /\ (status r = 200 -> r' = r).
Proof.
  intros Hle. cbv zeta. destruct b as [gt code ruri cid csec cv rt]. unfold token.
  change (secret_mismatch (sweep swept s) cid csec) with (secret_mismatch s cid csec).
  change (refreshTokens (sweep swept s)) with (refreshTokens s).
  destruct (JS.falsy cid); [repeat split|].
  destruct (secret_mismatch s cid csec); [repeat split|].
  destruct (JS.strict_eq gt "authorization_code").
  - destruct code as [c|]; cbn [Map_get]; [|repeat split].
    destruct (authCodes s !! c) as [authCode|] eqn:Hc.
    + destruct (decide (swept <= AuthCode.expiresAt authCode)) as [Hok|Hexp].
      * assert (authCodes (sweep swept s) !! c = Some authCode) as ->
          by (apply sweep_authCodes; auto).
        repeat case_match; repeat split.
      * assert (authCodes (sweep swept s) !! c = None) as ->.
        { apply eq_None_not_Some. intros [a Ha]. apply sweep_authCodes in Ha as [Ha ?].
          rewrite Hc in Ha. injection Ha as <-. contradiction. }
        rewrite bool_decide_eq_true_2 by lia. repeat split. intros H. discriminate H.
    + assert (authCodes (sweep swept s) !! c = None) as ->.
      { apply eq_None_not_Some. intros [a Ha]. apply sweep_authCodes in Ha as [Ha ?].
        congruence. }
      repeat split.
  - repeat case_match; repeat split.
Qed.

(** X15: the callback never looks at the age of a pending authorization;
    its ten-minute lifetime is enforced by the cleanup alone.  After a
    cleanup the first step of the callback finds an entry that is at most
    ten minutes old as it would have without the cleanup, answers 400
    "Invalid or expired state parameter" for an older one, and answers as
    before when it would have answered anyway. *)
Theorem X15_callback_and_sweep (q : CallbackQuery.t) (s : Stores) (swept : Z) :
  (forall pending s1,
     callback_begin q s = (inr pending, s1) ->
     callback_begin q (sweep swept s) =
     if decide (swept - PendingAuth.createdAt pending <= 10 * 60000)
     then (inr pending, sweep swept s1)
     else (inl (mkResponse 400 (Text "Invalid or expired state parameter")), sweep swept s))
  /\ (forall r s1,
        callback_begin q s = (inl r, s1) ->
        callback_begin q (sweep swept s) = (inl r, sweep swept s)).
Proof.
  unfold callback_begin. destruct (negb (JS.falsy (CallbackQuery.error q))).
  { split; [discriminate|]. intros r s1 [= <- <-]. reflexivity. }
  destruct (CallbackQuery.state q) as [st|]; cbn [Map_get str default].
  2:{ split; [discriminate|]. intros r s1 [= <- <-]. reflexivity. }
  destruct (pendingAuths s !! st) as [p|] eqn:Hp.
  - split; [|discriminate]. intros pending s1 [= <- <-].
    destruct (decide (swept - PendingAuth.createdAt p <= 10 * 60000)) as [Hok|Hold].
    + assert (pendingAuths (sweep swept s) !! st = Some p) as ->
        by (apply sweep_pendingAuths; auto).
      f_equal. unfold sweep. store_fields. unfold with_pendingAuths. store_fields.
      f_equal. symmetry. apply map_filter_delete.
    + assert (pendingAuths (sweep swept s) !! st = None) as ->.
      { apply eq_None_not_Some. intros [p' Hp']. apply sweep_pendingAuths in Hp' as [Hp' ?].
        rewrite Hp in Hp'. injection Hp' as <-. contradiction. }
      reflexivity.
  - split; [discriminate|]. intros r s1 [= <- <-].
    assert (pendingAuths (sweep swept s) !! st = None) as ->; [|reflexivity].
    apply eq_None_not_Some. intros [p' Hp']. apply sweep_pendingAuths in Hp' as [Hp' ?].
    congruence.
Qed.

(** The sample code, which expires at 301000, presented at 400001 with and
    without the cleanup of 400000. *)
Lemma X14_token_and_sweep_witness :
  let env := TokenEnv.mk 400001 "access-1" "refresh-2" 400002 in
  (token env Sample.redeem Sample.stores).1
  = error_json_desc 400 "invalid_grant" "Code expired"
  /\ (token env Sample.redeem Demo.swept).1
     = error_json_desc 400 "invalid_grant" "Invalid or expired code"
  /\ error_of (token env Sample.redeem Demo.swept).1
     = error_of (token env Sample.redeem Sample.stores).1.
Proof.
  cbv zeta. split; [vm_compute; reflexivity|]. split; [vm_compute; reflexivity|].
  refine (proj1 (proj2 (X14_token_and_sweep (TokenEnv.mk 400001 "access-1" "refresh-2" 400002)
                          Sample.redeem Sample.stores 400000 _))).
  vm_compute. discriminate.
Defined.

(** ** The metadata and the endpoints *)

Lemma metadata_lists (config : OAuthConfig.t) :
  Json.strings "grant_types_supported" (authorization_server_metadata config)
  = ["authorization_code"; "refresh_token"]
  /\ Json.strings "code_challenge_methods_supported" (authorization_server_metadata config)
     = ["S256"]
  /\ Json.strings "response_types_supported" (authorization_server_metadata config)
     = ["code"].
Proof. repeat split. Qed.

(** X16: what the authorization-server metadata advertises is what the
    endpoints do.  A token request past the client checks gets
    unsupported_grant_type exactly when its grant_type is not one of
    grant_types_supported; /oauth/authorize redirects only for a
    response_type of response_types_supported and a code_challenge_method
    of code_challenge_methods_supported; and the protected-resource
    document names the issuer of the other document as its only
    authorization server. *)
Theorem X16_metadata_agrees_with_endpoints (config : OAuthConfig.t) :
  let doc := authorization_server_metadata config in
  (forall env b s,
     passes_client_checks b s ->
     (error_of (token env b s).1 = Some "unsupported_grant_type"
      <-> ~ exists g, TokenBody.grant_type b = Some g
                      /\ g ∈ Json.strings "grant_types_supported" doc))
  /\ (forall googleState now q s,
        status (authorize config googleState now q s).1 = 302 ->
        exists r m,
          AuthorizeQuery.response_type q = Some r
          /\ r ∈ Json.strings "response_types_supported" doc
          /\ AuthorizeQuery.code_challenge_method q = Some m
          /\ m ∈ Json.strings "code_challenge_methods_supported" doc)
  /\ (exists issuer,
        Json.member "issuer" doc = Some (Json.Str issuer)
        /\ Json.strings "authorization_servers" (protected_resource_metadata config)
           = [issuer]
        /\ Json.member "resource" (protected_resource_metadata config)
           = Some (Json.Str issuer)).
Proof.
  cbv zeta. destruct (metadata_lists config) as (-> & -> & ->).
  split; [|split].
  - intros env b s Hpass. split.
    + intros Herr (g & Hg & Hin).
      destruct b as [gt code ruri cid csec cv rt]. destruct Hpass as [Hf Hm]. body_fields.
      subst gt. unfold token in Herr. rewrite Hf, Hm in Herr.
      apply elem_of_cons in Hin as [->|Hin].
      * change (JS.strict_eq (Some "authorization_code") "authorization_code") with true
          in Herr.
        cbv iota in Herr. revert Herr.
        repeat case_match; intros E; vm_compute in E; discriminate.
      * apply elem_of_cons in Hin as [->|Hin]; [|inversion Hin].
        change (JS.strict_eq (Some "refresh_token") "authorization_code") with false in Herr.
        change (JS.strict_eq (Some "refresh_token") "refresh_token") with true in Herr.
        cbv iota in Herr. revert Herr.
        repeat case_match; intros E; vm_compute in E; discriminate.
    + intros Hnot.
      destruct b as [gt code ruri cid csec cv rt]. destruct Hpass as [Hf Hm]. body_fields.
      unfold token. rewrite Hf, Hm.
      destruct (JS.strict_eq gt "authorization_code") eqn:E1.
      { apply strict_eq_true in E1. contradiction Hnot. eexists. split; [exact E1|].
        apply elem_of_cons. left. reflexivity. }
      destruct (JS.strict_eq gt "refresh_token") eqn:E2.
      { apply strict_eq_true in E2. contradiction Hnot. eexists. split; [exact E2|].
        apply elem_of_cons. right. apply elem_of_cons. left. reflexivity. }
      reflexivity.
  - intros googleState now q s Hst.
    apply authorize_accepts_iff in Hst as (Hrt & _ & _ & _ & Hm).
    exists "code", "S256". repeat split; try assumption; apply elem_of_cons; left; reflexivity.
  - eexists. repeat split.
Qed.

(** * Properties of the Bill.com client *)

Section BillComFacts.

Local Open Scope list_scope.

Variables B J E : Type.
Variable net : list (BillCom.Sent B) -> BillCom.Fetched J E.
Variable clock : nat -> Z.
Variable URL_parse : string -> URL + E.
Variable sessionId_of : J -> string + E.
Variable TypeError : E.
Variable config : BillCom.BillComConfig.

Local Abbreviation login := (BillCom.login B J E net clock sessionId_of config).
Local Abbreviation ensureSession := (BillCom.ensureSession B J E net clock sessionId_of config).
Local Abbreviation request :=
  (BillCom.request B J E net clock URL_parse sessionId_of TypeError config).
Local Abbreviation the_login := (BillCom.Login B (BillCom.baseUrl config +:+ "/login") config).
Local Abbreviation World := (BillCom.World B).

(** What a login does, by what the network answers. *)
Lemma login_cases (w : World) :
  let w1 := BillCom.mkWorld B (BillCom.session B w) (BillCom.sent B w ++ [the_login])
              (BillCom.ticks B w) in
  match net (BillCom.sent B w ++ [the_login]) with
  | BillCom.Rejects _ _ e => login w = (BillCom.Throw (BillCom.Other E e), w1)
  | BillCom.Resolves _ _ res =>
      if BillCom.ok J E res then
        match BillCom.json J E res with
        | inl data =>
            match sessionId_of data with
            | inl sessionId =>
                login w =
                (BillCom.Ok tt,
                 BillCom.mkWorld B
                   (Some (BillCom.mkSession sessionId (clock (BillCom.ticks B w))))
                   (BillCom.sent B w ++ [the_login]) (S (BillCom.ticks B w)))
            | inr e => login w = (BillCom.Throw (BillCom.Other E e), w1)
            end
        | inr e => login w = (BillCom.Throw (BillCom.Other E e), w1)
        end
      else
        login w =
        (BillCom.Throw
           (BillCom.BillComError E
              ("Login failed: " +:+ BillCom.String_of_int (BillCom.status J E res))
              (BillCom.status J E res) (BillCom.text J E res)), w1)
  end.
Proof.
  cbv zeta. unfold BillCom.login, BillCom.bind, BillCom.fetch.
  destruct (net (BillCom.sent B w ++ [the_login])) as [res|e]; [|reflexivity].
  destruct (BillCom.ok J E res); cbn [negb]; [|reflexivity].
  destruct (BillCom.json J E res) as [data|e]; [|reflexivity].
  cbn [BillCom.of_sum BillCom.ret]. destruct (sessionId_of data); reflexivity.
Qed.

(** A login sends one request, and sets the session exactly when it
    succeeds. *)
Lemma login_effect (w : World) :
  BillCom.sent B (login w).2 = BillCom.sent B w ++ [the_login]
  /\ match (login w).1 with
     | BillCom.Ok _ => exists s, BillCom.session B (login w).2 = Some s
     | BillCom.Throw _ => BillCom.session B (login w).2 = BillCom.session B w
     end.
Proof.
  pose proof (login_cases w) as H. cbv zeta in H.
  destruct (net (BillCom.sent B w ++ [the_login])) as [res|e].
  - destruct (BillCom.ok J E res).
    + destruct (BillCom.json J E res) as [data|e]; [destruct (sessionId_of data)|];
        rewrite H; cbn; eauto.
    + rewrite H. cbn. auto.
  - rewrite H. cbn. auto.
Qed.

(** [ensureSession] sends nothing or one login; when it returns there is a
    session, and when it throws the session is as it was. *)
Lemma ensureSession_effect (w : World) :
  (BillCom.sent B (ensureSession w).2 = BillCom.sent B w
   \/ BillCom.sent B (ensureSession w).2 = BillCom.sent B w ++ [the_login])
  /\ match (ensureSession w).1 with
     | BillCom.Ok _ => exists s, BillCom.session B (ensureSession w).2 = Some s
     | BillCom.Throw _ => BillCom.session B (ensureSession w).2 = BillCom.session B w
     end.
Proof.
  unfold BillCom.ensureSession, BillCom.bind, BillCom.get_session, BillCom.Date_now.
  destruct (BillCom.session B w) as [sess|] eqn:Hs.
  - case_bool_decide.
    + set (w1 := BillCom.mkWorld B _ _ _).
      destruct (login_effect w1) as [H1 H2]. split; [right; exact H1|].
      destruct (login w1).1; [exact H2|]. rewrite H2. exact Hs.
    + cbn. split; [left; reflexivity|eauto].
  - destruct (login_effect w) as [H1 H2]. split; [right; exact H1|].
    destruct (login w).1; [exact H2|]. rewrite H2. exact Hs.
Qed.

Lemma count_call (l : list (BillCom.Sent B)) (m : string) (u : URL) (d k : string)
    (b : option B) :
  BillCom.logins B (l ++ [BillCom.Call B m u d k b]) = BillCom.logins B l
  /\ BillCom.calls B (l ++ [BillCom.Call B m u d k b]) = S (BillCom.calls B l).
Proof.
  unfold BillCom.logins, BillCom.calls. rewrite !List.filter_app, !length_app.
  cbn. lia.
Qed.

Lemma count_login (l : list (BillCom.Sent B)) (u : string) (c : BillCom.BillComConfig) :
  BillCom.logins B (l ++ [BillCom.Login B u c]) = S (BillCom.logins B l)
  /\ BillCom.calls B (l ++ [BillCom.Login B u c]) = BillCom.calls B l.
Proof.
  unfold BillCom.logins, BillCom.calls. rewrite !List.filter_app, !length_app.
  cbn. lia.
Qed.

Lemma request_budget (method path : string) (body : option B)
    (query : option (list (string * string))) (w w' : World)
    (o : BillCom.Outcome E J) :
  request method path body query w = (o, w') ->
  exists l,
    BillCom.sent B w' = BillCom.sent B w ++ l
    /\ (BillCom.logins B l <= 2)%nat /\ (BillCom.calls B l <= 2)%nat
    /\ forall result, o = BillCom.Ok result ->
         (1 <= BillCom.calls B l)%nat /\ exists s, BillCom.session B w' = Some s.
Proof.
  intros Heq. unfold BillCom.request in Heq.
  unfold BillCom.bind at 1 in Heq.
  destruct (ensureSession_effect w) as [Hsent Hsess].
  assert (Hl0 : exists l0, BillCom.sent B (ensureSession w).2 = BillCom.sent B w ++ l0
                           /\ (BillCom.logins B l0 <= 1)%nat /\ BillCom.calls B l0 = 0%nat).
  { destruct Hsent as [->| ->]; [exists []|exists [the_login]];
      (split; [try rewrite app_nil_r; reflexivity|]); cbn; lia. }
  clear Hsent. destruct Hl0 as (l0 & Hl0 & Hlog0 & Hcall0).
  destruct (ensureSession w) as [[[]|f] w1]; cbn [fst snd] in *.
  2:{ injection Heq as <- <-. exists l0. split; [exact Hl0|]. split; [lia|].
      split; [lia|]. intros ? [=]. }
  destruct Hsess as [s1 Hs1].
  unfold BillCom.bind at 1 in Heq. unfold BillCom.of_sum in Heq.
  destruct (URL_parse (BillCom.baseUrl config +:+ path)) as [url|e];
    cbn [BillCom.ret BillCom.throw] in Heq.
  2:{ injection Heq as <- <-. exists l0. split; [exact Hl0|]. split; [lia|].
      split; [lia|]. intros ? [=]. }
  cbv zeta in Heq. unfold BillCom.bind at 1 in Heq.
  unfold BillCom.authHeaders at 1, BillCom.bind at 1, BillCom.get_session in Heq.
  rewrite Hs1 in Heq. cbn [BillCom.ret fst snd] in Heq.
  set (call1 := BillCom.Call B method _ _ _ body) in Heq.
  unfold BillCom.bind at 1 in Heq. unfold BillCom.fetch at 1 in Heq.
  assert (Hc1 : BillCom.logins B (l0 ++ [call1]) = BillCom.logins B l0
                /\ BillCom.calls B (l0 ++ [call1]) = S (BillCom.calls B l0))
    by apply count_call.
  destruct Hc1 as [Hc1 Hc1'].
  assert (Hl1 : BillCom.sent B w1 ++ [call1] = BillCom.sent B w ++ (l0 ++ [call1])).
  { rewrite Hl0, <- app_assoc. reflexivity. }
  destruct (net (BillCom.sent B w1 ++ [call1])) as [res|e].
  2:{ injection Heq as <- <-. exists (l0 ++ [call1]). split; [exact Hl1|].
      split; [lia|]. split; [lia|]. intros ? [=]. }
  set (w2 := BillCom.mkWorld B _ _ _) in Heq.
  unfold BillCom.bind at 1 in Heq.
  case_bool_decide as H401.
  - unfold BillCom.bind at 1 in Heq.
    destruct (login_effect w2) as [Hsent2 Hsess2].
    destruct (count_login (l0 ++ [call1]) (BillCom.baseUrl config +:+ "/login") config)
      as [Hc2 Hc2'].
    assert (Hl2 : BillCom.sent B (login w2).2
                  = BillCom.sent B w ++ ((l0 ++ [call1]) ++ [the_login])).
    { rewrite Hsent2. subst w2. cbn [BillCom.sent]. rewrite Hl1, <- !app_assoc.
      reflexivity. }
    clear Hsent2.
    destruct (login w2) as [[[]|f] w3]; cbn [fst snd] in *.
    2:{ injection Heq as <- <-. eexists. split; [exact Hl2|]. split; [lia|].
        split; [lia|]. intros ? [=]. }
    destruct Hsess2 as [s3 Hs3].
    unfold BillCom.bind at 1 in Heq.
    unfold BillCom.authHeaders at 1, BillCom.bind at 1, BillCom.get_session in Heq.
    rewrite Hs3 in Heq. cbn [BillCom.ret fst snd] in Heq.
    set (call2 := BillCom.Call B method _ _ _ body) in Heq.
    unfold BillCom.fetch in Heq.
    assert (Hc3 : BillCom.logins B (((l0 ++ [call1]) ++ [the_login]) ++ [call2])
                  = BillCom.logins B ((l0 ++ [call1]) ++ [the_login])
                  /\ BillCom.calls B (((l0 ++ [call1]) ++ [the_login]) ++ [call2])
                     = S (BillCom.calls B ((l0 ++ [call1]) ++ [the_login])))
      by apply count_call.
    destruct Hc3 as [Hc3 Hc3'].
    assert (Hl3 : BillCom.sent B w3 ++ [call2]
                  = BillCom.sent B w ++ (((l0 ++ [call1]) ++ [the_login]) ++ [call2])).
    { rewrite Hl2, <- !app_assoc. reflexivity. }
    exists (((l0 ++ [call1]) ++ [the_login]) ++ [call2]).
    destruct (net (BillCom.sent B w3 ++ [call2])) as [res2|e2].
    + destruct (negb (BillCom.ok J E res2)); [|destruct (BillCom.json J E res2)];
        cbn [BillCom.throw BillCom.of_sum BillCom.ret] in Heq;
        injection Heq as <- <-; cbn [BillCom.sent BillCom.session];
        (split; [exact Hl3|]); (split; [lia|]); (split; [lia|]);
        intros ? [=]; split; [lia|eauto].
    + injection Heq as <- <-. cbn [BillCom.sent].
      split; [exact Hl3|]. split; [lia|]. split; [lia|]. intros ? [=].
  - cbn [BillCom.ret] in Heq.
    exists (l0 ++ [call1]).
    destruct (negb (BillCom.ok J E res)); [|destruct (BillCom.json J E res)];
      cbn [BillCom.throw BillCom.of_sum BillCom.ret] in Heq;
      injection Heq as <- <-; subst w2; cbn [BillCom.session BillCom.sent];
      (split; [exact Hl1|]); (split; [lia|]); (split; [lia|]);
      intros ? [=]; split; [lia|eauto].
Qed.

(** X17: one call of [request] sends at most two API requests and at most
    two logins, whatever the network answers: it never retries more than
    once.  When it returns a result, at least one API request was sent and
    the client has a session. *)
Theorem X17_request_budget (method path : string) (body : option B)
    (query : option (list (string * string))) (w : World) :
  let out := request method path body query w in
  exists l,
    BillCom.sent B out.2 = BillCom.sent B w ++ l
    /\ (BillCom.logins B l <= 2)%nat /\ (BillCom.calls B l <= 2)%nat
    /\ forall result, out.1 = BillCom.Ok result ->
         (1 <= BillCom.calls B l)%nat
         /\ exists s, BillCom.session B out.2 = Some s.
Proof.
  cbv zeta. destruct (request method path body query w) as [o w'] eqn:Heq.
  exact (request_budget method path body query w w' o Heq).
Qed.

Ltac run_client :=
  unfold BillCom.request, BillCom.ensureSession, BillCom.login, BillCom.authHeaders,
    BillCom.bind, BillCom.get_session, BillCom.set_session, BillCom.Date_now,
    BillCom.of_sum, BillCom.fetch, BillCom.ret, BillCom.throw;
  cbn -[BillCom.String_of_int BillCom.with_query].

Ltac step_client := cbn -[BillCom.String_of_int BillCom.with_query].

(** X18: with a session that is at most thirty minutes old (exactly thirty
    minutes included), [request] logs in no more: it sends the one API
    request, with the configured devKey and the session's id, and when the
    answer is not a 401 that answer decides the outcome: the parsed body for
    a 2xx status, a BillComError "API error <status>: <text>" with that
    status otherwise.  The session is left as it was. *)
Theorem X18_request_reuses_session (method path : string) (body : option B)
    (query : option (list (string * string))) (w : World) (sess : BillCom.Session)
    (url : URL) (res : BillCom.HttpResponse J E) :
  BillCom.session B w = Some sess ->
  clock (BillCom.ticks B w) - BillCom.loginTime sess <= 30 * 60 * 1000 ->
  URL_parse (BillCom.baseUrl config +:+ path) = inl url ->
  let call := BillCom.Call B method (BillCom.with_query query url)
                (BillCom.devKey config) (BillCom.sessionId sess) body in
  net (BillCom.sent B w ++ [call]) = BillCom.Resolves J E res ->
  BillCom.status J E res <> 401 ->
  request method path body query w
  = (BillCom.delivered J E res,
     BillCom.mkWorld B (Some sess) (BillCom.sent B w ++ [call]) (S (BillCom.ticks B w))).
Proof.
  intros Hs Hage Hurl call Hnet H401. run_client. rewrite Hs. step_client.
  rewrite bool_decide_eq_false_2 by (unfold BillCom.SESSION_MAX_AGE_MS; lia).
  rewrite Hurl. step_client. rewrite Hs. step_client. fold call. rewrite Hnet.
  step_client. rewrite bool_decide_eq_false_2 by exact H401.
  unfold BillCom.delivered. destruct (BillCom.ok J E res); cbn [negb]; [|reflexivity].
  destruct (BillCom.json J E res); reflexivity.
Qed.

(** X19: without a session, or with one that is more than thirty minutes
    old, [request] logs in first, at <baseUrl>/login with the configured
    credentials.  If the answer to the login is not a 2xx, [request] throws
    the BillComError "Login failed: <status>" with that status and the text
    of the answer, sends no API request, and leaves the session as it was. *)
Theorem X19_request_login_failure (method path : string) (body : option B)
    (query : option (list (string * string))) (w : World)
    (res : BillCom.HttpResponse J E) :
  (BillCom.session B w = None
   \/ exists sess, BillCom.session B w = Some sess
        /\ clock (BillCom.ticks B w) - BillCom.loginTime sess > 30 * 60 * 1000) ->
  net (BillCom.sent B w ++ [the_login]) = BillCom.Resolves J E res ->
  BillCom.ok J E res = false ->
  let out := request method path body query w in
  out.1 = BillCom.Throw
            (BillCom.BillComError E
               ("Login failed: " +:+ BillCom.String_of_int (BillCom.status J E res))
               (BillCom.status J E res) (BillCom.text J E res))
  /\ BillCom.sent B out.2 = BillCom.sent B w ++ [the_login]
  /\ BillCom.session B out.2 = BillCom.session B w.
Proof.
  intros Hstale Hnet Hok. cbv zeta. run_client.
  destruct Hstale as [Hs|(sess & Hs & Hage)]; rewrite Hs.
  - rewrite Hnet, Hok. cbn. rewrite Hs. repeat split.
  - rewrite bool_decide_eq_true_2 by (unfold BillCom.SESSION_MAX_AGE_MS; lia).
    cbn [BillCom.session BillCom.sent BillCom.ticks fst snd].
    rewrite Hnet, Hok. cbn. rewrite Hs. repeat split.
Qed.

(** X20: when the API answers 401 to the request, whether [ensureSession]
    had found a session that is young enough or had just logged in,
    [request] logs in again and repeats the request once, the same but for
    the [sessionId] header, which is that of the new session.  The answer to
    the repeated request decides the outcome, a second 401 included: that
    one is thrown as the BillComError "API error 401: <text>" and nothing
    more is sent.  The new session is kept. *)
Theorem X20_request_retries_once (method path : string) (body : option B)
    (query : option (list (string * string))) (w w1 : World) (sess : BillCom.Session)
    (url : URL) (res1 res_login res2 : BillCom.HttpResponse J E) (data : J)
    (sessionId : string) :
  ensureSession w = (BillCom.Ok tt, w1) ->
  BillCom.session B w1 = Some sess ->
  URL_parse (BillCom.baseUrl config +:+ path) = inl url ->
  let call k := BillCom.Call B method (BillCom.with_query query url)
                  (BillCom.devKey config) k body in
  let call1 := call (BillCom.sessionId sess) in
  let call2 := call sessionId in
  net (BillCom.sent B w1 ++ [call1]) = BillCom.Resolves J E res1 ->
  BillCom.status J E res1 = 401 ->
  net ((BillCom.sent B w1 ++ [call1]) ++ [the_login]) = BillCom.Resolves J E res_login ->
  BillCom.ok J E res_login = true ->
  BillCom.json J E res_login = inl data ->
  sessionId_of data = inl sessionId ->
  net (((BillCom.sent B w1 ++ [call1]) ++ [the_login]) ++ [call2])
  = BillCom.Resolves J E res2 ->
  request method path body query w
  = (BillCom.delivered J E res2,
     BillCom.mkWorld B
       (Some (BillCom.mkSession sessionId (clock (BillCom.ticks B w1))))
       (((BillCom.sent B w1 ++ [call1]) ++ [the_login]) ++ [call2])
       (S (BillCom.ticks B w1))).
Proof.
  intros Hens Hs Hurl call call1 call2 Hnet1 H401 Hnetl Hokl Hdata Hsid Hnet2.
  subst call1 call2 call. cbv beta in *.
  unfold BillCom.request. unfold BillCom.bind at 1. rewrite Hens.
  unfold BillCom.login, BillCom.authHeaders, BillCom.bind, BillCom.get_session,
    BillCom.set_session, BillCom.Date_now, BillCom.of_sum, BillCom.fetch, BillCom.ret,
    BillCom.throw.
  rewrite Hurl. step_client. rewrite Hs. step_client. rewrite Hnet1. step_client.
  rewrite bool_decide_eq_true_2 by exact H401. step_client.
  rewrite Hnetl. step_client. rewrite Hokl. step_client. rewrite Hdata. step_client.
  rewrite Hsid. step_client. rewrite Hnet2. step_client.
  unfold BillCom.delivered. destruct (BillCom.ok J E res2); cbn [negb]; [|reflexivity].
  destruct (BillCom.json J E res2); reflexivity.
Qed.

End BillComFacts.

(** The demo server answers 200 to the session "s2". *)
Lemma X18_request_reuses_session_witness :
  DemoClient.request "GET" "/vendors" None None DemoClient.with_s2
  = (BillCom.Ok "[]",
     BillCom.mkWorld _ (Some (BillCom.mkSession "s2" 0))
       [BillCom.Call _ "GET" DemoClient.vendors_url "dev-key" "s2" None] 1).
Proof.
  assert (Hage : DemoClient.clock 0 - 0 <= 30 * 60 * 1000) by (vm_compute; discriminate).
  assert (H401 : (200 : Z) <> 401) by discriminate.
  exact (X18_request_reuses_session DemoClient.Body string string DemoClient.net
           DemoClient.clock DemoClient.URL_parse DemoClient.sessionId_of "TypeError"
           DemoClient.config "GET" "/vendors" None None DemoClient.with_s2
           (BillCom.mkSession "s2" 0) DemoClient.vendors_url
           (BillCom.mkHttpResponse _ _ 200 "[]" (inl "[]"))
           eq_refl Hage eq_refl eq_refl H401).
Defined.

(** Signed out, with a server that forbids logging in. *)
Lemma X19_request_login_failure_witness :
  let out := BillCom.request DemoClient.Body string string DemoClient.net_forbidden
               DemoClient.clock DemoClient.URL_parse DemoClient.sessionId_of "TypeError"
               DemoClient.config "GET" "/vendors" None None DemoClient.signed_out in
  out.1 = BillCom.Throw (BillCom.BillComError _ "Login failed: 403" 403 "forbidden")
  /\ BillCom.sent _ out.2
     = [BillCom.Login _ "https://api.example/v3/login" DemoClient.config].
Proof.
  destruct (X19_request_login_failure DemoClient.Body string string
              DemoClient.net_forbidden DemoClient.clock DemoClient.URL_parse
              DemoClient.sessionId_of "TypeError" DemoClient.config "GET" "/vendors" None None
              DemoClient.signed_out
              (BillCom.mkHttpResponse _ _ 403 "forbidden" (inr "not JSON"))
              (or_introl eq_refl) eq_refl eq_refl) as (H1 & H2 & _).
  split; [exact H1|exact H2].
Defined.

(** Signed out: the first login hands out "s1", which is refused; the
    second login hands out "s2", and the repeated request succeeds. *)
Lemma X20_request_retries_once_witness :
  BillCom.request DemoClient.Body string string DemoClient.net_stale DemoClient.clock
    DemoClient.URL_parse DemoClient.sessionId_of "TypeError" DemoClient.config
    "GET" "/vendors" None None DemoClient.signed_out
  = (BillCom.Ok "[]",
     BillCom.mkWorld _ (Some (BillCom.mkSession "s2" 5001))
       [BillCom.Login _ "https://api.example/v3/login" DemoClient.config;
        BillCom.Call _ "GET" DemoClient.vendors_url "dev-key" "s1" None;
        BillCom.Login _ "https://api.example/v3/login" DemoClient.config;
        BillCom.Call _ "GET" DemoClient.vendors_url "dev-key" "s2" None] 2).
Proof.
  exact (X20_request_retries_once DemoClient.Body string string DemoClient.net_stale
           DemoClient.clock DemoClient.URL_parse DemoClient.sessionId_of "TypeError"
           DemoClient.config "GET" "/vendors" None None DemoClient.signed_out
           (BillCom.mkWorld _ (Some (BillCom.mkSession "s1" 5000))
              [BillCom.Login _ "https://api.example/v3/login" DemoClient.config] 1)
           (BillCom.mkSession "s1" 5000) DemoClient.vendors_url
           (BillCom.mkHttpResponse _ _ 401 "expired" (inr "not JSON"))
           (BillCom.mkHttpResponse _ _ 200 "{}" (inl "s2"))
           (BillCom.mkHttpResponse _ _ 200 "[]" (inl "[]")) "s2" "s2"
           eq_refl eq_refl eq_refl eq_refl eq_refl eq_refl eq_refl eq_refl eq_refl eq_refl).
Defined.

(** * Properties of the tools *)

Section ToolFacts.

Variable Amount : Type.

Local Abbreviation vendor_data := (Tools.vendor_data Amount).
Local Abbreviation get := (Tools.get Amount).

(** X21: what create_vendor sends.  The name always; accountType when
    given; email and phone only when not empty; and an address object, with
    all six members as given, exactly when address1, city, state, zip or
    country is not empty.  So a second address line given alone is
    dropped.  There are no other members: every key is one of name,
    accountType, email, phone and address. *)
Theorem X21_vendor_data (input : Tools.VendorInput) :
  let data := vendor_data input in
  get "name" data = Some (Tools.VString Amount (Tools.v_name input))
  /\ get "accountType" data
     = (fun t => Tools.VString Amount (Tools.AccountType_string t))
         <$> Tools.v_accountType input
  /\ get "email" data
     = (if JS.falsy (Tools.v_email input) then None
        else Some (Tools.VString Amount (str (Tools.v_email input))))
  /\ get "phone" data
     = (if JS.falsy (Tools.v_phone input) then None
        else Some (Tools.VString Amount (str (Tools.v_phone input))))
  /\ get "address" data
     = (if JS.falsy (Tools.v_address1 input) && JS.falsy (Tools.v_city input)
           && JS.falsy (Tools.v_state input) && JS.falsy (Tools.v_zip input)
           && JS.falsy (Tools.v_country input)
        then None
        else Some (Tools.VAddress Amount
                     (Tools.mkAddress (Tools.v_address1 input) (Tools.v_address2 input)
                        (Tools.v_city input) (Tools.v_state input) (Tools.v_zip input)
                        (Tools.v_country input))))
  /\ map fst data ⊆ ["name"; "accountType"; "email"; "phone"; "address"]
  /\ NoDup (map fst data).
Proof.
  cbv zeta. unfold Tools.vendor_data. destruct input as [n t e p a1 a2 c s z co].
  cbn [Tools.v_name Tools.v_accountType Tools.v_email Tools.v_phone Tools.v_address1
       Tools.v_address2 Tools.v_city Tools.v_state Tools.v_zip Tools.v_country].
  unfold Tools.optional, Tools.get.
  destruct t as [t|]; destruct (JS.falsy e); destruct (JS.falsy p);
    destruct (JS.falsy a1); destruct (JS.falsy c); destruct (JS.falsy s);
    destruct (JS.falsy z); destruct (JS.falsy co);
    cbn [negb orb andb app map fst fmap option_fmap option_map];
    do 5 (split; [reflexivity|]);
    split; apply (bool_decide_unpack _); vm_compute; exact I.
Qed.

End ToolFacts.

(** A vendor whose only address field is the second line, and whose email
    is empty: the name alone is sent. *)
Example vendor_suite_only :
  Tools.vendor_data Z DemoClient.suite_only = [("name", Tools.VString Z "Acme")].
Proof. reflexivity. Qed.

Section HandlerFacts.

Local Open Scope list_scope.

Variables Amount J E : Type.
Variable JSON_stringify : J -> string.
Variable String_of : E -> string.
Variable net : list (BillCom.Sent (list (string * Tools.Value Amount))) -> BillCom.Fetched J E.
Variable clock : nat -> Z.
Variable URL_parse : string -> URL + E.
Variable sessionId_of : J -> string + E.
Variable TypeError : E.
Variable config : BillCom.BillComConfig.
Variable is_email : string -> bool.

Local Abbreviation Body := (list (string * Tools.Value Amount)).
Local Abbreviation World := (BillCom.World Body).
Local Abbreviation request :=
  (BillCom.request Body J E net clock URL_parse sessionId_of TypeError config).
Local Abbreviation run := (Tools.run Amount J E JSON_stringify String_of).
Local Abbreviation the_login :=
  (BillCom.Login Body (BillCom.baseUrl config +:+ "/login") config).
Local Abbreviation list_vendors :=
  (Tools.list_vendors Amount J E JSON_stringify String_of net clock URL_parse sessionId_of
     TypeError config).
Local Abbreviation get_vendor :=
  (Tools.get_vendor Amount J E JSON_stringify String_of net clock URL_parse sessionId_of
     TypeError config).
Local Abbreviation create_vendor :=
  (Tools.create_vendor Amount J E JSON_stringify String_of net clock URL_parse sessionId_of
     TypeError config is_email).
Local Abbreviation vendor_schema := (Tools.vendor_schema is_email).
Local Abbreviation bill_schema := (Tools.bill_schema Amount).
Local Abbreviation list_bills :=
  (Tools.list_bills Amount J E JSON_stringify String_of net clock URL_parse sessionId_of
     TypeError config).
Local Abbreviation get_bill :=
  (Tools.get_bill Amount J E JSON_stringify String_of net clock URL_parse sessionId_of
     TypeError config).
Local Abbreviation create_bill :=
  (Tools.create_bill Amount J E JSON_stringify String_of net clock URL_parse sessionId_of
     TypeError config).

Ltac unfold_client :=
  unfold BillCom.request, BillCom.ensureSession, BillCom.login, BillCom.authHeaders,
    BillCom.bind, BillCom.get_session, BillCom.set_session, BillCom.Date_now,
    BillCom.of_sum, BillCom.fetch, BillCom.ret, BillCom.throw.

Ltac step := cbn -[BillCom.String_of_int BillCom.with_query Tools.vendor_data Tools.bill_data].

Local Abbreviation must_log_in := (BillCom.must_log_in Body clock).

Lemma run_login_failure (method path : string) (body : option Body)
    (query : option (list (string * string))) (w : World)
    (res : BillCom.HttpResponse J E) :
  must_log_in w ->
  net (BillCom.sent Body w ++ [the_login]) = BillCom.Resolves J E res ->
  BillCom.ok J E res = false ->
  (run (request method path body query) w).1
  = Tools.mkToolResult
      ("Error: Login failed: " +:+ BillCom.String_of_int (BillCom.status J E res)) true
  /\ BillCom.sent Body (run (request method path body query) w).2
     = BillCom.sent Body w ++ [the_login]
  /\ BillCom.session Body (run (request method path body query) w).2
     = BillCom.session Body w.
Proof.
  intros Hstale Hnet Hok. unfold Tools.run. unfold_client.
  destruct Hstale as [Hs|(sess & Hs & Hage)]; step; rewrite Hs; step.
  - rewrite Hnet. step. rewrite Hok. step. rewrite Hs. repeat split.
  - rewrite bool_decide_eq_true_2 by (unfold BillCom.SESSION_MAX_AGE_MS; lia). step.
    rewrite Hnet. step. rewrite Hok. step. rewrite Hs. repeat split.
Qed.

(** X22: when the client has no session, or one older than thirty
    minutes, and the login is answered with a status that is not 2xx,
    each of the six tools, called with arguments that fit its schema,
    answers with isError and the text "Error: Login failed: <status>", the
    status, a number of at most three digits, in decimal; nothing but the
    login request has been sent, so no vendor or bill data has left, and
    the client's session is as it was. *)
Theorem X22_tools_report_failed_login (w : World) (res : BillCom.HttpResponse J E) :
  must_log_in w ->
  net (BillCom.sent Body w ++ [the_login]) = BillCom.Resolves J E res ->
  BillCom.ok J E res = false ->
  0 <= BillCom.status J E res <= 999 ->
  let failed (out : Tools.Called * World) :=
    out.1 = Tools.Ran
              (Tools.mkToolResult
                 ("Error: Login failed: " +:+ BillCom.String_of_int (BillCom.status J E res))
                 true)
    /\ BillCom.sent Body out.2 = BillCom.sent Body w ++ [the_login]
    /\ BillCom.session Body out.2 = BillCom.session Body w in
  (forall start max, Tools.paging_schema start max = true ->
                     failed (list_vendors start max w))
  /\ (forall id, failed (get_vendor id w))
  /\ (forall input, vendor_schema input = true -> failed (create_vendor input w))
  /\ (forall start max, Tools.paging_schema start max = true ->
                        failed (list_bills start max w))
  /\ (forall id, failed (get_bill id w))
  /\ (forall input, bill_schema input = true -> failed (create_bill input w)).
Proof.
  intros Hstale Hnet Hok _ failed. subst failed. cbv beta.
  assert (Hrun : forall method path body query,
             let out := Tools.tool Amount true (run (request method path body query)) w in
             out.1 = Tools.Ran
                       (Tools.mkToolResult
                          ("Error: Login failed: "
                           +:+ BillCom.String_of_int (BillCom.status J E res)) true)
             /\ BillCom.sent Body out.2 = BillCom.sent Body w ++ [the_login]
             /\ BillCom.session Body out.2 = BillCom.session Body w).
  { intros method path body query. cbv zeta. unfold Tools.tool. cbn [fst snd].
    destruct (run_login_failure method path body query w res Hstale Hnet Hok)
      as (H1 & H2 & H3).
    rewrite H1. split; [reflexivity|]. split; assumption. }
  split; [|split; [|split; [|split; [|split]]]].
  - intros start max Hfits. unfold Tools.list_vendors. rewrite Hfits.
    exact (Hrun "GET" "/vendors" None _).
  - intros id. exact (Hrun "GET" _ None None).
  - intros input Hfits. unfold Tools.create_vendor. rewrite Hfits.
    exact (Hrun "POST" "/vendors" (Some _) None).
  - intros start max Hfits. unfold Tools.list_bills. rewrite Hfits.
    exact (Hrun "GET" "/bills" None _).
  - intros id. exact (Hrun "GET" _ None None).
  - intros input Hfits. unfold Tools.create_bill. rewrite Hfits.
    exact (Hrun "POST" "/bills" (Some _) None).
Qed.

(** X23: create_vendor refuses arguments whose email does not pass the
    schema's test, and then nothing is sent.  For arguments that fit, with
    a session that is at most thirty minutes old, it sends one request:
    POST <baseUrl>/vendors with the devKey, the session's id and the data
    built from its arguments as body.  When the answer is not a 401 the
    tool reports it: the stringified body of a 2xx answer, or else isError
    with "Error: API error <status>: <text>", the status, a number of at
    most three digits, in decimal. *)
Theorem X23_create_vendor_posts_data (input : Tools.VendorInput) (w : World)
    (sess : BillCom.Session) (url : URL) (res : BillCom.HttpResponse J E) :
  BillCom.session Body w = Some sess ->
  clock (BillCom.ticks Body w) - BillCom.loginTime sess <= 30 * 60 * 1000 ->
  URL_parse (BillCom.baseUrl config +:+ "/vendors") = inl url ->
  let call := BillCom.Call Body "POST" url (BillCom.devKey config)
                (BillCom.sessionId sess) (Some (Tools.vendor_data Amount input)) in
  (vendor_schema input = false -> create_vendor input w = (Tools.Refused, w))
  /\ (vendor_schema input = true ->
      net (BillCom.sent Body w ++ [call]) = BillCom.Resolves J E res ->
      BillCom.status J E res <> 401 ->
      0 <= BillCom.status J E res <= 999 ->
      BillCom.sent Body (create_vendor input w).2 = BillCom.sent Body w ++ [call]
      /\ (create_vendor input w).1
         = Tools.Ran
             (if BillCom.ok J E res then
                match BillCom.json J E res with
                | inl result => Tools.mkToolResult (JSON_stringify result) false
                | inr e => Tools.mkToolResult ("Error: " +:+ String_of e) true
                end
              else
                Tools.mkToolResult
                  ("Error: " +:+ ("API error "
                                  +:+ BillCom.String_of_int (BillCom.status J E res)
                                  +:+ ": " +:+ BillCom.text J E res)) true)).
Proof.
  intros Hs Hage Hurl call. subst call. split.
  { intros Hfits. unfold Tools.create_vendor, Tools.tool. rewrite Hfits. reflexivity. }
  intros Hfits Hnet H401 _.
  unfold Tools.create_vendor, Tools.tool. rewrite Hfits.
  unfold Tools.run, BillCom.createVendor. unfold_client.
  step. rewrite Hs. step.
  rewrite bool_decide_eq_false_2 by (unfold BillCom.SESSION_MAX_AGE_MS; lia). step.
  rewrite Hurl. step. rewrite Hs. step. cbn [BillCom.with_query]. rewrite Hnet. step.
  rewrite bool_decide_eq_false_2 by exact H401. step.
  destruct (BillCom.ok J E res); step; [|split; reflexivity].
  destruct (BillCom.json J E res); split; reflexivity.
Qed.

(** X24: list_vendors refuses a start below 0 and a max outside 1..100,
    and then nothing is sent.  For arguments that fit, with a session that
    is at most thirty minutes old, it asks for one page: its first request
    is a GET whose URL is that of <baseUrl>/vendors with the query
    parameters start and max set to the arguments in decimal (start being a
    safe integer), 0 and 20 when they are not given, replacing any start or
    max that URL had and keeping its other parameters. *)
Theorem X24_list_paging (start max : option Z) (w : World) (sess : BillCom.Session)
    (url : URL) :
  BillCom.session Body w = Some sess ->
  clock (BillCom.ticks Body w) - BillCom.loginTime sess <= 30 * 60 * 1000 ->
  URL_parse (BillCom.baseUrl config +:+ "/vendors") = inl url ->
  (Tools.paging_schema start max = false -> list_vendors start max w = (Tools.Refused, w))
  /\ (Tools.paging_schema start max = true ->
      0 <= default 0 start <= BillCom.MAX_SAFE_INTEGER ->
      1 <= default 20 max <= 100
      /\ exists paged rest,
           BillCom.sent Body (list_vendors start max w).2
           = BillCom.sent Body w
             ++ BillCom.Call Body "GET" paged (BillCom.devKey config)
                  (BillCom.sessionId sess) None
                :: rest
           /\ href_base paged = href_base url
           /\ searchParams_get "start" (searchParams paged)
              = Some (BillCom.String_of_int (default 0 start))
           /\ searchParams_get "max" (searchParams paged)
              = Some (BillCom.String_of_int (default 20 max))
           /\ (forall n, n <> "start" -> n <> "max" ->
               searchParams_get n (searchParams paged)
               = searchParams_get n (searchParams url))
           /\ BillCom.String_of_int 0 = "0" /\ BillCom.String_of_int 20 = "20").
Proof.
  intros Hs Hage Hurl. split.
  { intros Hfits. unfold Tools.list_vendors, Tools.tool. rewrite Hfits. reflexivity. }
  intros Hfits _. split.
  { unfold Tools.paging_schema in Hfits. apply andb_prop in Hfits as [_ Hmax].
    destruct max as [n|]; cbn [default from_option id]; [|lia].
    apply andb_prop in Hmax as [H1 H2]. apply Z.leb_le in H1, H2. lia. }
  set (paged := BillCom.with_query
                  (BillCom.paging (Some (default 0 start)) (Some (default 20 max))) url).
  assert (Hsent : exists rest,
            BillCom.sent Body (list_vendors start max w).2
            = BillCom.sent Body w
              ++ BillCom.Call Body "GET" paged (BillCom.devKey config)
                   (BillCom.sessionId sess) None :: rest).
  { unfold Tools.list_vendors, Tools.tool. rewrite Hfits.
    unfold Tools.run, BillCom.listVendors. unfold_client.
    step. rewrite Hs. step.
    rewrite bool_decide_eq_false_2 by (unfold BillCom.SESSION_MAX_AGE_MS; lia). step.
    rewrite Hurl. step. rewrite Hs. step. fold paged.
    repeat case_match; simplify_eq; step; rewrite <- ?app_assoc; eexists; reflexivity. }
  destruct Hsent as [rest Hsent]. exists paged, rest. split; [exact Hsent|].
  subst paged. unfold BillCom.with_query, BillCom.paging.
  cbn [fold_left fst snd URL_set href_base searchParams default from_option id].
  split; [reflexivity|].
  split; [rewrite searchParams_get_set_ne by discriminate; apply searchParams_get_set_eq|].
  split; [apply searchParams_get_set_eq|].
  split; [intros n H1 H2; rewrite !searchParams_get_set_ne by congruence; reflexivity|].
  split; reflexivity.
Qed.

End HandlerFacts.

(** Signed out and refused by the server: create_vendor reports it and the
    vendor is not sent. *)
Lemma X22_tools_report_failed_login_witness :
  let out := Tools.create_vendor Z string string (fun r => r) (fun e => e)
               DemoClient.net_forbidden DemoClient.clock DemoClient.URL_parse
               DemoClient.sessionId_of "TypeError" DemoClient.config DemoClient.is_email
               DemoClient.acme DemoClient.signed_out in
  out.1 = Tools.Ran (Tools.mkToolResult "Error: Login failed: 403" true)
  /\ BillCom.sent _ out.2 = [BillCom.Login _ "https://api.example/v3/login" DemoClient.config].
Proof.
  assert (Hstatus : 0 <= 403 <= 999) by lia.
  destruct (X22_tools_report_failed_login Z string string (fun r => r) (fun e => e)
              DemoClient.net_forbidden DemoClient.clock DemoClient.URL_parse
              DemoClient.sessionId_of "TypeError" DemoClient.config DemoClient.is_email
              DemoClient.signed_out
              (BillCom.mkHttpResponse _ _ 403 "forbidden" (inr "not JSON"))
              (or_introl eq_refl) eq_refl eq_refl Hstatus) as (_ & _ & H & _).
  destruct (H DemoClient.acme eq_refl) as (H1 & H2 & _). split; [exact H1|exact H2].
Defined.

(** The vendor "Acme" posted with the session "s2". *)
Lemma X23_create_vendor_posts_data_witness :
  let out := Tools.create_vendor Z string string (fun r => r) (fun e => e)
               DemoClient.net DemoClient.clock DemoClient.URL_parse
               DemoClient.sessionId_of "TypeError" DemoClient.config DemoClient.is_email
               DemoClient.acme DemoClient.with_s2 in
  BillCom.sent _ out.2
  = [BillCom.Call _ "POST" DemoClient.vendors_url "dev-key" "s2"
       (Some [("name", Tools.VString Z "Acme");
              ("accountType", Tools.VString Z "Company");
              ("email", Tools.VString Z "ap@acme.example");
              ("address",
               Tools.VAddress Z
                 (Tools.mkAddress (Some "1 Main St") (Some "Suite 5") (Some "Springfield")
                    None None None))])]
  /\ out.1 = Tools.Ran (Tools.mkToolResult "[]" false).
Proof.
  assert (Hage : DemoClient.clock 0 - 0 <= 30 * 60 * 1000) by (vm_compute; discriminate).
  assert (H401 : (200 : Z) <> 401) by discriminate.
  assert (Hstatus : 0 <= 200 <= 999) by lia.
  exact (proj2 (X23_create_vendor_posts_data Z string string (fun r => r) (fun e => e)
                  DemoClient.net DemoClient.clock DemoClient.URL_parse
                  DemoClient.sessionId_of "TypeError" DemoClient.config DemoClient.is_email
                  DemoClient.acme DemoClient.with_s2
                  (BillCom.mkSession "s2" 0) DemoClient.vendors_url
                  (BillCom.mkHttpResponse _ _ 200 "[]" (inl "[]"))
                  eq_refl Hage eq_refl) eq_refl eq_refl H401 Hstatus).
Defined.

(** list_vendors without arguments, with the session "s2"; and with a max
    of 1000, which is refused. *)
Lemma X24_list_paging_witness :
  (exists paged rest,
     BillCom.sent _
       (Tools.list_vendors Z string string (fun r => r) (fun e => e) DemoClient.net
          DemoClient.clock DemoClient.URL_parse DemoClient.sessionId_of "TypeError"
          DemoClient.config None None DemoClient.with_s2).2
     = BillCom.Call _ "GET" paged "dev-key" "s2" None :: rest
     /\ searchParams paged = [("start", "0"); ("max", "20")])
  /\ Tools.list_vendors Z string string (fun r => r) (fun e => e) DemoClient.net
       DemoClient.clock DemoClient.URL_parse DemoClient.sessionId_of "TypeError"
       DemoClient.config (Some (-1)) (Some 1000) DemoClient.with_s2
     = (Tools.Refused, DemoClient.with_s2).
Proof.
  assert (Hage : DemoClient.clock 0 - 0 <= 30 * 60 * 1000) by (vm_compute; discriminate).
  assert (Hsafe : 0 <= 0 <= BillCom.MAX_SAFE_INTEGER) by (vm_compute; split; discriminate).
  split.
  - destruct (proj2 (X24_list_paging Z string string (fun r => r) (fun e => e)
                       DemoClient.net DemoClient.clock DemoClient.URL_parse
                       DemoClient.sessionId_of "TypeError" DemoClient.config None None
                       DemoClient.with_s2 (BillCom.mkSession "s2" 0)
                       DemoClient.vendors_url eq_refl Hage eq_refl) eq_refl Hsafe)
      as (_ & paged & rest & Hsent & _).
    vm_compute in Hsent. injection Hsent as <- <-.
    eexists _, _. split; vm_compute; reflexivity.
  - exact (proj1 (X24_list_paging Z string string (fun r => r) (fun e => e)
                    DemoClient.net DemoClient.clock DemoClient.URL_parse
                    DemoClient.sessionId_of "TypeError" DemoClient.config
                    (Some (-1)) (Some 1000) DemoClient.with_s2 (BillCom.mkSession "s2" 0)
                    DemoClient.vendors_url eq_refl Hage eq_refl) eq_refl).
Defined.

(** * Properties of the start-up *)

Ltac each_key Hk :=
  repeat (apply elem_of_cons in Hk as [->|Hk]; [assumption|]); inversion Hk.

(** X25: index.ts starts a server only when the five Bill.com variables
    are all set and not empty; otherwise it exits with code 1 and the
    variable it names is the first one, in the order of the list, that is
    missing or empty.  The configuration of the server it starts holds the
    values of the five variables, none of them empty, and it is the HTTP
    server exactly when MCP_TRANSPORT is "http". *)
Theorem X25_startup_requires_configuration (env : string -> option string) :
  match Startup.main env with
  | Startup.Exit code key =>
      code = 1 /\ JS.falsy (env key) = true
      /\ exists before after,
           Startup.required = (before ++ key :: after)%list
           /\ forall k, k ∈ before -> JS.falsy (env k) = false
  | Startup.Http config | Startup.Stdio config =>
      (forall k, k ∈ Startup.required -> JS.falsy (env k) = false)
      /\ env "BILLCOM_API_BASE_URL" = Some (BillCom.baseUrl config)
      /\ env "BILLCOM_USERNAME" = Some (BillCom.username config)
      /\ env "BILLCOM_PASSWORD" = Some (BillCom.password config)
      /\ env "BILLCOM_ORGANIZATION_ID" = Some (BillCom.organizationId config)
      /\ env "BILLCOM_DEV_KEY" = Some (BillCom.devKey config)
      /\ BillCom.baseUrl config <> "" /\ BillCom.username config <> ""
      /\ BillCom.password config <> "" /\ BillCom.organizationId config <> ""
      /\ BillCom.devKey config <> ""
  end
  /\ ((exists config, Startup.main env = Startup.Http config)
      -> env "MCP_TRANSPORT" = Some "http")
  /\ ((exists config, Startup.main env = Startup.Stdio config)
      -> env "MCP_TRANSPORT" <> Some "http").
Proof.
  unfold Startup.main, Startup.required. cbn [List.find].
  destruct (JS.falsy (env "BILLCOM_API_BASE_URL")) eqn:H1.
  { split; [|split; intros [c [=]]]. split; [reflexivity|]. split; [exact H1|].
    exists [], (tail Startup.required). split; [reflexivity|]. intros k Hk. inversion Hk. }
  destruct (JS.falsy (env "BILLCOM_USERNAME")) eqn:H2.
  { split; [|split; intros [c [=]]]. split; [reflexivity|]. split; [exact H2|].
    exists (take 1 Startup.required), (drop 2 Startup.required).
    split; [reflexivity|]. intros k Hk. cbn in Hk. each_key Hk. }
  destruct (JS.falsy (env "BILLCOM_PASSWORD")) eqn:H3.
  { split; [|split; intros [c [=]]]. split; [reflexivity|]. split; [exact H3|].
    exists (take 2 Startup.required), (drop 3 Startup.required).
    split; [reflexivity|]. intros k Hk. cbn in Hk. each_key Hk. }
  destruct (JS.falsy (env "BILLCOM_ORGANIZATION_ID")) eqn:H4.
  { split; [|split; intros [c [=]]]. split; [reflexivity|]. split; [exact H4|].
    exists (take 3 Startup.required), (drop 4 Startup.required).
    split; [reflexivity|]. intros k Hk. cbn in Hk. each_key Hk. }
  destruct (JS.falsy (env "BILLCOM_DEV_KEY")) eqn:H5.
  { split; [|split; intros [c [=]]]. split; [reflexivity|]. split; [exact H5|].
    exists (take 4 Startup.required), (drop 5 Startup.required).
    split; [reflexivity|]. intros k Hk. cbn in Hk. each_key Hk. }
  assert (Hall : forall k, k ∈ Startup.required -> JS.falsy (env k) = false).
  { intros k Hk. unfold Startup.required in Hk. each_key Hk. }
  pose proof H1 as (v1 & E1 & N1)%falsy_false. pose proof H2 as (v2 & E2 & N2)%falsy_false.
  pose proof H3 as (v3 & E3 & N3)%falsy_false. pose proof H4 as (v4 & E4 & N4)%falsy_false.
  pose proof H5 as (v5 & E5 & N5)%falsy_false.
  rewrite E1, E2, E3, E4, E5. change (str (Some ?x)) with x.
  destruct (JS.strict_eq (env "MCP_TRANSPORT") "http") eqn:Ht.
  - apply strict_eq_true in Ht. split; [repeat split; assumption|].
    split; [intros _; exact Ht|intros [c [=]]].
  - split; [repeat split; assumption|]. split; [intros [c [=]]|].
    intros _ Heq. apply strict_eq_true in Heq. congruence.
Qed.

(** X26: /mcp behind OAuth.  A request that the app's own middleware
    answers, as it does a body that does not parse, gets that answer and
    reaches nothing else.  The bearer check stands in front of /mcp exactly
    when GOOGLE_CLIENT_ID and GOOGLE_CLIENT_SECRET are both set and not
    empty.  Then a request reaches a transport or starts a session only
    with a bearer token that is stored and not expired, and any other
    request that the middleware passes is answered 401; when either
    variable is missing, /mcp does not look at the Authorization header at
    all.  In both cases a request is handled by a transport only under the
    session id that transport is registered with, and a session is started
    only by a POST without session id that is an initialize request. *)
Theorem X26_mcp_guard (T : Type) (env : string -> option string) (app : Startup.Premounted)
    (authorization : option string) (now : Z) (s : Stores) (verb : Startup.Verb)
    (sessionId : option string) (initialize : bool) (transports : gmap string T) :
  let out := Startup.mcp env app authorization now s verb sessionId initialize transports in
  (forall r, app = Startup.Refuses r -> out = Startup.Answered r)
  /\ (Startup.oauth_enabled env = true <->
      JS.falsy (env "GOOGLE_CLIENT_ID") = false
      /\ JS.falsy (env "GOOGLE_CLIENT_SECRET") = false)
  /\ (Startup.oauth_enabled env = true ->
      (app = Startup.Passes -> requireAuth authorization now s <> Next ->
       out = Startup.Answered unauthorized)
      /\ ((out = Startup.Initialized \/ exists t, out = Startup.Handled t) ->
          app = Startup.Passes
          /\ exists token stored,
               authorization = bearer token /\ accessTokens s !! token = Some stored
               /\ now <= StoredToken.expiresAt stored))
  /\ (Startup.oauth_enabled env = false ->
      forall authorization' now' s',
        Startup.mcp env app authorization' now' s' verb sessionId initialize transports
        = out)
  /\ (forall t, out = Startup.Handled t ->
      exists id, sessionId = Some id /\ id <> "" /\ transports !! id = Some t)
  /\ (out = Startup.Initialized ->
      verb = Startup.POST /\ JS.falsy sessionId = true /\ initialize = true).
Proof.
  cbv zeta.
  assert (Hhandler : forall t,
            Startup.mcp_handler verb sessionId initialize transports = Startup.Handled t ->
            exists id, sessionId = Some id /\ id <> "" /\ transports !! id = Some t).
  { intros t. unfold Startup.mcp_handler.
    destruct verb; destruct (JS.falsy sessionId) eqn:Hf; cbn [negb];
      try discriminate; try (destruct initialize; discriminate);
      apply falsy_false in Hf as (id & -> & Hid); change (str (Some id)) with id;
      (destruct (transports !! id) as [t'|] eqn:Ht; [|discriminate]);
      intros [= <-]; eauto. }
  assert (Hinit : Startup.mcp_handler verb sessionId initialize transports
                  = Startup.Initialized ->
                  verb = Startup.POST /\ JS.falsy sessionId = true /\ initialize = true).
  { unfold Startup.mcp_handler.
    destruct verb; destruct (JS.falsy sessionId); destruct initialize; cbn [negb];
      repeat case_match; try discriminate; auto. }
  split; [|split; [|split; [|split; [|split]]]].
  - intros r ->. reflexivity.
  - unfold Startup.oauth_enabled.
    destruct (JS.falsy (env "GOOGLE_CLIENT_ID")), (JS.falsy (env "GOOGLE_CLIENT_SECRET"));
      cbn;
      (split; [intros H; try discriminate H; split; reflexivity
              |intros [H1 H2]; try discriminate H1; try discriminate H2; reflexivity]).
  - intros Hon. unfold Startup.mcp. rewrite Hon. split.
    + intros -> Hno. unfold requireAuth in *.
      repeat case_match; try reflexivity; contradiction Hno; reflexivity.
    + intros Hout. destruct app as [r|].
      { destruct Hout as [Hout|[t Hout]]; discriminate. }
      split; [reflexivity|].
      destruct (requireAuth authorization now s) eqn:Hreq.
      * apply requireAuth_Next in Hreq as (token & stored & ? & ? & ?).
        exists token, stored. split; [assumption|]. split; [assumption|]. lia.
      * destruct Hout as [Hout|[t Hout]]; discriminate.
  - intros Hoff authorization' now' s'. unfold Startup.mcp. rewrite Hoff. reflexivity.
  - intros t. unfold Startup.mcp. destruct app as [r|]; [discriminate|].
    destruct (Startup.oauth_enabled env); [|apply Hhandler].
    destruct (requireAuth authorization now s); [apply Hhandler|discriminate].
  - unfold Startup.mcp. destruct app as [r|]; [discriminate|].
    destruct (Startup.oauth_enabled env); [|apply Hinit].
    destruct (requireAuth authorization now s); [apply Hinit|discriminate].
Qed.

(** With a client id but no client secret in the environment, /mcp answers
    a request that carries no Authorization header. *)
Example mcp_open_without_secret :
  Startup.oauth_enabled DemoClient.env = false
  /\ Startup.mcp DemoClient.env Startup.Passes None 5000 Sample.stores Startup.POST None true
       (∅ : gmap string nat)
     = Startup.Initialized.
Proof. vm_compute. split; reflexivity. Qed.
